(** * file-api-microservice: path validation and the two-root visibility store

    A shallow embedding of [src/pathUtils.js], of the route handlers of
    [src/routes.js], of the bearer-token check of [src/middleware.js] and of
    the guard that [src/app.js] mounts below [/public], together with the
    properties of the path-safety engine and of the public/private
    visibility state machine.

    Conventions.
    - JavaScript strings are embedded as [string] (byte strings).  Every
      character that [validatePath] inspects is ASCII, and a non-ASCII
      character is encoded by bytes above 127, none of which belongs to the
      class [[a-zA-Z0-9_-]] or equals ['.'] or ['/'], so the verdicts agree.
    - A thrown [Error] is the left summand of a sum, carrying its message.
    - The host is POSIX (the image is [node:18-alpine]): the separator is
      ['/'] and a path is absolute when it starts with it. *)

From Stdlib Require Import Ascii String.
From stdpp Require Import gmap strings list fin_maps.

Local Open Scope string_scope.

(** ** JavaScript string primitives used by the sources *)

Module JsString.

(** [!s] for a string: only the empty string is falsy. *)
Definition falsy (s : string) : bool :=
  match s with
  | EmptyString => true
  | String _ _ => false
  end.

(** [s.startsWith(p)] *)
Fixpoint startsWith (p s : string) : bool :=
  match p, s with
  | EmptyString, _ => true
  | String a p', String b s' => if decide (a = b) then startsWith p' s' else false
  | String _ _, EmptyString => false
  end.

(** [s.includes(p)] *)
Fixpoint includes (p s : string) : bool :=
  startsWith p s ||
  match s with
  | EmptyString => false
  | String _ s' => includes p s'
  end.

(** [s.endsWith(p)] for a one-character [p]. *)
Fixpoint endsWithChar (c : ascii) (s : string) : bool :=
  match s with
  | EmptyString => false
  | String a EmptyString => if decide (a = c) then true else false
  | String _ s' => endsWithChar c s'
  end.

(** [s.split(c)]: the pieces of [s] between the occurrences of [c]; never
    empty: the empty string splits into one empty piece. *)
Fixpoint split (c : ascii) (s : string) : list string :=
  match s with
  | EmptyString => [EmptyString]
  | String a s' =>
      if decide (a = c) then EmptyString :: split c s'
      else match split c s' with
           | [] => [String a EmptyString]
           | w :: ws => String a w :: ws
           end
  end.

(** [s.split(c)[0]] *)
Definition splitHead (c : ascii) (s : string) : string :=
  match split c s with
  | [] => EmptyString
  | w :: _ => w
  end.

(** Every character of [s] satisfies [p]. *)
Fixpoint allChars (p : ascii -> bool) (s : string) : bool :=
  match s with
  | EmptyString => true
  | String a s' => p a && allChars p s'
  end.

(** [c] occurs in [s]. *)
Fixpoint hasChar (c : ascii) (s : string) : bool :=
  match s with
  | EmptyString => false
  | String a s' => (if decide (a = c) then true else false) || hasChar c s'
  end.

End JsString.

(** ** [src/pathUtils.js] *)

Module PathUtils.
Import JsString.

(** What [validatePath] returns: [{ folder, filename }], or [{ folder }]
    (then [filename] is [None], the JavaScript [undefined]). *)
Record validated := Validated { folder : string; filename : option string }.

(** The character class [[a-zA-Z0-9_-]]. *)
Definition safeChar (c : ascii) : bool :=
  let n := nat_of_ascii c in
  (Nat.leb 97 n && Nat.leb n 122) || (Nat.leb 65 n && Nat.leb n 90) ||
  (Nat.leb 48 n && Nat.leb n 57) || Nat.eqb n 95 || Nat.eqb n 45.

(** [safePattern.test(s)] for [safePattern = /^[a-zA-Z0-9_-]+$/]. *)
Definition safePattern (s : string) : bool :=
  negb (falsy s) && allChars safeChar s.

(** [path.isAbsolute(p)] of the POSIX [path] module. *)
Definition isAbsolute (p : string) : bool := startsWith "/" p.

(** [validatePath(folder, filename = null)].  The optional argument is
    [None] for [null]/[undefined]; [if (filename)] is false for those and
    for the empty string. *)
Definition validatePath (folder : string) (filename : option string)
  : string + validated :=
  if falsy folder then inl "Folder name is required"
  else if isAbsolute folder || includes ".." folder || startsWith "." folder
  then inl "Invalid folder path"
  else if negb (safePattern folder) then inl "Invalid folder name"
  else match filename with
       | Some filename =>
           if negb (falsy filename) then
             if falsy filename then inl "Filename is required"
             else if isAbsolute filename || includes ".." filename
                     || startsWith "." filename
             then inl "Invalid file path"
             else
               let filenameBase := splitHead "." filename in
               if negb (safePattern filenameBase) then inl "Invalid filename"
               else inr (Validated folder (Some filename))
           else inr (Validated folder None)
       | None => inr (Validated folder None)
       end.

(** [buildPublicUrl(folder, filename = null)], with [process.env.PUBLIC_URL]
    as the first argument. *)
Definition buildPublicUrl (baseUrl folder : string) (filename : option string)
  : string :=
  match filename with
  | Some filename =>
      if negb (falsy filename)
      then baseUrl ++ "/public/" ++ folder ++ "/" ++ filename
      else baseUrl ++ "/public/" ++ folder ++ "/"
  | None => baseUrl ++ "/public/" ++ folder ++ "/"
  end.

End PathUtils.

(** ** The filesystem the routes run on

    The routes touch the disk only through [fs-extra] ([pathExists],
    [ensureDir], [writeFile], [remove], [move], [readdir], [stat]) and build
    every path with [path.join] from the literal ['public'] or ['private'].
    The model below is an idealised POSIX tree:
    - the two roots are directories (the application creates [public/] at
      start-up and every route creates the root it needs), so a disk is the
      pair of their contents;
    - a node is a regular file with its bytes or a directory with its named
      entries; there are no links, permissions, quotas or name-length
      limits, and modification times are not recorded;
    - every string can name an entry.  The host is narrower: Node refuses a
      path that holds a NUL byte ([ERR_INVALID_ARG_VALUE]) and the
      filesystem a component above [NAME_MAX] bytes ([ENAMETOOLONG]), both
      before anything is written.  A disk of the host bears no such name,
      and a property that has a route create an entry is stated for the
      names the host takes ([hostName], below);
    - a failing primitive throws an [Error] whose message is the errno text
      (Node appends the system call and the path, which are left out). *)

Module Fs.
Import JsString.

#[warning="-register-all"]
Inductive node :=
  | File (data : list Byte.byte)
  | Dir (entries : gmap string node).

Inductive root := Public | Private.

#[global] Instance root_eq_dec : EqDecision root.
Proof. solve_decision. Defined.

Record disk := Disk { public : gmap string node; private : gmap string node }.

Definition tree (r : root) (d : disk) : gmap string node :=
  match r with Public => public d | Private => private d end.

Definition setTree (r : root) (t : gmap string node) (d : disk) : disk :=
  match r with
  | Public => Disk t (private d)
  | Private => Disk (public d) t
  end.

(** A normalised relative path: the root it starts in, the names below the
    root, and whether it was written with a trailing separator (such a path
    can only name a directory). *)
Record fpath := Path { base : root; segs : list string; dirOnly : bool }.

Definition rootPath (r : root) : fpath := Path r [] false.

Definition isDir (n : node) : bool :=
  match n with Dir _ => true | File _ => false end.

Definition isFile (n : node) : bool := negb (isDir n).

(** *** The [path] module *)

(** The names a string contributes to a joined path: [path.join] splits at
    the separator and drops empty and ['.'] pieces.  (A ['..'] piece would
    climb; no string accepted by [validatePath] has one.) *)
Definition segments (s : string) : list string :=
  filter (λ w, w ≠ EmptyString ∧ w ≠ ".") (split "/" s).

(** [path.join(p, ...parts)]; [undefined] among the parts is a [TypeError]. *)
Fixpoint pathJoin (p : fpath) (parts : list (option string)) : string + fpath :=
  match parts with
  | [] => inr p
  | None :: _ => inl "The path argument must be of type string. Received undefined"
  | Some s :: parts' =>
      pathJoin (Path (base p) (segs p ++ segments s)%list
                     (if falsy s then dirOnly p else endsWithChar "/" s)) parts'
  end.

(** [path.dirname(p)] *)
Definition dirname (p : fpath) : fpath :=
  Path (base p) (removelast (segs p)) false.

(** [path.resolve(p)] for a relative [p]: the same place, counted from the
    working directory and written without trailing separator. *)
Definition pathResolve (p : fpath) : fpath := Path (base p) (segs p) false.

(** *** Errors *)

Definition ENOENT : string := "ENOENT: no such file or directory".
Definition ENOTDIR : string := "ENOTDIR: not a directory".
Definition EISDIR : string := "EISDIR: illegal operation on a directory".
Definition EEXIST : string := "EEXIST: file already exists".

(** *** Walking and editing one tree *)

(** The node that the names [p] lead to, starting from [n]. *)
Fixpoint statNode (n : node) (p : list string) : string + node :=
  match p with
  | [] => inr n
  | s :: p' =>
      match n with
      | File _ => inl ENOTDIR
      | Dir t =>
          match t !! s with
          | None => inl ENOENT
          | Some c => statNode c p'
          end
      end
  end.

(** [mkdir -p]: create the missing directories along [p]. *)
Fixpoint mkdirp (t : gmap string node) (p : list string)
  : string + gmap string node :=
  match p with
  | [] => inr t
  | s :: p' =>
      match t !! s with
      | None =>
          match mkdirp ∅ p' with
          | inl e => inl e
          | inr t' => inr (<[s := Dir t']> t)
          end
      | Some (Dir t0) =>
          match mkdirp t0 p' with
          | inl e => inl e
          | inr t' => inr (<[s := Dir t']> t)
          end
      | Some (File _) => inl (match p' with [] => EEXIST | _ => ENOTDIR end)
      end
  end.

(** Bind the name at the end of [p] to [n]; the directories above it must
    exist. *)
Fixpoint putAt (t : gmap string node) (p : list string) (n : node)
  : string + gmap string node :=
  match p with
  | [] => inl EISDIR
  | [s] => inr (<[s := n]> t)
  | s :: (_ :: _) as p' =>
      match t !! s with
      | None => inl ENOENT
      | Some (File _) => inl ENOTDIR
      | Some (Dir t0) =>
          match putAt t0 p' n with
          | inl e => inl e
          | inr t' => inr (<[s := Dir t']> t)
          end
      end
  end.

(** Unlink the name at the end of [p] with everything below it.  Removing
    the root itself leaves it empty. *)
Fixpoint removeAt (t : gmap string node) (p : list string) : gmap string node :=
  match p with
  | [] => ∅
  | [s] => delete s t
  | s :: (_ :: _) as p' =>
      match t !! s with
      | Some (Dir t0) => <[s := Dir (removeAt t0 p')]> t
      | _ => t
      end
  end.

(** *** The primitives of [fs-extra]

    A primitive transforms the disk and returns a value or throws; what it
    changed before throwing stays changed. *)

Definition M (A : Type) : Type := disk → (string + A) * disk.

#[global] Instance M_ret : MRet M := λ A a d, (inr a, d).

#[global] Instance M_bind : MBind M := λ A B k m d,
  match m d with
  | (inl e, d') => (inl e, d')
  | (inr a, d') => k a d'
  end.

Definition throw {A} (e : string) : M A := λ d, (inl e, d).

(** A computation that does not touch the disk. *)
Definition lift {A} (r : string + A) : M A := λ d, (r, d).

(** What [p] names on [d]: a trailing separator on a regular file is
    [ENOTDIR]. *)
Definition statPath (d : disk) (p : fpath) : string + node :=
  match statNode (Dir (tree (base p) d)) (segs p) with
  | inr (File data) => if dirOnly p then inl ENOTDIR else inr (File data)
  | r => r
  end.

(** [fs.stat(p)] *)
Definition stat (p : fpath) : M node := λ d, (statPath d p, d).

(** [fs.pathExists(p)]: never throws, any failure of the probe is [false]. *)
Definition pathExists (p : fpath) : M bool := λ d,
  (inr (match statPath d p with inr _ => true | inl _ => false end), d).

(** [fs.ensureDir(p)] *)
Definition ensureDir (p : fpath) : M () := λ d,
  match mkdirp (tree (base p) d) (segs p) with
  | inl e => (inl e, d)
  | inr t => (inr (), setTree (base p) t d)
  end.

(** [fs.writeFile(p, data)]: creates or truncates the file; the directory
    holding it must exist. *)
Definition writeFile (p : fpath) (data : list Byte.byte) : M () := λ d,
  if dirOnly p then (inl EISDIR, d)
  else match statNode (Dir (tree (base p) d)) (segs p) with
       | inr (Dir _) => (inl EISDIR, d)
       | _ =>
           match putAt (tree (base p) d) (segs p) (File data) with
           | inl e => (inl e, d)
           | inr t => (inr (), setTree (base p) t d)
           end
       end.

(** [fs.readFile(p)], the direct read used to observe a stored file. *)
Definition readFile (p : fpath) : M (list Byte.byte) := λ d,
  match statPath d p with
  | inl e => (inl e, d)
  | inr (Dir _) => (inl EISDIR, d)
  | inr (File data) => (inr data, d)
  end.

(** [fs.remove(p)]: recursive and forced, an absent path is not an error. *)
Definition remove (p : fpath) : M () := λ d,
  match statPath d p with
  | inl e => if decide (e = ENOENT) then (inr (), d) else (inl e, d)
  | inr _ => (inr (), setTree (base p) (removeAt (tree (base p) d) (segs p)) d)
  end.

(** [fs.readdir(p)]: the names in a directory, in the order the map
    enumerates them (the order on a real disk is unspecified). *)
Definition readdir (p : fpath) : M (list string) := λ d,
  match statPath d p with
  | inl e => (inl e, d)
  | inr (File _) => (inl ENOTDIR, d)
  | inr (Dir t) => (inr (map fst (map_to_list t)), d)
  end.

(** [fs.rename(src, dest)] towards a destination that does not exist
    ([move] has just removed it): atomic, the node changes place. *)
Definition rename (src dest : fpath) : M () := λ d,
  match statPath d src with
  | inl e => (inl e, d)
  | inr n =>
      if dirOnly dest && isFile n then (inl ENOTDIR, d)
      else
        let d1 := setTree (base src) (removeAt (tree (base src) d) (segs src)) d in
        match putAt (tree (base dest) d1) (segs dest) n with
        | inl e => (inl e, d)
        | inr t => (inr (), setTree (base dest) t d1)
        end
  end.

(** Two paths name the same node (there are no links). *)
Definition areIdentical (src dest : fpath) : bool :=
  bool_decide (base src = base dest) && bool_decide (segs src = segs dest).

(** [isSrcSubdir]: every name of [src] is the name of [dest] at the same
    position. *)
Definition isSrcSubdir (src dest : fpath) : bool :=
  bool_decide (base src = base dest) &&
  bool_decide (segs src `prefix_of` segs dest).

(** [fs.move(src, dest, { overwrite: true })], as current fs-extra has it:
    check the two ends ([stat.checkPaths]: not the same node, not a
    directory over a file or a file over a directory, not a directory into
    itself), create the directory that will hold [dest], remove [dest],
    rename.  When the rename crosses devices fs-extra copies and removes,
    with the same outcome. *)
Definition move (src dest : fpath) : M () :=
  srcStat ← stat src;
  destStat ← (λ d, match statPath d dest with
                   | inr n => (inr (Some n), d)
                   | inl e => if decide (e = ENOENT) then (inr None, d)
                              else (inl e, d)
                   end);
  match destStat with
  | Some n =>
      if areIdentical src dest
      then throw "Source and destination must not be the same."
      else if isDir srcStat && isFile n
      then throw "Cannot overwrite non-directory with directory."
      else if isFile srcStat && isDir n
      then throw "Cannot overwrite directory with non-directory."
      else mret ()
  | None => mret ()
  end;;
  (if isDir srcStat && isSrcSubdir src dest
   then throw "Cannot move to a subdirectory of itself."
   else mret ());;
  ensureDir (dirname dest);;
  remove dest;;
  rename src dest.

End Fs.

(** ** [src/routes.js]

    The handlers are anonymous functions in the source; each bears here the
    name of the logical call it serves ([mkdir], [storeFile], [deleteItem],
    [exposeFolder], [unexposeFolder], [renameItem], [listFolder],
    [listRoot]).  A handler takes what the route extracts from the request
    and the disk, and returns the answer and the disk it leaves. *)

Module Routes.
Import JsString Fs.

Inductive Visibility := exposed | hidden.

#[global] Instance Visibility_eq_dec : EqDecision Visibility.
Proof. solve_decision. Defined.

(** An element of [files] in the answer of [GET /list/:folder] (the
    [modified] time is not modelled). *)
Record fileEntry := FileEntry { name : string; size : nat }.

(** An element of [folders] in the answer of [GET /list]. *)
Record folderEntry := FolderEntry {
  folderName : string;
  folderVisibility : Visibility;
  folderUrl : option string
}.

(** The envelope of a successful answer; [None] is JSON [null] (for
    [files] and [folders]: the key is absent). *)
Record body := Body {
  action : string;
  visibility : option Visibility;
  url : option string;
  folder : option string;
  file : option string;
  message : string;
  files : option (list fileEntry);
  folders : option (list folderEntry)
}.

(** [res.json({ status: 'ok', ... })] answers 200;
    [res.status(n).json({ status: 'error', message })] answers [n]. *)
Inductive response :=
  | json (b : body)
  | failure (status : nat) (message : string).

(** What [GET /public/:folder/:filename] does with a request: it answers in
    JSON, or it calls [res.sendFile(p)], which streams the file at [p]. *)
Inductive served :=
  | sendFile (p : fpath)
  | answered (r : response).

(** [try { ... } catch (validationError) { 400, validationError.message }]:
    the inner handler of every route catches whatever is thrown, a rejected
    name and a failed disk operation alike. *)
Definition catch400 (m : M response) : disk → response * disk := λ d,
  match m d with
  | (inr r, d') => (r, d')
  | (inl e, d') => (failure 400 e, d')
  end.

(** [try { ... } catch (error) { 500, 'Internal server error' }] *)
Definition catch500 (m : M response) : disk → response * disk := λ d,
  match m d with
  | (inr r, d') => (r, d')
  | (inl _, d') => (failure 500 "Internal server error", d')
  end.

(** Truthiness of an optional string: absent and empty are falsy. *)
Definition truthy (s : option string) : bool :=
  match s with
  | Some s => negb (falsy s)
  | None => false
  end.

(** [Promise.all(items.map(f))] *)
Fixpoint mapM {A B} (f : A → M B) (l : list A) : M (list B) :=
  match l with
  | [] => mret []
  | a :: l' => b ← f a; bs ← mapM f l'; mret (b :: bs)
  end.

(** A JavaScript [Map] with string keys: the entries in insertion order;
    [set] on a present key replaces the value where it stands. *)
Definition mapHas {V} (m : list (string * V)) (k : string) : bool :=
  bool_decide (k ∈ m.*1).

Fixpoint mapSet {V} (m : list (string * V)) (k : string) (v : V)
  : list (string * V) :=
  match m with
  | [] => [(k, v)]
  | (k', v') :: m' =>
      if decide (k' = k) then (k, v) :: m' else (k', v') :: mapSet m' k v
  end.

Definition mapValues {V} (m : list (string * V)) : list V := m.*2.

Section Routes.

(** [process.env.PUBLIC_URL] *)
Variable PUBLIC_URL : string.

Definition visibilityOf (isExposed : bool) : Visibility :=
  if isExposed then exposed else hidden.

Definition baseDirOf (isExposed : bool) : root :=
  if isExposed then Public else Private.

(** [POST /upload], from validation on: what both encodings of the request
    run once [folder], [filename], [expose] and [fileData] are extracted. *)
Definition storeFile (folder filename : string) (expose : bool)
    (fileData : list Byte.byte) : disk → response * disk :=
  catch400 (
    v ← lift (PathUtils.validatePath folder (Some filename));
    let safeFolder := PathUtils.folder v in
    let safeFilename := PathUtils.filename v in
    let baseDir := baseDirOf expose in
    folderPath ← lift (pathJoin (rootPath baseDir) [Some safeFolder]);
    ensureDir folderPath;;
    filePath ← lift (pathJoin folderPath [safeFilename]);
    writeFile filePath fileData;;
    let visibility := visibilityOf expose in
    let url := if expose
               then Some (PathUtils.buildPublicUrl PUBLIC_URL safeFolder safeFilename)
               else None in
    mret (json (Body "file_uploaded" (Some visibility) url (Some safeFolder)
                     safeFilename "File uploaded" None None))).

(** [POST /upload] with [Content-Type: application/octet-stream]: the
    fields come from the headers [X-Folder], [X-Filename], [X-Expose] and
    the data is the request body. *)
Definition upload (xFolder xFilename xExpose : option string)
    (fileData : list Byte.byte) : disk → response * disk :=
  let expose := bool_decide (xExpose = Some "true") in
  match xFolder, xFilename with
  | Some folder, Some filename =>
      if falsy folder || falsy filename
      then λ d, (failure 400 "Missing required headers: X-Folder, X-Filename", d)
      else storeFile folder filename expose fileData
  | _, _ => λ d, (failure 400 "Missing required headers: X-Folder, X-Filename", d)
  end.

(** [POST /upload] with a JSON body: the fields come from the body,
    [expose] is the truthiness of its field, and the data is
    [Buffer.from(base64, 'base64')], taken here as the function [decode]. *)
Definition uploadJson (decode : string → list Byte.byte)
    (reqFolder reqFilename base64 : option string) (reqExpose : bool)
  : disk → response * disk :=
  match reqFolder, reqFilename, base64 with
  | Some folder, Some filename, Some base64 =>
      if falsy folder || falsy filename || falsy base64
      then λ d, (failure 400 "Missing required fields: folder, filename, base64", d)
      else storeFile folder filename reqExpose (decode base64)
  | _, _, _ =>
      λ d, (failure 400 "Missing required fields: folder, filename, base64", d)
  end.

(** [POST /mkdir] *)
Definition mkdir (folder : option string) (expose : bool)
  : disk → response * disk :=
  match folder with
  | Some folder =>
      if falsy folder then λ d, (failure 400 "Folder name is required", d)
      else
        catch400 (
          v ← lift (PathUtils.validatePath folder None);
          let safeFolder := PathUtils.folder v in
          let baseDir := baseDirOf expose in
          folderPath ← lift (pathJoin (rootPath baseDir) [Some safeFolder]);
          ensureDir folderPath;;
          let visibility := visibilityOf expose in
          let url := if expose
                     then Some (PathUtils.buildPublicUrl PUBLIC_URL safeFolder None)
                     else None in
          mret (json (Body "folder_created" (Some visibility) url (Some safeFolder)
                           None "Folder created" None None)))
  | None => λ d, (failure 400 "Folder name is required", d)
  end.

(** [DELETE /delete/:folder/:filename?] *)
Definition deleteItem (folder : string) (filename : option string)
  : disk → response * disk :=
  catch400 (
    if truthy filename then
      v ← lift (PathUtils.validatePath folder filename);
      let safeFolder := PathUtils.folder v in
      let safeFilename := PathUtils.filename v in
      publicPath ← lift (pathJoin (rootPath Public) [Some safeFolder; safeFilename]);
      privatePath ← lift (pathJoin (rootPath Private) [Some safeFolder; safeFilename]);
      inPublic ← pathExists publicPath;
      filePath ← (if inPublic : bool then mret (Some publicPath)
                  else inPrivate ← pathExists privatePath;
                       mret (if inPrivate : bool then Some privatePath else None));
      match filePath with
      | None => mret (failure 404 "File not found")
      | Some filePath =>
          remove filePath;;
          mret (json (Body "file_deleted" (Some hidden) None (Some safeFolder)
                           safeFilename "File deleted" None None))
      end
    else
      v ← lift (PathUtils.validatePath folder None);
      let safeFolder := PathUtils.folder v in
      publicPath ← lift (pathJoin (rootPath Public) [Some safeFolder]);
      privatePath ← lift (pathJoin (rootPath Private) [Some safeFolder]);
      inPublic ← pathExists publicPath;
      (if inPublic : bool then remove publicPath else mret ());;
      inPrivate ← pathExists privatePath;
      (if inPrivate : bool then remove privatePath else mret ());;
      let folderExists := inPublic || inPrivate in
      if negb folderExists then mret (failure 404 "Folder not found")
      else mret (json (Body "folder_deleted" (Some hidden) None (Some safeFolder)
                            None "Folder and contents deleted" None None))).

(** [POST /expose/:folder] *)
Definition exposeFolder (folder : string) : disk → response * disk :=
  catch400 (
    v ← lift (PathUtils.validatePath folder None);
    let safeFolder := PathUtils.folder v in
    privatePath ← lift (pathJoin (rootPath Private) [Some safeFolder]);
    publicPath ← lift (pathJoin (rootPath Public) [Some safeFolder]);
    inPrivate ← pathExists privatePath;
    found ← (if inPrivate : bool then
               ensureDir (dirname publicPath);;
               move privatePath publicPath;;
               mret true
             else
               inPublic ← pathExists publicPath;
               mret (inPublic : bool));
    if found : bool then
      let url := PathUtils.buildPublicUrl PUBLIC_URL safeFolder None in
      mret (json (Body "folder_exposed" (Some exposed) (Some url) (Some safeFolder)
                       None "Folder is now public" None None))
    else mret (failure 404 "Folder not found")).

(** [POST /unexpose/:folder] *)
Definition unexposeFolder (folder : string) : disk → response * disk :=
  catch400 (
    v ← lift (PathUtils.validatePath folder None);
    let safeFolder := PathUtils.folder v in
    publicPath ← lift (pathJoin (rootPath Public) [Some safeFolder]);
    privatePath ← lift (pathJoin (rootPath Private) [Some safeFolder]);
    inPublic ← pathExists publicPath;
    found ← (if inPublic : bool then
               ensureDir (dirname privatePath);;
               move publicPath privatePath;;
               mret true
             else
               inPrivate ← pathExists privatePath;
               mret (inPrivate : bool));
    if found : bool then
      mret (json (Body "folder_unexposed" (Some hidden) None (Some safeFolder)
                       None "Folder is no longer public" None None))
    else mret (failure 404 "Folder not found")).

(** The probe shared by rename and list: the public path first, then the
    private one; [None] when neither exists. *)
Definition probe (publicPath privatePath : fpath) : M (option (fpath * bool)) :=
  inPublic ← pathExists publicPath;
  if inPublic : bool then mret (Some (publicPath, true))
  else
    inPrivate ← pathExists privatePath;
    mret (if inPrivate : bool then Some (privatePath, false) else None).

(** [PATCH /rename]; the four fields of the JSON body are optional.  (The
    quotation marks inside two of the messages are left out.) *)
Definition renameItem (type folder filename newName : option string)
  : disk → response * disk :=
  match type, folder, newName with
  | Some type, Some folder, Some newName =>
      if falsy type || falsy folder || falsy newName
      then λ d, (failure 400 "Missing required fields: type, folder, newName", d)
      else if negb (bool_decide (type = "file")) && negb (bool_decide (type = "folder"))
      then λ d, (failure 400 "Type must be file or folder", d)
      else if bool_decide (type = "file") && negb (truthy filename)
      then λ d, (failure 400 "Filename is required when type is file", d)
      else
        catch400 (
          if bool_decide (type = "file") then
            v ← lift (PathUtils.validatePath folder filename);
            let safeFolder := PathUtils.folder v in
            let safeFilename := PathUtils.filename v in
            v' ← lift (PathUtils.validatePath folder (Some newName));
            let safeNewName := PathUtils.filename v' in
            publicOldPath ← lift (pathJoin (rootPath Public) [Some safeFolder; safeFilename]);
            privateOldPath ← lift (pathJoin (rootPath Private) [Some safeFolder; safeFilename]);
            found ← probe publicOldPath privateOldPath;
            match found with
            | None => mret (failure 404 "File not found")
            | Some (oldPath, isExposed) =>
                let baseDir := baseDirOf isExposed in
                newPath ← lift (pathJoin (rootPath baseDir) [Some safeFolder; safeNewName]);
                move oldPath newPath;;
                let visibility := visibilityOf isExposed in
                let url := if isExposed
                           then Some (PathUtils.buildPublicUrl PUBLIC_URL safeFolder safeNewName)
                           else None in
                mret (json (Body "renamed" (Some visibility) url (Some safeFolder)
                                 safeNewName "File renamed successfully" None None))
            end
          else
            v ← lift (PathUtils.validatePath folder None);
            let safeFolder := PathUtils.folder v in
            v' ← lift (PathUtils.validatePath newName None);
            let safeNewName := PathUtils.folder v' in
            publicOldPath ← lift (pathJoin (rootPath Public) [Some safeFolder]);
            privateOldPath ← lift (pathJoin (rootPath Private) [Some safeFolder]);
            found ← probe publicOldPath privateOldPath;
            match found with
            | None => mret (failure 404 "Folder not found")
            | Some (oldPath, isExposed) =>
                let baseDir := baseDirOf isExposed in
                newPath ← lift (pathJoin (rootPath baseDir) [Some safeNewName]);
                move oldPath newPath;;
                let visibility := visibilityOf isExposed in
                let url := if isExposed
                           then Some (PathUtils.buildPublicUrl PUBLIC_URL safeNewName None)
                           else None in
                mret (json (Body "renamed" (Some visibility) url (Some safeNewName)
                                 None "Folder renamed successfully" None None))
            end)
  | _, _, _ => λ d, (failure 400 "Missing required fields: type, folder, newName", d)
  end.

(** [GET /list/:folder] *)
Definition listFolder (folder : string) : disk → response * disk :=
  catch400 (
    v ← lift (PathUtils.validatePath folder None);
    let safeFolder := PathUtils.folder v in
    publicPath ← lift (pathJoin (rootPath Public) [Some safeFolder]);
    privatePath ← lift (pathJoin (rootPath Private) [Some safeFolder]);
    found ← probe publicPath privatePath;
    match found with
    | None => mret (failure 404 "Folder not found")
    | Some (folderPath, isExposed) =>
        files ← readdir folderPath;
        fileDetails ← mapM (λ file,
                        filePath ← lift (pathJoin folderPath [Some file]);
                        stats ← stat filePath;
                        mret (match stats with
                              | File data => Some (FileEntry file (length data))
                              | Dir _ => None
                              end)) files;
        let fileList := omap id fileDetails in
        let visibility := visibilityOf isExposed in
        let url := if isExposed
                   then Some (PathUtils.buildPublicUrl PUBLIC_URL safeFolder None)
                   else None in
        mret (json (Body "folder_listed" (Some visibility) url (Some safeFolder)
                         None "Folder listed" (Some fileList) None))
    end).

(** The directories among the entries [items] of the root [r], each tagged
    with the visibility of that root; an entry that is not a directory
    yields [None] (the [null] that [filter(Boolean)] drops). *)
Definition rootFolders (r : root) (items : list string)
  : M (list (option folderEntry)) :=
  mapM (λ item,
    itemPath ← lift (pathJoin (rootPath r) [Some item]);
    stats ← stat itemPath;
    mret (if isDir stats
          then Some (match r with
                     | Public => FolderEntry item exposed
                                   (Some (PathUtils.buildPublicUrl PUBLIC_URL item None))
                     | Private => FolderEntry item hidden None
                     end)
          else None)) items.

(** The [forEach] that fills [folderMap]: an entry is stored when its name
    is new or when it is an exposed one. *)
Definition dedupe (allFolders : list folderEntry) : list (string * folderEntry) :=
  fold_left (λ folderMap folder,
    if negb (mapHas folderMap (folderName folder))
       || bool_decide (folderVisibility folder = exposed)
    then mapSet folderMap (folderName folder) folder
    else folderMap) allFolders [].

(** [GET /list] *)
Definition listRoot : disk → response * disk :=
  catch500 (
    let publicPath := rootPath Public in
    let privatePath := rootPath Private in
    ensureDir publicPath;;
    ensureDir privatePath;;
    publicItems ← readdir publicPath;
    privateItems ← readdir privatePath;
    publicFolders ← rootFolders Public publicItems;
    privateFolders ← rootFolders Private privateItems;
    let allFolders := omap id (publicFolders ++ privateFolders)%list in
    let folderMap := dedupe allFolders in
    let folderList := mapValues folderMap in
    mret (json (Body "root_listed" None None None None "Folders listed"
                     None (Some folderList)))).

(** [GET /public/:folder/:filename], the one route without authentication. *)
Definition servePublic (folder filename : string) : disk → served * disk := λ d,
  match (v ← lift (PathUtils.validatePath folder (Some filename));
         let safeFolder := PathUtils.folder v in
         let safeFilename := PathUtils.filename v in
         filePath ← lift (pathJoin (rootPath Public) [Some safeFolder; safeFilename]);
         found ← pathExists filePath;
         if negb found then mret (answered (failure 404 "File not found"))
         else mret (sendFile (pathResolve filePath))) d with
  | (inr r, d') => (r, d')
  | (inl e, d') => (answered (failure 400 e), d')
  end.

End Routes.
End Routes.

(** ** [src/middleware.js] *)

Module Middleware.
Import JsString Routes.

(** [authMiddleware(req, res, next)], as a function of
    [process.env.API_TOKEN] and of [req.headers.authorization], either of
    which can be [undefined].  The result is the answer sent, or [None] when
    the middleware calls [next()]. *)
Definition authMiddleware (API_TOKEN authorization : option string)
  : option response :=
  match authorization with
  | None => Some (failure 401 "Unauthorized")
  | Some authHeader =>
      if falsy authHeader || negb (startsWith "Bearer " authHeader)
      then Some (failure 401 "Unauthorized")
      else
        let token := split " " authHeader !! 1%nat in
        if bool_decide (token ≠ API_TOKEN) then Some (failure 401 "Invalid token")
        else None
  end.

End Middleware.

(** ** [src/app.js] *)

Module App.
Import JsString Routes.

(** The function mounted at [/public] in front of [express.static]; [path]
    is [req.path], the request path below the mount point.  The result is
    the answer sent, or [None] when it calls [next()]. *)
Definition publicGuard (path : string) : option response :=
  if Nat.leb (length (split "/" path)) 2 then Some (failure 404 "Not found")
  else None.

End App.

Import JsString PathUtils Fs Routes Middleware App.

(** * Vocabulary of the properties

    What the statements below need beyond the program itself: names for the
    items on a disk, for the answers of the routes, and a few disks to run
    the routes on. *)

(** ** Names and items *)

(** The causes for which [validatePath] is said to reject. *)
Inductive cause :=
  | FolderRequired | InvalidFolderPath | InvalidFolderName
  | FileRequired | InvalidFilePath | InvalidFilename.

(** The message literal that the source attaches to each cause. *)
Definition messageOf (c : cause) : string :=
  match c with
  | FolderRequired => "Folder name is required"
  | InvalidFolderPath => "Invalid folder path"
  | InvalidFolderName => "Invalid folder name"
  | FileRequired => "Filename is required"
  | InvalidFilePath => "Invalid file path"
  | InvalidFilename => "Invalid filename"
  end.

(** One of the three path checks fires on [s]. *)
Definition badPath (s : string) : bool :=
  isAbsolute s || includes ".." s || startsWith "." s.

(** The root that is not [r]. *)
Definition opposite (r : root) : root :=
  match r with Public => Private | Private => Public end.

(** The path that [path.join(root, folder, filename)] denotes for names
    that [validatePath] accepted. *)
Definition itemPath (r : root) (folder : string) (filename : option string) : fpath :=
  match filename with
  | Some n => Path r (folder :: segments n) (endsWithChar "/" n)
  | None => Path r [folder] false
  end.

(** The item [folder/filename] exists in root [r] of [d]. *)
Definition existsIn (d : disk) (r : root) (folder : string)
    (filename : option string) : bool :=
  match statPath d (itemPath r folder filename) with
  | inr _ => true
  | inl _ => false
  end.

(** The resolver of the specification: the exposed root is asked first. *)
Definition resolve (d : disk) (f : string) (fn : option string) : option root :=
  if existsIn d Public f fn then Some Public
  else if existsIn d Private f fn then Some Private
  else None.

Definition visibilityOfRoot (r : root) : Visibility :=
  match r with Public => exposed | Private => hidden end.

Definition isExposedRoot (r : root) : bool :=
  match r with Public => true | Private => false end.

(** A name that a directory entry can bear: not empty, neither ['.'] nor
    ['..'], without separator. *)
Definition legalName (k : string) : bool :=
  negb (falsy k) && negb (bool_decide (k = ".")) && negb (bool_decide (k = ".."))
  && negb (hasChar "/" k).

(** Every entry of the directory [t] bears a legal name. *)
Definition legalNames (t : gmap string node) : Prop :=
  ∀ k, is_Some (t !! k) → legalName k = true.

(** The longest entry name, in bytes, that the filesystem of the host
    takes (ext4 and overlayfs under [node:18-alpine]). *)
Definition NAME_MAX : nat := 255.

(** A name that the host takes for a new entry: no NUL byte, at most
    [NAME_MAX] bytes. *)
Definition hostName (k : string) : bool :=
  negb (hasChar Ascii.zero k) && Nat.leb (String.length k) NAME_MAX.

(** [f] is a folder of [d]: some root holds it and in neither root is it a
    regular file. *)
Definition isFolder (d : disk) (f : string) : Prop :=
  (existsIn d Public f None = true ∨ existsIn d Private f None = true) ∧
  ∀ r data, tree r d !! f ≠ Some (File data).

(** A computation that changes no root but [r]. *)
Definition touchesOnly {A} (r : root) (m : M A) : Prop :=
  ∀ d, tree (opposite r) (m d).2 = tree (opposite r) d.

(** ** Answers *)

Definition urlOfRoot (PUBLIC_URL : string) (r : root) (f : string)
    (fn : option string) : option string :=
  match r with
  | Public => Some (buildPublicUrl PUBLIC_URL f fn)
  | Private => None
  end.

Definition fileDeleted (f n : string) : response :=
  json (Body "file_deleted" (Some hidden) None (Some f) (Some n)
             "File deleted" None None).

Definition folderDeleted (f : string) : response :=
  json (Body "folder_deleted" (Some hidden) None (Some f) None
             "Folder and contents deleted" None None).

Definition folderExposed (PUBLIC_URL f : string) : response :=
  json (Body "folder_exposed" (Some exposed)
             (Some (buildPublicUrl PUBLIC_URL f None)) (Some f) None
             "Folder is now public" None None).

Definition folderUnexposed (f : string) : response :=
  json (Body "folder_unexposed" (Some hidden) None (Some f) None
             "Folder is no longer public" None None).

Definition fileRenamed (PUBLIC_URL : string) (r : root) (f new : string) : response :=
  json (Body "renamed" (Some (visibilityOfRoot r))
             (urlOfRoot PUBLIC_URL r f (Some new))
             (Some f) (Some new) "File renamed successfully" None None).

Definition folderRenamed (PUBLIC_URL : string) (r : root) (g : string) : response :=
  json (Body "renamed" (Some (visibilityOfRoot r)) (urlOfRoot PUBLIC_URL r g None)
             (Some g) None "Folder renamed successfully" None None).

(** The files of a directory as [GET /list/:folder] reports them. *)
Definition fileEntryOf (kn : string * node) : option fileEntry :=
  match kn.2 with
  | File data => Some (FileEntry kn.1 (length data))
  | Dir _ => None
  end.

Definition fileEntries (t : gmap string node) : list fileEntry :=
  omap id (map fileEntryOf (map_to_list t)).

Definition folderListed (PUBLIC_URL : string) (r : root) (f : string)
    (t : gmap string node) : response :=
  json (Body "folder_listed" (Some (visibilityOfRoot r))
             (urlOfRoot PUBLIC_URL r f None)
             (Some f) None "Folder listed" (Some (fileEntries t)) None).

(** The entry that [GET /list] builds for the directory [item] of root [r]. *)
Definition entryOf (PUBLIC_URL : string) (r : root) (item : string) : folderEntry :=
  match r with
  | Public => FolderEntry item exposed (Some (buildPublicUrl PUBLIC_URL item None))
  | Private => FolderEntry item hidden None
  end.

Definition folderEntryOf (PUBLIC_URL : string) (r : root) (kn : string * node)
  : option folderEntry :=
  if isDir kn.2 then Some (entryOf PUBLIC_URL r kn.1) else None.

(** The entries for the directories among [l]. *)
Definition foldersAmong (PUBLIC_URL : string) (r : root) (l : list (string * node))
  : list folderEntry :=
  omap id (map (folderEntryOf PUBLIC_URL r) l).

Definition rootListed (folderList : list folderEntry) : response :=
  json (Body "root_listed" None None None None "Folders listed" None
             (Some folderList)).

(** The callback of [allFolders.forEach] in [GET /list]. *)
Definition dedupeStep (m : list (string * folderEntry)) (e : folderEntry)
  : list (string * folderEntry) :=
  if negb (mapHas m (folderName e)) || bool_decide (folderVisibility e = exposed)
  then mapSet m (folderName e) e
  else m.

Definition keyed (e : folderEntry) : string * folderEntry := (folderName e, e).

Definition folderCreated (PUBLIC_URL : string) (expose : bool) (f : string) : response :=
  json (Body "folder_created" (Some (visibilityOf expose))
             (if expose then Some (buildPublicUrl PUBLIC_URL f None) else None)
             (Some f) None "Folder created" None None).

Definition fileUploaded (PUBLIC_URL : string) (expose : bool) (f : string)
    (fn : option string) : response :=
  json (Body "file_uploaded" (Some (visibilityOf expose))
             (if expose then Some (buildPublicUrl PUBLIC_URL f fn) else None)
             (Some f) fn "File uploaded" None None).

(** ** Invariants *)

(** A computation that leaves the disk as it found it. *)
Definition readOnly {A} (m : M A) : Prop := ∀ d, (m d).2 = d.

(** No name is an entry of both roots. *)
Definition exclusive (d : disk) : Prop :=
  ∀ k, public d !! k = None ∨ private d !! k = None.

(** What the map of [GET /list] holds after the entries [seen] went through
    the callback: one key per name seen, each bound to an entry seen of
    that name, and to an exposed one once an exposed one was seen. *)
Definition deduped (acc : list (string * folderEntry)) (seen : list folderEntry)
  : Prop :=
  NoDup acc.*1 ∧
  (∀ k, k ∈ acc.*1 ↔ k ∈ map folderName seen) ∧
  (∀ k e, (k, e) ∈ acc → e ∈ seen ∧ folderName e = k) ∧
  (∀ e e', e ∈ seen → folderVisibility e = exposed →
           (folderName e, e') ∈ acc → folderVisibility e' = exposed).

(** ** Disks to run the routes on *)

Definition hi : list Byte.byte := [Byte.x68; Byte.x69].

Definition staleCopy : list Byte.byte := [Byte.x6f; Byte.x6c; Byte.x64].

Definition reportsWith (data : list Byte.byte) : gmap string node :=
  {[ "reports" := Dir {[ "a.txt" := File data ]} ]}.

(** [reports/a.txt] in the private root only. *)
Definition hiddenReports : disk := Disk ∅ (reportsWith hi).

(** [reports/a.txt] in both roots, with different contents. *)
Definition dualDisk : disk := Disk (reportsWith hi) (reportsWith staleCopy).

(** [reports] in both roots and [drafts] in the private root only. *)
Definition mixedDisk : disk :=
  Disk (reportsWith hi) (<[ "drafts" := Dir ∅ ]> (reportsWith staleCopy)).

(** * Properties *)

Ltac run :=
  unfold catch400, catch500, mbind, M_bind, mret, M_ret, lift, throw; cbv zeta.

(** ** Strings *)

Section StringFacts.

Lemma split_nonempty c s : split c s ≠ [].
Proof.
  destruct s as [|a s]; simpl; [done|].
  destruct (decide (a = c)); [done|].
  by destruct (split c s).
Qed.

Lemma splitHead_cons c a s :
  splitHead c (String a s) = if decide (a = c) then EmptyString else String a (splitHead c s).
Proof.
  unfold splitHead; simpl.
  destruct (decide (a = c)); [done|].
  pose proof (split_nonempty c s).
  by destruct (split c s).
Qed.

Lemma split_no_sep c s : hasChar c s = false → split c s = [s].
Proof.
  induction s as [|a s IH]; simpl; [done|].
  destruct (decide (a = c)); simpl; [done|].
  intros H. by rewrite (IH H).
Qed.

Lemma hasChar_startsWith c s : hasChar c s = false → startsWith (String c EmptyString) s = false.
Proof.
  destruct s as [|a s]; simpl; [done|].
  destruct (decide (a = c)); simpl; [done|].
  by destruct (decide (c = a)); [subst|].
Qed.

Lemma hasChar_includes c p s : hasChar c s = false → includes (String c p) s = false.
Proof.
  induction s as [|a s IH]; simpl; [done|].
  destruct (decide (a = c)); simpl; [done|].
  intros H. rewrite (IH H).
  by destruct (decide (c = a)); [subst|].
Qed.

Lemma hasChar_endsWithChar c s : hasChar c s = false → endsWithChar c s = false.
Proof.
  induction s as [|a s IH]; simpl; [done|].
  destruct (decide (a = c)); simpl; [done|].
  intros H. destruct s; [done|]. by apply IH.
Qed.

Lemma allChars_hasChar p c s : p c = false → allChars p s = true → hasChar c s = false.
Proof.
  intros Hc. induction s as [|a s IH]; simpl; [done|].
  intros [Ha Hs]%andb_prop.
  destruct (decide (a = c)) as [->|]; simpl; [congruence|by apply IH].
Qed.

End StringFacts.

(** ** [validatePath] *)

Section ValidatePath.

Lemma safeChar_dot : safeChar "." = false.
Proof. reflexivity. Qed.

Lemma safeChar_slash : safeChar "/" = false.
Proof. reflexivity. Qed.

Lemma safePattern_inv s :
  safePattern s = true → falsy s = false ∧ allChars safeChar s = true.
Proof.
  unfold safePattern. intros [H1 H2]%andb_prop. split; [|done].
  by destruct (falsy s).
Qed.

(** A name of the class has no dot and no separator, so none of the path
    checks fires on it. *)
Lemma safePattern_clean s :
  safePattern s = true →
  falsy s = false ∧ isAbsolute s = false ∧ includes ".." s = false ∧
  startsWith "." s = false ∧ hasChar "/" s = false ∧ hasChar "." s = false.
Proof.
  intros [Hne Hall]%safePattern_inv.
  pose proof (allChars_hasChar _ _ _ safeChar_dot Hall) as Hdot.
  pose proof (allChars_hasChar _ _ _ safeChar_slash Hall) as Hsl.
  repeat split; try done.
  - by apply hasChar_startsWith.
  - by apply hasChar_includes.
  - by apply hasChar_startsWith.
Qed.

Lemma validatePath_folder_ok f :
  safePattern f = true → validatePath f None = inr (Validated f None).
Proof.
  intros H. destruct (safePattern_clean f H) as (H1 & H2 & H3 & H4 & _).
  unfold validatePath. by rewrite H1, H2, H3, H4, H.
Qed.

(** The first character of a file name whose base is of the class is of
    the class. *)
Lemma safe_base_head n :
  safePattern (splitHead "." n) = true →
  falsy n = false ∧ isAbsolute n = false ∧ startsWith "." n = false.
Proof.
  destruct n as [|a n]; [done|].
  rewrite splitHead_cons. destruct (decide (a = "."%char)) as [->|Hd]; [done|].
  intros [_ Hall]%safePattern_inv. simpl in Hall.
  apply andb_prop in Hall as [Ha _].
  unfold isAbsolute. simpl. repeat split.
  - destruct (decide ("/"%char = a)) as [<-|]; [done|done].
  - destruct (decide ("."%char = a)) as [<-|]; [done|done].
Qed.

Lemma validatePath_file_ok f n :
  safePattern f = true → safePattern (splitHead "." n) = true →
  includes ".." n = false →
  validatePath f (Some n) = inr (Validated f (Some n)).
Proof.
  intros Hf Hb Hdd.
  destruct (safePattern_clean f Hf) as (H1 & H2 & H3 & H4 & _).
  destruct (safe_base_head n Hb) as (N1 & N2 & N3).
  unfold validatePath. by rewrite H1, H2, H3, H4, Hf, N1, N2, N3, Hdd, Hb.
Qed.

(** Acceptance read backwards: what an accepted pair looks like. *)
Lemma validatePath_inr f fn v :
  validatePath f fn = inr v →
  safePattern f = true ∧ PathUtils.folder v = f ∧
  match fn with
  | Some n =>
      if falsy n then PathUtils.filename v = None
      else PathUtils.filename v = Some n ∧ includes ".." n = false ∧
           safePattern (splitHead "." n) = true
  | None => PathUtils.filename v = None
  end.
Proof.
  unfold validatePath.
  destruct (falsy f); [done|].
  destruct (isAbsolute f || includes ".." f || startsWith "." f); [done|].
  destruct (safePattern f); cbn [negb]; [|done].
  destruct fn as [n|]; [|by intros [= <-]].
  destruct (falsy n) eqn:En; cbn [negb]; [by intros [= <-]|].
  destruct (isAbsolute n) eqn:E1; cbn [orb]; [done|].
  destruct (includes ".." n) eqn:E2; cbn [orb]; [done|].
  destruct (startsWith "." n) eqn:E3; [done|].
  destruct (safePattern (splitHead "." n)) eqn:E4; cbn [negb]; [|done].
  by intros [= <-].
Qed.

End ValidatePath.

(** ** Claims on [validatePath] *)

(** C2, as the code has it.  A folder of the class [[A-Za-z0-9_-]+] is
    accepted; a file name is accepted when its part before the first dot is
    of the class and it holds no [..]; and a name is rejected when it holds
    [..], starts with a dot, or holds a separator or any other character
    outside the class, for a file name before its first dot. *)
Theorem validatePath_grammar :
  (∀ f, safePattern f = true → validatePath f None = inr (Validated f None)) ∧
  (∀ f n, safePattern f = true → safePattern (splitHead "." n) = true →
          includes ".." n = false →
          validatePath f (Some n) = inr (Validated f (Some n))) ∧
  (∀ f fn, includes ".." f = true ∨ startsWith "." f = true ∨
           hasChar "/" f = true ∨ allChars safeChar f = false →
           ∃ e, validatePath f fn = inl e) ∧
  (∀ f n, includes ".." n = true ∨ startsWith "." n = true ∨
          hasChar "/" (splitHead "." n) = true ∨
          allChars safeChar (splitHead "." n) = false →
          ∃ e, validatePath f (Some n) = inl e).
Proof.
  split; [exact validatePath_folder_ok|].
  split; [exact validatePath_file_ok|].
  split.
  - intros f fn H. destruct (validatePath f fn) as [e|v] eqn:E; [by exists e|].
    exfalso. apply validatePath_inr in E as (Hf & _).
    destruct (safePattern_clean f Hf) as (_ & _ & H1 & H2 & H3 & _).
    destruct (safePattern_inv f Hf) as [_ H4].
    destruct H as [H|[H|[H|H]]]; congruence.
  - intros f n H. destruct (validatePath f (Some n)) as [e|v] eqn:E; [by exists e|].
    exfalso. apply validatePath_inr in E as (_ & _ & E).
    destruct (falsy n) eqn:En.
    + destruct n; [|done]. destruct H as [H|[H|[H|H]]]; discriminate H.
    + destruct E as (_ & H1 & Hb).
      destruct (safe_base_head n Hb) as (_ & _ & H2).
      destruct (safePattern_clean _ Hb) as (_ & _ & _ & _ & H3 & _).
      destruct (safePattern_inv _ Hb) as [_ H4].
      destruct H as [H|[H|[H|H]]]; congruence.
Qed.

Lemma validatePath_grammar_witness :
  validatePath "reports" (Some "a.txt") = inr (Validated "reports" (Some "a.txt")) ∧
  ∃ e, validatePath "reports" (Some "../a.txt") = inl e.
Proof.
  split.
  - apply (proj1 (proj2 validatePath_grammar)); reflexivity.
  - apply (proj2 (proj2 (proj2 validatePath_grammar))). left. reflexivity.
Defined.

(** C2 as stated fails twice over: a file name whose part before the first
    dot is of the class is rejected when a [..] follows, and a file name
    with a separator after the first dot is accepted. *)
Lemma validatePath_grammar_counterexample :
  (safePattern (splitHead "." "a..b") = true ∧
   validatePath "docs" (Some "a..b") = inl "Invalid file path") ∧
  (hasChar "/" "a.b/c" = true ∧
   validatePath "docs" (Some "a.b/c") = inr (Validated "docs" (Some "a.b/c"))).
Proof. repeat split. Qed.

(** A rejection read backwards: the message is that of the first check
    that fails. *)
Lemma validatePath_inl f fn e :
  validatePath f fn = inl e →
  (e = messageOf FolderRequired ∧ falsy f = true) ∨
  (e = messageOf InvalidFolderPath ∧ falsy f = false ∧ badPath f = true) ∨
  (e = messageOf InvalidFolderName ∧ falsy f = false ∧ badPath f = false ∧
   safePattern f = false) ∨
  (∃ n, fn = Some n ∧ falsy n = false ∧ safePattern f = true ∧
        e = messageOf InvalidFilePath ∧ badPath n = true) ∨
  (∃ n, fn = Some n ∧ falsy n = false ∧ safePattern f = true ∧
        e = messageOf InvalidFilename ∧ badPath n = false ∧
        safePattern (splitHead "." n) = false).
Proof.
  unfold validatePath. fold (badPath f).
  destruct (falsy f) eqn:E0; [intros [= <-]; by left|].
  destruct (badPath f) eqn:E1; [intros [= <-]; right; by left|].
  destruct (safePattern f) eqn:E2; cbn [negb];
    [|intros [= <-]; right; right; by left].
  destruct fn as [n|]; [|done].
  destruct (falsy n) eqn:E3; cbn [negb]; [done|]. fold (badPath n).
  destruct (badPath n) eqn:E4;
    [intros [= <-]; right; right; right; left; by exists n|].
  destruct (safePattern (splitHead "." n)) eqn:E5; cbn [negb]; [done|].
  intros [= <-]. right; right; right; right. by exists n.
Qed.

Lemma validatePath_not_file_required f fn :
  validatePath f fn ≠ inl (messageOf FileRequired).
Proof.
  intros H.
  destruct (validatePath_inl _ _ _ H) as [[H1 _]|[[H1 _]|[[H1 _]|[H1|H1]]]];
    try discriminate H1; destruct H1 as (n & _ & _ & _ & H1 & _); discriminate H1.
Qed.

(** C8, as the code has it.  The six messages are pairwise distinct; a
    rejection carries the message of the first check that fails, which is
    one of five; each of the five is produced by some input; and the sixth,
    [Filename is required], is produced by none. *)
Theorem validatePath_messages :
  (∀ c c', messageOf c = messageOf c' → c = c') ∧
  (∀ f fn e, validatePath f fn = inl e →
     (e = messageOf FolderRequired ∧ falsy f = true) ∨
     (e = messageOf InvalidFolderPath ∧ falsy f = false ∧ badPath f = true) ∨
     (e = messageOf InvalidFolderName ∧ falsy f = false ∧ badPath f = false ∧
      safePattern f = false) ∨
     (∃ n, fn = Some n ∧ falsy n = false ∧ safePattern f = true ∧
           e = messageOf InvalidFilePath ∧ badPath n = true) ∨
     (∃ n, fn = Some n ∧ falsy n = false ∧ safePattern f = true ∧
           e = messageOf InvalidFilename ∧ badPath n = false ∧
           safePattern (splitHead "." n) = false)) ∧
  (∀ c, c ≠ FileRequired → ∃ f fn, validatePath f fn = inl (messageOf c)) ∧
  (∀ f fn, validatePath f fn ≠ inl (messageOf FileRequired)).
Proof.
  split; [|split; [exact validatePath_inl|split]].
  - intros [] []; simpl; intros H; try reflexivity; discriminate H.
  - intros c Hc. destruct c; [| | |done| |].
    + by exists EmptyString, None.
    + by exists "../etc", None.
    + by exists "my folder", None.
    + by exists "docs", (Some ".env").
    + by exists "docs", (Some "a b.txt").
  - exact validatePath_not_file_required.
Qed.

Lemma validatePath_messages_witness :
  (messageOf InvalidFilePath = messageOf InvalidFilePath → InvalidFilePath = InvalidFilePath) ∧
  (∃ f fn, validatePath f fn = inl (messageOf InvalidFilename)).
Proof.
  split.
  - apply (proj1 validatePath_messages).
  - apply (proj1 (proj2 (proj2 validatePath_messages))). discriminate.
Defined.

(** C8 as stated fails: no input makes [validatePath] answer
    [Filename is required]; the throw sits under [if (filename)]. *)
Lemma validatePath_file_required_counterexample :
  ¬ ∃ f fn, validatePath f fn = inl "Filename is required".
Proof.
  intros (f & fn & H). exact (validatePath_not_file_required f fn H).
Qed.

(** C9.  On what it accepts, [validatePath] hands the names back as they
    came: the folder is the input folder and the file name, when one is
    returned, is the input file name.  (An absent or empty file name is
    accepted as a folder alone, and none is returned.) *)
Theorem validatePath_identity f fn v :
  validatePath f fn = inr v →
  PathUtils.folder v = f ∧
  PathUtils.filename v = (if truthy fn then fn else None) ∧
  (∀ n, PathUtils.filename v = Some n → fn = Some n).
Proof.
  intros (_ & Hf & H)%validatePath_inr. split; [done|].
  destruct fn as [n|]; simpl.
  - destruct (falsy n); simpl.
    + split; [done|]. intros n'. by rewrite H.
    + destruct H as (-> & _). by split.
  - split; [done|]. intros n'. by rewrite H.
Qed.

Lemma validatePath_identity_witness :
  PathUtils.folder (Validated "reports" (Some "a.txt")) = "reports" ∧
  PathUtils.filename (Validated "reports" (Some "a.txt")) = Some "a.txt".
Proof.
  pose proof (validatePath_identity "reports" (Some "a.txt")
                (Validated "reports" (Some "a.txt")) eq_refl) as (H1 & H2 & _).
  split; [exact H1|exact H2].
Defined.

(** ** One tree: what [putAt], [removeAt] and [mkdirp] change *)

Section Tree.

Implicit Types (t : gmap string node) (p q : list string) (n : node).

Lemma statNode_cons t s p :
  statNode (Dir t) (s :: p) =
  match t !! s with
  | None => inl ENOENT
  | Some c => statNode c p
  end.
Proof. reflexivity. Qed.

Lemma statNode_File data p : p ≠ [] → statNode (File data) p = inl ENOTDIR.
Proof. by destruct p. Qed.

Lemma putAt_cons t s s' p n :
  putAt t (s :: s' :: p) n =
  match t !! s with
  | None => inl ENOENT
  | Some (File _) => inl ENOTDIR
  | Some (Dir t0) =>
      match putAt t0 (s' :: p) n with
      | inl e => inl e
      | inr t' => inr (<[s := Dir t']> t)
      end
  end.
Proof. reflexivity. Qed.

Lemma removeAt_cons t s s' p :
  removeAt t (s :: s' :: p) =
  match t !! s with
  | Some (Dir t0) => <[s := Dir (removeAt t0 (s' :: p))]> t
  | _ => t
  end.
Proof. reflexivity. Qed.

(** After [putAt], the path leads to the node put there. *)
Lemma statNode_putAt t p n t' :
  putAt t p n = inr t' → statNode (Dir t') p = inr n.
Proof.
  revert t t'. induction p as [|s p IH]; intros t t'; [done|].
  destruct p as [|s' p].
  - intros [= <-]. by rewrite statNode_cons, lookup_insert_eq.
  - rewrite putAt_cons.
    destruct (t !! s) as [[|t0]|]; [done| |done].
    destruct (putAt t0 (s' :: p) n) as [|t0'] eqn:E; [done|].
    intros [= <-]. rewrite statNode_cons, lookup_insert_eq. by apply (IH t0).
Qed.

(** [putAt] leaves alone every path that neither runs through the place
    nor stops above it. *)
Lemma statNode_putAt_other t p n t' q :
  putAt t p n = inr t' → ¬ p `prefix_of` q → ¬ q `prefix_of` p →
  statNode (Dir t') q = statNode (Dir t) q.
Proof.
  revert t t' q. induction p as [|s p IH]; intros t t' q; [done|].
  intros H Hpq Hqp. destruct q as [|s0 q]; [by destruct Hqp; apply prefix_nil|].
  rewrite !statNode_cons. destruct p as [|s' p].
  - injection H as <-. destruct (decide (s = s0)) as [->|Hne].
    + destruct Hpq. apply prefix_cons, prefix_nil.
    + by rewrite lookup_insert_ne.
  - rewrite putAt_cons in H.
    destruct (t !! s) as [[|t0]|] eqn:Es; [done| |done].
    destruct (putAt t0 (s' :: p) n) as [|t0'] eqn:E; [done|].
    injection H as <-. destruct (decide (s = s0)) as [->|Hne].
    + rewrite lookup_insert_eq, Es. apply (IH t0); [done| |].
      * intros Hp. apply Hpq. by apply prefix_cons.
      * intros Hp. apply Hqp. by apply prefix_cons.
    + by rewrite lookup_insert_ne.
Qed.

(** Nothing is left at or below a removed path. *)
Lemma statNode_removeAt_below t p q n :
  q ≠ [] → p `prefix_of` q → statNode (Dir (removeAt t p)) q ≠ inr n.
Proof.
  revert t q. induction p as [|s p IH]; intros t q Hq Hpq.
  - destruct q as [|s0 q]; [done|]. simpl. by rewrite lookup_empty.
  - destruct q as [|s0 q]; [done|].
    pose proof (prefix_cons_inv_1 _ _ _ _ Hpq) as ->.
    apply prefix_cons_inv_2 in Hpq.
    destruct p as [|s' p].
    + simpl. by rewrite lookup_delete_eq.
    + assert (q ≠ []) by (destruct q; [by apply prefix_nil_not in Hpq|done]).
      rewrite removeAt_cons. destruct (t !! s0) as [[data|t0]|] eqn:Es.
      * rewrite statNode_cons, Es. by rewrite statNode_File.
      * rewrite statNode_cons, lookup_insert_eq. by apply IH.
      * by rewrite statNode_cons, Es.
Qed.

(** [removeAt] leaves alone every path that neither runs through the place
    nor stops above it. *)
Lemma statNode_removeAt_other t p q :
  ¬ p `prefix_of` q → ¬ q `prefix_of` p →
  statNode (Dir (removeAt t p)) q = statNode (Dir t) q.
Proof.
  revert t q. induction p as [|s p IH]; intros t q Hpq Hqp;
    [by destruct Hpq; apply prefix_nil|].
  destruct q as [|s0 q]; [by destruct Hqp; apply prefix_nil|].
  destruct p as [|s' p].
  - simpl removeAt. rewrite !statNode_cons.
    destruct (decide (s = s0)) as [->|Hne].
    + destruct Hpq. apply prefix_cons, prefix_nil.
    + by rewrite lookup_delete_ne.
  - rewrite removeAt_cons. destruct (t !! s) as [[data|t0]|] eqn:Es; [done| |done].
    rewrite !statNode_cons. destruct (decide (s = s0)) as [->|Hne].
    + rewrite lookup_insert_eq, Es. apply IH.
      * intros Hp. apply Hpq. by apply prefix_cons.
      * intros Hp. apply Hqp. by apply prefix_cons.
    + by rewrite lookup_insert_ne.
Qed.

(** [mkdirp] changes only the directories it walks through. *)
Lemma statNode_mkdirp_other t p t' q :
  mkdirp t p = inr t' → ¬ q `prefix_of` p →
  statNode (Dir t') q = statNode (Dir t) q.
Proof.
  revert t t' q. induction p as [|s p IH]; intros t t' q; [by intros [= <-]|].
  intros H Hqp. destruct q as [|s0 q]; [by destruct Hqp; apply prefix_nil|].
  simpl in H. rewrite !statNode_cons.
  destruct (t !! s) as [[data|t0]|] eqn:Es; [done| |].
  - destruct (mkdirp t0 p) as [|t0'] eqn:E; [done|]. injection H as <-.
    destruct (decide (s = s0)) as [->|Hne].
    + rewrite lookup_insert_eq, Es. apply (IH t0); [done|].
      intros Hp. apply Hqp. by apply prefix_cons.
    + by rewrite lookup_insert_ne.
  - destruct (mkdirp ∅ p) as [|t0'] eqn:E; [done|]. injection H as <-.
    destruct (decide (s = s0)) as [->|Hne].
    + rewrite lookup_insert_eq, Es.
      rewrite (IH ∅ t0' q E); [|intros Hp; apply Hqp; by apply prefix_cons].
      destruct q as [|s1 q]; [destruct Hqp; apply prefix_cons, prefix_nil|].
      by rewrite statNode_cons, lookup_empty.
    + by rewrite lookup_insert_ne.
Qed.

(** A path that resolves runs through directories only. *)
Lemma statNode_app_inv n0 p q n :
  statNode n0 (p ++ q) = inr n → ∃ m, statNode n0 p = inr m ∧ statNode m q = inr n.
Proof.
  revert n0. induction p as [|s p IH]; intros n0; simpl; [by exists n0|].
  destruct n0 as [|t]; [done|]. destruct (t !! s); [|done]. apply IH.
Qed.

Lemma statNode_app n0 p q m :
  statNode n0 p = inr m → statNode n0 (p ++ q) = statNode m q.
Proof.
  revert n0. induction p as [|s p IH]; intros n0; simpl; [by intros [= <-]|].
  destruct n0 as [|t]; [done|]. destruct (t !! s); [|done]. apply IH.
Qed.

End Tree.

(** ** The disk: what the primitives change *)

Section Disk.

Implicit Types (d : disk) (r : root) (t : gmap string node) (p : fpath).

Lemma tree_setTree r t d : tree r (setTree r t d) = t.
Proof. by destruct r. Qed.

Lemma tree_setTree_ne r r' t d : r ≠ r' → tree r' (setTree r t d) = tree r' d.
Proof. by destruct r, r'. Qed.

Lemma setTree_tree r d : setTree r (tree r d) d = d.
Proof. by destruct r, d. Qed.

(** The steps of a [move] that went through. *)
Lemma move_inv src dest d d' u :
  move src dest d = (inr u, d') →
  ∃ n d1 d2,
    statPath d src = inr n ∧
    match statPath d dest with
    | inr m => areIdentical src dest = false ∧ isDir n = isDir m
    | inl e => e = ENOENT
    end ∧
    isDir n && isSrcSubdir src dest = false ∧
    ensureDir (dirname dest) d = (inr (), d1) ∧
    remove dest d1 = (inr (), d2) ∧
    rename src dest d2 = (inr (), d').
Proof.
  destruct u. unfold move, mbind, M_bind, stat, mret, M_ret, throw.
  destruct (statPath d src) as [e|n] eqn:Es; [done|].
  destruct (statPath d dest) as [e|m] eqn:Ed.
  - destruct (decide (e = ENOENT)) as [->|]; [|done].
    destruct (isDir n && isSrcSubdir src dest) eqn:Esub; [done|].
    destruct (ensureDir (dirname dest) d) as [[e1|[]] d1] eqn:E1; [done|].
    destruct (remove dest d1) as [[e2|[]] d2] eqn:E2; [done|].
    destruct (rename src dest d2) as [[e3|[]] d3] eqn:E3; [done|].
    intros [= <-]. exists n, d1, d2. by repeat split.
  - destruct (areIdentical src dest) eqn:Eid; [done|].
    destruct n as [dn|tn], m as [dm|tm]; try done;
      cbn [isDir isFile negb andb] in *.
    + destruct (ensureDir (dirname dest) d) as [[e1|[]] d1] eqn:E1; [done|].
      destruct (remove dest d1) as [[e2|[]] d2] eqn:E2; [done|].
      destruct (rename src dest d2) as [[e3|[]] d3] eqn:E3; [done|].
      intros [= <-]. exists (File dn), d1, d2. by repeat split.
    + destruct (isSrcSubdir src dest) eqn:Esub; [done|].
      destruct (ensureDir (dirname dest) d) as [[e1|[]] d1] eqn:E1; [done|].
      destruct (remove dest d1) as [[e2|[]] d2] eqn:E2; [done|].
      destruct (rename src dest d2) as [[e3|[]] d3] eqn:E3; [done|].
      intros [= <-]. exists (Dir tn), d1, d2. by repeat split.
Qed.

Lemma statPath_inr d p n :
  statPath d p = inr n → statNode (Dir (tree (base p) d)) (segs p) = inr n.
Proof.
  unfold statPath. destruct (statNode _ _) as [e|[data|t]]; [done| |done].
  by destruct (dirOnly p).
Qed.

Lemma statPath_Dir d p t :
  statNode (Dir (tree (base p) d)) (segs p) = inr (Dir t) → statPath d p = inr (Dir t).
Proof. unfold statPath. by intros ->. Qed.

Lemma ENOTDIR_ENOENT : ENOTDIR ≠ ENOENT.
Proof. discriminate. Qed.

Lemma ensureDir_inv p d d1 u :
  ensureDir p d = (inr u, d1) →
  ∃ t1, mkdirp (tree (base p) d) (segs p) = inr t1 ∧ d1 = setTree (base p) t1 d.
Proof.
  unfold ensureDir. destruct (mkdirp _ _) as [e|t1]; [done|].
  intros [= <-]. by exists t1.
Qed.

Lemma remove_inv p d1 d2 u :
  remove p d1 = (inr u, d2) →
  (statPath d1 p = inl ENOENT ∧ d2 = d1) ∨
  (∃ m, statPath d1 p = inr m ∧
        d2 = setTree (base p) (removeAt (tree (base p) d1) (segs p)) d1).
Proof.
  unfold remove. destruct (statPath d1 p) as [e|m].
  - destruct (decide (e = ENOENT)) as [->|]; [|done]. intros [= <-]. by left.
  - intros [= <-]. right. by exists m.
Qed.

Lemma rename_inv src dest d2 d' u :
  rename src dest d2 = (inr u, d') →
  ∃ n t',
    statPath d2 src = inr n ∧ dirOnly dest && isFile n = false ∧
    putAt (tree (base dest)
                (setTree (base src) (removeAt (tree (base src) d2) (segs src)) d2))
          (segs dest) n = inr t' ∧
    d' = setTree (base dest) t'
           (setTree (base src) (removeAt (tree (base src) d2) (segs src)) d2).
Proof.
  unfold rename. destruct (statPath d2 src) as [e|n]; [done|].
  destruct (dirOnly dest && isFile n) eqn:E; [done|].
  destruct (putAt _ _ _) as [e|t'] eqn:Ep; [done|].
  intros [= <-]. by exists n, t'.
Qed.

Lemma removelast_prefix {A} (l : list A) : removelast l `prefix_of` l.
Proof.
  destruct (decide (l = [])) as [->|Hne]; [done|].
  destruct l as [|a l]; [done|].
  exists [List.last (a :: l) a]. by apply app_removelast_last.
Qed.

Lemma removelast_not_prefix {A} (l : list A) : l ≠ [] → ¬ l `prefix_of` removelast l.
Proof.
  intros Hne Hp. apply prefix_length in Hp.
  destruct l as [|a l]; [done|].
  pose proof (app_removelast_last (l:=a :: l) a Hne) as H.
  apply (f_equal length) in H. rewrite length_app in H. simpl in *. lia.
Qed.

(** Source and destination of a [move] that went through do not lie on one
    branch. *)
Lemma move_incomparable src dest d d' u :
  base src = base dest → move src dest d = (inr u, d') →
  ¬ segs src `prefix_of` segs dest ∧ ¬ segs dest `prefix_of` segs src.
Proof.
  intros Hb (n & d1 & d2 & Hs & Hd & Hsub & E1 & E2 & E3)%move_inv.
  pose proof (statPath_inr _ _ _ Hs) as Hn.
  assert (H1 : ¬ segs src `prefix_of` segs dest).
  { intros [k Hk].
    assert (Hdn : statNode (Dir (tree (base dest) d)) (segs dest) = statNode n k).
    { rewrite Hk, <- Hb. by apply statNode_app. }
    destruct n as [data|tn].
    - unfold statPath in Hd. rewrite Hdn in Hd. destruct k as [|s k].
      + simpl in Hd. destruct (dirOnly dest); [by apply ENOTDIR_ENOENT in Hd|].
        destruct Hd as [Hid _]. unfold areIdentical in Hid.
        rewrite app_nil_r in Hk.
        by rewrite !bool_decide_eq_true_2 in Hid.
      + simpl in Hd. by apply ENOTDIR_ENOENT in Hd.
    - unfold isSrcSubdir in Hsub. simpl in Hsub.
      rewrite !bool_decide_eq_true_2 in Hsub; [done| |done]. by exists k. }
  split; [done|]. intros [k Hk].
  assert (Hk0 : k ≠ []).
  { intros ->. rewrite app_nil_r in Hk. apply H1. by rewrite Hk. }
  assert (Hsrc : segs src ≠ []).
  { rewrite Hk. by destruct (segs dest), k. }
  rewrite Hk in Hn. apply statNode_app_inv in Hn as (m & Hm & Hmk).
  destruct m as [data|tm]; [by rewrite statNode_File in Hmk|].
  rewrite Hb in Hm.
  apply ensureDir_inv in E1 as (t1 & Ht1 & ->). simpl in Ht1.
  assert (Hm1 : statNode (Dir t1) (segs dest) = inr (Dir tm)).
  { destruct (decide (segs dest = [])) as [Hnil|Hne].
    - rewrite Hnil in *. simpl in *. congruence.
    - rewrite (statNode_mkdirp_other _ _ _ _ Ht1); [done|].
      by apply removelast_not_prefix. }
  apply remove_inv in E2 as [[E2 _]|(m' & _ & ->)].
  { unfold statPath in E2. rewrite tree_setTree in E2. simpl in E2. by rewrite Hm1 in E2. }
  apply rename_inv in E3 as (n' & t' & E3 & _).
  apply statPath_inr in E3. rewrite <- Hb in E3 at 1.
  rewrite tree_setTree in E3. 
  eapply statNode_removeAt_below; [| |exact E3]; [done|by exists k].
Qed.

(** A [move] inside one root that went through: the node that stood at the
    source stands at the destination, nothing is left at the source, and
    the other root is as it was. *)
Lemma move_same_root src dest d d' u :
  base src = base dest → move src dest d = (inr u, d') →
  ∃ n, statPath d src = inr n ∧
       statNode (Dir (tree (base dest) d')) (segs dest) = inr n ∧
       (∀ m, statNode (Dir (tree (base src) d')) (segs src) ≠ inr m) ∧
       (∀ r, r ≠ base src → tree r d' = tree r d).
Proof.
  intros Hb Hmv. destruct (move_incomparable _ _ _ _ _ Hb Hmv) as [Hsd Hds].
  apply move_inv in Hmv as (n & d1 & d2 & Hs & _ & _ & E1 & E2 & E3).
  exists n. split; [done|].
  apply statPath_inr in Hs.
  apply ensureDir_inv in E1 as (t1 & Ht1 & ->). simpl in Ht1.
  assert (Hn1 : statNode (Dir t1) (segs src) = inr n).
  { rewrite (statNode_mkdirp_other _ _ _ _ Ht1); [by rewrite <- Hb|].
    intros Hp. apply Hsd. etrans; [exact Hp|apply removelast_prefix]. }
  set (d1 := setTree (base (dirname dest)) t1 d) in *.
  assert (Hd1 : tree (base dest) d1 = t1) by apply tree_setTree.
  assert (Hn2 : statNode (Dir (tree (base src) d2)) (segs src) = inr n).
  { rewrite Hb. apply remove_inv in E2 as [[_ ->]|(m & _ & ->)].
    - by rewrite Hd1.
    - rewrite tree_setTree, Hd1. by rewrite statNode_removeAt_other. }
  assert (Hother : ∀ r, r ≠ base src → tree r d2 = tree r d).
  { intros r Hr. rewrite Hb in Hr.
    apply remove_inv in E2 as [[_ ->]|(m & _ & ->)].
    - unfold d1. by rewrite tree_setTree_ne.
    - rewrite tree_setTree_ne by done. unfold d1. by rewrite tree_setTree_ne. }
  apply rename_inv in E3 as (n' & t' & E3 & _ & Hput & ->).
  apply statPath_inr in E3. rewrite Hn2 in E3. injection E3 as <-.
  rewrite <- Hb in Hput at 1. rewrite tree_setTree in Hput.
  rewrite <- !Hb, !tree_setTree. split; [|split].
  - by apply statNode_putAt in Hput.
  - intros m. rewrite (statNode_putAt_other _ _ _ _ _ Hput); [|done|done].
    apply statNode_removeAt_below; [|done].
    intros Hnil. apply Hsd. rewrite Hnil. apply prefix_nil.
  - intros r Hr. rewrite !tree_setTree_ne by done. by apply Hother.
Qed.

(** *** Paths of one name below a root *)

Lemma statPath_top d r f :
  statPath d (Path r [f] false) =
  match tree r d !! f with
  | Some n => inr n
  | None => inl ENOENT
  end.
Proof.
  unfold statPath. simpl. destruct (tree r d !! f) as [[|]|]; done.
Qed.

Lemma remove_top d r f :
  is_Some (tree r d !! f) →
  remove (Path r [f] false) d = (inr (), setTree r (delete f (tree r d)) d).
Proof.
  intros [n Hn]. unfold remove. by rewrite statPath_top, Hn.
Qed.

(** Moving a top-level entry from one root to the other: it replaces what
    stood under the new name, provided both are of one kind. *)
Lemma move_top_cross d r r' f g n :
  r ≠ r' → tree r d !! f = Some n →
  match tree r' d !! g with
  | Some m => isDir m = isDir n
  | None => True
  end →
  move (Path r [f] false) (Path r' [g] false) d =
  (inr (), setTree r' (<[g := n]> (tree r' d)) (setTree r (delete f (tree r d)) d)).
Proof.
  intros Hr Hn Hm.
  unfold move, mbind, M_bind, stat, mret, M_ret, throw.
  rewrite !statPath_top, Hn.
  assert (Hid : areIdentical (Path r [f] false) (Path r' [g] false) = false).
  { unfold areIdentical. simpl. by rewrite bool_decide_eq_false_2. }
  assert (Hsub : isSrcSubdir (Path r [f] false) (Path r' [g] false) = false).
  { unfold isSrcSubdir. simpl. by rewrite bool_decide_eq_false_2. }
  rewrite Hsub, andb_false_r.
  assert (Hend : ∀ d0, tree r d0 !! f = Some n → tree r' d0 !! g = None →
     rename (Path r [f] false) (Path r' [g] false) d0 =
     (inr (), setTree r' (<[g := n]> (tree r' d0)) (setTree r (delete f (tree r d0)) d0))).
  { intros d0 H0 _. unfold rename. rewrite statPath_top, H0. simpl.
    by rewrite tree_setTree_ne. }
  destruct (tree r' d !! g) as [m|] eqn:Eg.
  - rewrite Hid.
    assert (Hk : (if isDir n && isFile m then true else isFile n && isDir m) = false).
    { unfold isFile. rewrite Hm. by destruct (isDir n). }
    destruct (isDir n && isFile m) eqn:E1; [done|].
    destruct (isFile n && isDir m) eqn:E2; [done|].
    unfold ensureDir. simpl. rewrite setTree_tree.
    rewrite remove_top by (by rewrite Eg).
    rewrite Hend.
    + rewrite tree_setTree, !tree_setTree_ne by done.
      rewrite insert_delete_eq. f_equal.
      destruct r, r', d; done.
    + by rewrite tree_setTree_ne.
    + by rewrite tree_setTree, lookup_delete_eq.
  - rewrite decide_True by done.
    unfold ensureDir. simpl. rewrite setTree_tree.
    unfold remove. rewrite statPath_top, Eg, decide_True by done.
    by rewrite Hend.
Qed.

End Disk.

Section Paths.

Lemma falsy_empty s : falsy s = true ↔ s = EmptyString.
Proof. by destruct s. Qed.

Lemma segments_legal k : legalName k = true → segments k = [k] ∧ endsWithChar "/" k = false.
Proof.
  unfold legalName. intros [[[H1 H2]%andb_prop _]%andb_prop H3]%andb_prop.
  apply negb_true_iff in H1, H2, H3. apply bool_decide_eq_false in H2.
  split; [|by apply hasChar_endsWithChar].
  unfold segments. rewrite (split_no_sep _ _ H3).
  rewrite filter_cons, decide_True; [done|].
  split; [|done]. intros ->. done.
Qed.

Lemma safePattern_legal f : safePattern f = true → legalName f = true.
Proof.
  intros (H1 & _ & _ & _ & H2 & H3)%safePattern_clean.
  unfold legalName. rewrite H1, H2. simpl.
  rewrite !bool_decide_eq_false_2; [done| |]; by intros ->.
Qed.

Lemma pathJoin_one p k :
  legalName k = true →
  pathJoin p [Some k] = inr (Path (base p) (segs p ++ [k]) false).
Proof.
  intros Hk. destruct (segments_legal k Hk) as [Hs He]. simpl.
  rewrite Hs, He. unfold legalName in Hk. by destruct (falsy k).
Qed.

Lemma pathJoin_folder r f :
  safePattern f = true → pathJoin (rootPath r) [Some f] = inr (itemPath r f None).
Proof. intros Hf. by rewrite pathJoin_one by by apply safePattern_legal. Qed.

Lemma pathJoin_file r f n :
  safePattern f = true → falsy n = false →
  pathJoin (rootPath r) [Some f; Some n] = inr (itemPath r f (Some n)).
Proof.
  intros Hf Hn. destruct (segments_legal f (safePattern_legal f Hf)) as [Hs He].
  simpl. by rewrite Hs, Hn.
Qed.

Lemma pathJoin_base p parts q : pathJoin p parts = inr q → base q = base p.
Proof.
  revert p. induction parts as [|[s|] parts IH]; intros p; simpl.
  - by intros [= <-].
  - intros H. by rewrite (IH _ H).
  - done.
Qed.

End Paths.

(** ** Frames: which root a computation can change *)

Section Frame.

Context {A B : Type}.
Implicit Types (r : root) (d : disk).

Lemma touchesOnly_ret r (a : A) : touchesOnly r (mret a).
Proof. by intros d. Qed.

Lemma touchesOnly_bind r (m : M A) (k : A → M B) :
  touchesOnly r m → (∀ a, touchesOnly r (k a)) → touchesOnly r (m ≫= k).
Proof.
  intros Hm Hk d. unfold mbind, M_bind. specialize (Hm d).
  destruct (m d) as [[e|a] d1]; [done|].
  simpl in Hm. by rewrite Hk.
Qed.

Lemma touchesOnly_bind_lift r (x : string + A) (k : A → M B) :
  (∀ a, x = inr a → touchesOnly r (k a)) → touchesOnly r (lift x ≫= k).
Proof.
  intros Hk d. unfold mbind, M_bind, lift.
  destruct x as [e|a]; [done|]. by apply Hk.
Qed.

Lemma opposite_ne r : opposite r ≠ r.
Proof. by destruct r. Qed.

Lemma touchesOnly_ensureDir p : touchesOnly (base p) (ensureDir p).
Proof.
  intros d. unfold ensureDir. destruct (mkdirp _ _); [done|].
  simpl. apply tree_setTree_ne. apply not_eq_sym, opposite_ne.
Qed.

Lemma touchesOnly_writeFile p data : touchesOnly (base p) (writeFile p data).
Proof.
  intros d. unfold writeFile. destruct (dirOnly p); [done|].
  assert (H : tree (opposite (base p))
                (match putAt (tree (base p) d) (segs p) (File data) with
                 | inl e => (inl e, d)
                 | inr t => (inr (), setTree (base p) t d)
                 end : (string + ()) * disk).2 = tree (opposite (base p)) d).
  { destruct (putAt _ _ _); [done|].
    simpl. apply tree_setTree_ne. apply not_eq_sym, opposite_ne. }
  by destruct (statNode _ _) as [|[|]].
Qed.

End Frame.

Lemma touchesOnly_catch400 r m d :
  touchesOnly r m → tree (opposite r) (catch400 m d).2 = tree (opposite r) d.
Proof.
  intros H. unfold catch400. specialize (H d). by destruct (m d) as [[|] ?].
Qed.

(** A successful [mkdirp] leaves a directory at the end of the path. *)
Lemma statNode_mkdirp t p t' :
  mkdirp t p = inr t' → ∃ t0, statNode (Dir t') p = inr (Dir t0).
Proof.
  revert t t'. induction p as [|s p IH]; intros t t'; simpl.
  - intros [= <-]. by exists t.
  - destruct (t !! s) as [[data|t0]|]; [done| |].
    + destruct (mkdirp t0 p) as [|t1] eqn:E; [done|]. intros [= <-].
      rewrite lookup_insert_eq. by apply (IH t0).
    + destruct (mkdirp ∅ p) as [|t1] eqn:E; [done|]. intros [= <-].
      rewrite lookup_insert_eq. by apply (IH ∅).
Qed.

Section CreateFrame.
Variable PUBLIC_URL : string.

Lemma storeFile_frame f n expose data d :
  tree (opposite (baseDirOf expose)) (storeFile PUBLIC_URL f n expose data d).2 =
  tree (opposite (baseDirOf expose)) d.
Proof.
  apply touchesOnly_catch400.
  apply touchesOnly_bind_lift; intros v _. cbv zeta.
  apply touchesOnly_bind_lift; intros folderPath Hp%pathJoin_base.
  simpl in Hp. rewrite <- Hp.
  apply touchesOnly_bind; [apply touchesOnly_ensureDir|intros _].
  apply touchesOnly_bind_lift; intros filePath Hq%pathJoin_base.
  rewrite <- Hq.
  apply touchesOnly_bind; [apply touchesOnly_writeFile|intros _].
  apply touchesOnly_ret.
Qed.

Lemma mkdir_frame folder expose d :
  tree (opposite (baseDirOf expose)) (mkdir PUBLIC_URL folder expose d).2 =
  tree (opposite (baseDirOf expose)) d.
Proof.
  unfold mkdir. destruct folder as [f|]; [|done].
  destruct (falsy f); [done|].
  apply touchesOnly_catch400.
  apply touchesOnly_bind_lift; intros v _. cbv zeta.
  apply touchesOnly_bind_lift; intros folderPath Hp%pathJoin_base.
  simpl in Hp. rewrite <- Hp.
  apply touchesOnly_bind; [apply touchesOnly_ensureDir|intros _].
  apply touchesOnly_ret.
Qed.

End CreateFrame.

(** ** Uploads *)

Lemma validatePath_file_inr f n v :
  validatePath f (Some n) = inr v → falsy n = false →
  v = Validated f (Some n) ∧ safePattern f = true.
Proof.
  intros (Hf & H1 & H2)%validatePath_inr Hn. rewrite Hn in H2.
  destruct H2 as (H2 & _). destruct v as [vf vn]. simpl in *. by subst.
Qed.

Lemma validatePath_folder_inr f v :
  validatePath f None = inr v → v = Validated f None ∧ safePattern f = true.
Proof.
  intros (Hf & H1 & H2)%validatePath_inr.
  destruct v as [vf vn]. simpl in *. by subst.
Qed.

Lemma validatePath_empty_file f v :
  validatePath f (Some EmptyString) = inr v → v = Validated f None.
Proof.
  intros (Hf & H1 & H2)%validatePath_inr. simpl in H2.
  destruct v as [vf vn]. simpl in *. by subst.
Qed.

Lemma writeFile_inv p data d d' u :
  writeFile p data d = (inr u, d') →
  dirOnly p = false ∧
  ∃ t', putAt (tree (base p) d) (segs p) (File data) = inr t' ∧
        d' = setTree (base p) t' d.
Proof.
  unfold writeFile. destruct (dirOnly p); [done|].
  intros Hw. split; [done|]. revert Hw.
  assert (H : (match putAt (tree (base p) d) (segs p) (File data) with
               | inl e => (inl e, d)
               | inr t => (inr (), setTree (base p) t d)
               end : (string + ()) * disk) = (inr u, d') →
          ∃ t', putAt (tree (base p) d) (segs p) (File data) = inr t' ∧
                d' = setTree (base p) t' d).
  { destruct (putAt _ _ _) as [|t']; [done|]. intros [= <-]. by exists t'. }
  by destruct (statNode _ _) as [|[|]].
Qed.

(** What a successful [writeFile] leaves behind. *)
Lemma writeFile_stat p data d d' u :
  writeFile p data d = (inr u, d') → statPath d' p = inr (File data).
Proof.
  intros (Hflag & t' & Hput & ->)%writeFile_inv.
  unfold statPath. rewrite tree_setTree, (statNode_putAt _ _ _ _ Hput).
  by rewrite Hflag.
Qed.

Section UploadSteps.
Variable PUBLIC_URL : string.

(** The steps of an upload that answered 200. *)
Lemma storeFile_json_inv f n expose data d b d' :
  storeFile PUBLIC_URL f n expose data d = (json b, d') →
  safePattern f = true ∧ falsy n = false ∧
  validatePath f (Some n) = inr (Validated f (Some n)) ∧
  ∃ d1, ensureDir (itemPath (baseDirOf expose) f None) d = (inr (), d1) ∧
        writeFile (itemPath (baseDirOf expose) f (Some n)) data d1 = (inr (), d') ∧
        visibility b = Some (visibilityOf expose) ∧
        folder b = Some f ∧ file b = Some n.
Proof.
  unfold storeFile. run.
  destruct (validatePath f (Some n)) as [e|v] eqn:Ev; [done|].
  destruct (falsy n) eqn:En.
  { apply falsy_empty in En as ->. apply validatePath_empty_file in Ev as ->.
    simpl. by destruct (ensureDir _ d) as [[|] ?]. }
  apply validatePath_file_inr in Ev as [-> Hf]; [|done].
  cbn [PathUtils.folder PathUtils.filename].
  rewrite pathJoin_folder by done.
  destruct (ensureDir _ d) as [[e|[]] d1] eqn:E1; [done|].
  assert (Hj : pathJoin (itemPath (baseDirOf expose) f None) [Some n]
               = inr (itemPath (baseDirOf expose) f (Some n))).
  { simpl. by rewrite En. }
  rewrite Hj.
  destruct (writeFile _ data d1) as [[e|[]] d2] eqn:E2; [done|].
  intros [= <- <-]. repeat split; try done. by exists d1.
Qed.

End UploadSteps.

Lemma valid_file_legal f n :
  validatePath f (Some n) = inr (Validated f (Some n)) → hasChar "/" n = false →
  legalName n = true.
Proof.
  intros (_ & _ & H)%validatePath_inr Hs.
  destruct (falsy n) eqn:En; [done|]. destruct H as (_ & _ & Hb).
  apply safe_base_head in Hb as (_ & _ & Hdot).
  unfold legalName. rewrite En, Hs. simpl.
  rewrite !bool_decide_eq_false_2; [done| |]; by intros ->.
Qed.

Lemma itemPath_flat r f n :
  legalName n = true → itemPath r f (Some n) = Path r [f; n] false.
Proof. intros [Hs He]%segments_legal. unfold itemPath. by rewrite Hs, He. Qed.

Lemma ensureDir_top r f d :
  ensureDir (Path r [f] false) d =
  match tree r d !! f with
  | None => (inr (), setTree r (<[f := Dir ∅]> (tree r d)) d)
  | Some (Dir t) => (inr (), setTree r (<[f := Dir t]> (tree r d)) d)
  | Some (File _) => (inl EEXIST, d)
  end.
Proof. unfold ensureDir. simpl. by destruct (tree r d !! f) as [[|]|]. Qed.

Section RoundTrip.
Variable PUBLIC_URL : string.

(** C7, as the code has it.  Whenever an exposed upload answers 200, a
    direct read of [public/f/n] yields exactly the uploaded bytes; and it
    answers 200 for every accepted pair of names that the host takes and
    whose file name has no separator, unless [public/f] is a regular file
    or [public/f/n] a directory.  A previous file at that path is
    overwritten. *)
Theorem storeFile_round_trip f n data :
  (∀ d b d', storeFile PUBLIC_URL f n true data d = (json b, d') →
     readFile (itemPath Public f (Some n)) d' = (inr data, d')) ∧
  (∀ d, validatePath f (Some n) = inr (Validated f (Some n)) →
        hostName f = true → hostName n = true →
        hasChar "/" n = false →
        (public d !! f = None ∨
         ∃ t, public d !! f = Some (Dir t) ∧ ∀ t2, t !! n ≠ Some (Dir t2)) →
        ∃ b d', storeFile PUBLIC_URL f n true data d = (json b, d') ∧
                visibility b = Some exposed).
Proof.
  split.
  - intros d b d' (_ & _ & _ & d1 & _ & Hw & _)%storeFile_json_inv.
    cbn [baseDirOf] in Hw.
    unfold readFile. by rewrite (writeFile_stat _ _ _ _ _ Hw).
  - intros d Hv _ _ Hflat Hd.
    pose proof (valid_file_legal _ _ Hv Hflat) as Hn.
    pose proof (validatePath_inr _ _ _ Hv) as (Hf & _).
    assert (En : falsy n = false).
    { unfold legalName in Hn. by destruct (falsy n). }
    assert (Hstep : ∀ t, ∃ j, (∀ t2, t !! n ≠ Some (Dir t2)) →
       writeFile (Path Public [f; n] false) data
         (setTree Public (<[f := Dir t]> (public d)) d) = (inr (), j)).
    { intros t. eexists. intros Ht. unfold writeFile. simpl.
      rewrite lookup_insert_eq.
      destruct (t !! n) as [[|t2]|] eqn:E; [done|by destruct (Ht t2)|done]. }
    unfold storeFile. run. rewrite Hv.
    cbn [PathUtils.folder PathUtils.filename baseDirOf].
    rewrite pathJoin_folder by done.
    assert (Hj : pathJoin (itemPath Public f None) [Some n]
                 = inr (Path Public [f; n] false)).
    { rewrite pathJoin_one by done. done. }
    rewrite Hj. unfold itemPath. rewrite ensureDir_top.
    change (tree Public d) with (public d).
    destruct Hd as [Hd|(t & Hd & Ht)]; rewrite Hd.
    + destruct (Hstep ∅) as [j Hw]. rewrite Hw; [|by intros t2; rewrite lookup_empty].
      by eexists _, _.
    + destruct (Hstep t) as [j Hw]. rewrite Hw by done.
      by eexists _, _.
Qed.

End RoundTrip.

Lemma storeFile_round_trip_witness :
  ∃ b d', storeFile "https://files.example" "reports" "a.txt" true hi (Disk ∅ ∅) = (json b, d') ∧
          readFile (itemPath Public "reports" (Some "a.txt")) d' = (inr hi, d').
Proof.
  destruct (proj2 (storeFile_round_trip "https://files.example" "reports" "a.txt" hi)
              (Disk ∅ ∅)) as (b & d' & H & _);
    [reflexivity|reflexivity|reflexivity|reflexivity|left; reflexivity|].
  exists b, d'. split; [exact H|].
  exact (proj1 (storeFile_round_trip "https://files.example" "reports" "a.txt" hi) _ _ _ H).
Defined.

(** C7 as stated fails: [a.b/c] is an accepted file name, yet uploading it
    to a fresh folder stores nothing, since [writeFile] finds no directory
    [public/reports/a.b]. *)
Lemma storeFile_round_trip_counterexample :
  validatePath "reports" (Some "a.b/c") = inr (Validated "reports" (Some "a.b/c")) ∧
  (storeFile "https://files.example" "reports" "a.b/c" true hi (Disk ∅ ∅)).1
    = failure 400 ENOENT ∧
  (readFile (itemPath Public "reports" (Some "a.b/c"))
     (storeFile "https://files.example" "reports" "a.b/c" true hi (Disk ∅ ∅)).2).1
    = inl ENOENT.
Proof. repeat split; vm_compute; reflexivity. Qed.

(** ** Creating folders and files *)

Section Create.
Variable PUBLIC_URL : string.

(** The steps of a [mkdir] that answered 200. *)
Lemma mkdir_json_inv folder expose d b d' :
  mkdir PUBLIC_URL folder expose d = (json b, d') →
  ∃ f, folder = Some f ∧ safePattern f = true ∧
       ensureDir (itemPath (baseDirOf expose) f None) d = (inr (), d') ∧
       visibility b = Some (visibilityOf expose).
Proof.
  unfold mkdir. destruct folder as [f|]; [|done].
  destruct (falsy f); [done|]. run.
  destruct (validatePath f None) as [e|v] eqn:Ev; [done|].
  apply validatePath_folder_inr in Ev as [-> Hf].
  cbn [PathUtils.folder]. rewrite pathJoin_folder by done.
  destruct (ensureDir _ d) as [[e|[]] d1] eqn:E1; [done|].
  intros [= <- <-]. by exists f.
Qed.

Lemma ensureDir_exists p d d' u :
  ensureDir p d = (inr u, d') → ∃ t, statPath d' p = inr (Dir t).
Proof.
  intros (t1 & H & ->)%ensureDir_inv.
  destruct (statNode_mkdirp _ _ _ H) as [t0 Ht0]. exists t0.
  apply statPath_Dir. by rewrite tree_setTree.
Qed.

(** C10.  [mkdir] and the upload leave the root that the [expose] flag
    does not select exactly as it was, and on success the item stands in
    the selected root; so an item already present in the other root ends up
    present in both. *)
Theorem create_touches_one_root :
  (∀ folder expose d,
     tree (opposite (baseDirOf expose)) (mkdir PUBLIC_URL folder expose d).2
     = tree (opposite (baseDirOf expose)) d) ∧
  (∀ f n expose data d,
     tree (opposite (baseDirOf expose)) (storeFile PUBLIC_URL f n expose data d).2
     = tree (opposite (baseDirOf expose)) d) ∧
  (∀ f expose d b d',
     mkdir PUBLIC_URL (Some f) expose d = (json b, d') →
     existsIn d' (baseDirOf expose) f None = true ∧
     existsIn d' (opposite (baseDirOf expose)) f None
     = existsIn d (opposite (baseDirOf expose)) f None) ∧
  (∀ f n expose data d b d',
     storeFile PUBLIC_URL f n expose data d = (json b, d') →
     existsIn d' (baseDirOf expose) f (Some n) = true ∧
     existsIn d' (opposite (baseDirOf expose)) f (Some n)
     = existsIn d (opposite (baseDirOf expose)) f (Some n)).
Proof.
  split; [exact (mkdir_frame PUBLIC_URL)|].
  split; [exact (storeFile_frame PUBLIC_URL)|].
  assert (Hopp : ∀ r f fn d d', tree (opposite r) d' = tree (opposite r) d →
            existsIn d' (opposite r) f fn = existsIn d (opposite r) f fn).
  { intros r f fn d d' H. unfold existsIn, statPath.
    by destruct fn; simpl; rewrite H. }
  split.
  - intros f expose d b d' H. split.
    + apply mkdir_json_inv in H as (f' & [= <-] & _ & H & _).
      apply ensureDir_exists in H as [t Ht]. unfold existsIn. by rewrite Ht.
    + apply Hopp. pose proof (mkdir_frame PUBLIC_URL (Some f) expose d) as Hfr.
      by rewrite H in Hfr.
  - intros f n expose data d b d' H. split.
    + apply storeFile_json_inv in H as (_ & _ & _ & d1 & _ & H & _).
      apply writeFile_stat in H. unfold existsIn. by rewrite H.
    + apply Hopp. pose proof (storeFile_frame PUBLIC_URL f n expose data d) as Hfr.
      by rewrite H in Hfr.
Qed.

End Create.

Lemma create_touches_one_root_witness :
  let d := (mkdir "https://files.example" (Some "reports") true (Disk ∅ ∅)).2 in
  let d' := (mkdir "https://files.example" (Some "reports") false d).2 in
  existsIn d' Private "reports" None = true ∧ existsIn d' Public "reports" None = true.
Proof.
  intros d d'.
  destruct (proj1 (proj2 (proj2 (create_touches_one_root "https://files.example")))
              "reports" false d
              (Body "folder_created" (Some hidden) None (Some "reports") None
                    "Folder created" None None) d' eq_refl) as [H1 H2].
  change (opposite (baseDirOf false)) with Public in H2.
  split; [exact H1|]. rewrite H2. reflexivity.
Defined.

(** ** Deleting *)

Section Delete.

Lemma pathExists_existsIn d r f fn :
  pathExists (itemPath r f fn) d = (inr (existsIn d r f fn), d).
Proof. reflexivity. Qed.

Lemma existsIn_folder d r f :
  existsIn d r f None = bool_decide (is_Some (tree r d !! f)).
Proof.
  unfold existsIn, itemPath. rewrite statPath_top.
  destruct (tree r d !! f) as [n|] eqn:E.
  - by rewrite bool_decide_eq_true_2.
  - rewrite bool_decide_eq_false_2; [done|]. by intros [? ?].
Qed.

Lemma remove_existing p d :
  (∃ n, statPath d p = inr n) →
  remove p d = (inr (), setTree (base p) (removeAt (tree (base p) d) (segs p)) d).
Proof. intros [n Hn]. unfold remove. by rewrite Hn. Qed.

Lemma existsIn_true d r f fn :
  existsIn d r f fn = true → ∃ n, statPath d (itemPath r f fn) = inr n.
Proof. unfold existsIn. destruct (statPath _ _) as [|n]; [done|]. by exists n. Qed.

(** Deleting a file: the first root that holds it, public before private,
    loses it; the other root is not touched. *)
Lemma deleteItem_file f n d :
  validatePath f (Some n) = inr (Validated f (Some n)) →
  deleteItem f (Some n) d =
  if existsIn d Public f (Some n)
  then (fileDeleted f n,
        setTree Public (removeAt (public d) (f :: segments n)) d)
  else if existsIn d Private f (Some n)
  then (fileDeleted f n,
        setTree Private (removeAt (private d) (f :: segments n)) d)
  else (failure 404 "File not found", d).
Proof.
  intros Hv. pose proof (validatePath_inr _ _ _ Hv) as (Hf & _ & Hn).
  destruct (falsy n) eqn:En; [done|].
  unfold deleteItem, truthy. rewrite En. run. rewrite Hv.
  cbn [PathUtils.folder PathUtils.filename negb].
  rewrite !pathJoin_file by done. rewrite !pathExists_existsIn.
  destruct (existsIn d Public f (Some n)) eqn:E1.
  - rewrite remove_existing by by apply existsIn_true. done.
  - rewrite pathExists_existsIn.
    destruct (existsIn d Private f (Some n)) eqn:E2; [|done].
    rewrite remove_existing by by apply existsIn_true. done.
Qed.

(** Deleting a folder: both roots lose it. *)
Lemma deleteItem_folder f d :
  safePattern f = true →
  deleteItem f None d =
  if existsIn d Public f None || existsIn d Private f None
  then (folderDeleted f, Disk (delete f (public d)) (delete f (private d)))
  else (failure 404 "Folder not found", d).
Proof.
  intros Hf. unfold deleteItem, truthy. run.
  rewrite validatePath_folder_ok by done. cbn [PathUtils.folder].
  rewrite !pathJoin_folder by done. rewrite pathExists_existsIn.
  assert (Hgone : ∀ t : gmap string node,
            bool_decide (is_Some (t !! f)) = false → delete f t = t).
  { intros t Ht. apply delete_id. apply bool_decide_eq_false in Ht.
    by apply eq_None_not_Some. }
  assert (Hrm : ∀ r d0, existsIn d0 r f None = true →
            remove (itemPath r f None) d0
            = (inr (), setTree r (delete f (tree r d0)) d0)).
  { intros r d0 H. by rewrite remove_existing by by apply existsIn_true. }
  assert (Hno : ∀ r d0, existsIn d0 r f None = false → delete f (tree r d0) = tree r d0).
  { intros r d0 H. rewrite existsIn_folder in H. by apply Hgone. }
  destruct (existsIn d Public f None) eqn:E1.
  - rewrite Hrm by done. rewrite pathExists_existsIn.
    set (d1 := setTree Public (delete f (tree Public d)) d).
    assert (E : existsIn d1 Private f None = existsIn d Private f None) by done.
    rewrite E. cbn [orb negb].
    destruct (existsIn d Private f None) eqn:E2.
    + rewrite Hrm by done. done.
    + pose proof (Hno Private d E2) as H. unfold d1. destruct d as [pub priv].
      simpl in *. by rewrite H.
  - rewrite pathExists_existsIn. cbn [orb negb].
    destruct (existsIn d Private f None) eqn:E2.
    + rewrite Hrm by done. cbn [negb].
      pose proof (Hno Public d E1) as H. destruct d as [pub priv].
      simpl in *. by rewrite H.
    + done.
Qed.

End Delete.

(** C1 at the failing input.  Two uploads of [reports/a.txt], one exposed
    and one hidden, leave it in both roots; deleting the file then answers
    200 and removes the public copy only, the private copy is still there.
    Deleting the folder on the same disk removes it from both roots. *)
Theorem deleteItem_file_leaves_hidden_copy :
  (storeFile "https://files.example" "reports" "a.txt" false staleCopy
     (storeFile "https://files.example" "reports" "a.txt" true hi (Disk ∅ ∅)).2).2
  = dualDisk ∧
  existsIn dualDisk Public "reports" (Some "a.txt") = true ∧
  existsIn dualDisk Private "reports" (Some "a.txt") = true ∧
  (deleteItem "reports" (Some "a.txt") dualDisk).1 = fileDeleted "reports" "a.txt" ∧
  existsIn (deleteItem "reports" (Some "a.txt") dualDisk).2
           Public "reports" (Some "a.txt") = false ∧
  existsIn (deleteItem "reports" (Some "a.txt") dualDisk).2
           Private "reports" (Some "a.txt") = true ∧
  (deleteItem "reports" None dualDisk).2 = Disk ∅ ∅.
Proof. repeat split; vm_compute; reflexivity. Qed.

(** Not found is answered exactly when neither root holds the item. *)
Lemma deleteItem_404 f fn d v :
  validatePath f fn = inr v → Routes.truthy fn = true ∨ fn = None →
  (∃ msg, (deleteItem f fn d).1 = failure 404 msg) ↔
  existsIn d Public f fn = false ∧ existsIn d Private f fn = false.
Proof.
  intros Hv Hfn. destruct fn as [n|].
  - destruct Hfn as [Hn|]; [|done]. simpl in Hn. apply negb_true_iff in Hn.
    apply validatePath_file_inr in Hv as Hv'; [|done]. destruct Hv' as [-> _].
    rewrite deleteItem_file by done.
    destruct (existsIn d Public f (Some n)); [split; [by intros [? ?]|by intros [? ?]]|].
    destruct (existsIn d Private f (Some n)); [split; [by intros [? ?]|by intros [? ?]]|].
    split; [done|]. intros _. by eexists.
  - apply validatePath_folder_inr in Hv as [-> Hf].
    rewrite deleteItem_folder by done.
    destruct (existsIn d Public f None); [split; [by intros [? ?]|by intros [? ?]]|].
    destruct (existsIn d Private f None); [split; [by intros [? ?]|by intros [? ?]]|].
    split; [done|]. intros _. by eexists.
Qed.

(** ** Exposing and hiding a folder *)

Section Toggle.
Variable PUBLIC_URL : string.

Lemma dirname_folder r f : dirname (itemPath r f None) = rootPath r.
Proof. reflexivity. Qed.

Lemma ensureDir_rootPath r d : ensureDir (rootPath r) d = (inr (), d).
Proof. unfold ensureDir. simpl. by rewrite setTree_tree. Qed.

(** [expose]: the private root is probed first. *)
Lemma exposeFolder_run f d :
  safePattern f = true →
  exposeFolder PUBLIC_URL f d =
  if existsIn d Private f None then
    match move (itemPath Private f None) (itemPath Public f None) d with
    | (inl e, d') => (failure 400 e, d')
    | (inr _, d') => (folderExposed PUBLIC_URL f, d')
    end
  else if existsIn d Public f None then (folderExposed PUBLIC_URL f, d)
  else (failure 404 "Folder not found", d).
Proof.
  intros Hf. unfold exposeFolder. run.
  rewrite validatePath_folder_ok by done. cbn [PathUtils.folder].
  rewrite !pathJoin_folder by done. rewrite pathExists_existsIn.
  destruct (existsIn d Private f None).
  - rewrite dirname_folder, ensureDir_rootPath.
    by destruct (move _ _ d) as [[|] ?].
  - rewrite pathExists_existsIn. by destruct (existsIn d Public f None).
Qed.

(** [unexpose]: the public root is probed first. *)
Lemma unexposeFolder_run f d :
  safePattern f = true →
  unexposeFolder f d =
  if existsIn d Public f None then
    match move (itemPath Public f None) (itemPath Private f None) d with
    | (inl e, d') => (failure 400 e, d')
    | (inr _, d') => (folderUnexposed f, d')
    end
  else if existsIn d Private f None then (folderUnexposed f, d)
  else (failure 404 "Folder not found", d).
Proof.
  intros Hf. unfold unexposeFolder. run.
  rewrite validatePath_folder_ok by done. cbn [PathUtils.folder].
  rewrite !pathJoin_folder by done. rewrite pathExists_existsIn.
  destruct (existsIn d Public f None).
  - rewrite dirname_folder, ensureDir_rootPath.
    by destruct (move _ _ d) as [[|] ?].
  - rewrite pathExists_existsIn. by destruct (existsIn d Private f None).
Qed.

(** Moving a folder to the other root when no regular file bears its
    name. *)
Lemma move_folder_cross d r f t :
  tree r d !! f = Some (Dir t) →
  (∀ data, tree (opposite r) d !! f ≠ Some (File data)) →
  move (itemPath r f None) (itemPath (opposite r) f None) d =
  (inr (), setTree (opposite r) (<[f := Dir t]> (tree (opposite r) d))
             (setTree r (delete f (tree r d)) d)).
Proof.
  intros Ht Hno. apply move_top_cross; [apply not_eq_sym, opposite_ne|done|].
  destruct (tree (opposite r) d !! f) as [[data|t']|] eqn:E; [|done|done].
  by destruct (Hno data).
Qed.

Lemma existsIn_folder_true d r f :
  existsIn d r f None = true ↔ is_Some (tree r d !! f).
Proof. rewrite existsIn_folder. apply bool_decide_eq_true. Qed.

Lemma existsIn_folder_false d r f :
  existsIn d r f None = false ↔ tree r d !! f = None.
Proof.
  rewrite existsIn_folder, bool_decide_eq_false. by rewrite eq_None_not_Some.
Qed.

(** Toggling a folder that stands in [r] only or in both roots moves the
    copy in [r] to the other root; a second toggle finds nothing left in
    [r]. *)
Lemma toggle_twice d r f :
  isFolder d f → existsIn d r f None = true →
  ∃ d1, move (itemPath r f None) (itemPath (opposite r) f None) d = (inr (), d1) ∧
        existsIn d1 r f None = false ∧ existsIn d1 (opposite r) f None = true.
Proof.
  intros [_ Hno] [n Hn]%existsIn_folder_true.
  destruct n as [data|t]; [by destruct (Hno r data)|].
  eexists. split; [by apply move_folder_cross|].
  split.
  - apply existsIn_folder_false.
    rewrite tree_setTree_ne by apply opposite_ne.
    by rewrite tree_setTree, lookup_delete_eq.
  - apply existsIn_folder_true. by rewrite tree_setTree, lookup_insert_eq.
Qed.

(** C5.  For a valid name: on an existing folder, [expose] twice in a row
    answers 200 with visibility [exposed] both times, the second call
    changing nothing, and likewise [unexpose] with [hidden]; and each of
    the two answers 404 exactly when neither root holds the name. *)
Theorem expose_unexpose_idempotent f d :
  safePattern f = true →
  (isFolder d f →
     (∃ d1, exposeFolder PUBLIC_URL f d = (folderExposed PUBLIC_URL f, d1) ∧
            exposeFolder PUBLIC_URL f d1 = (folderExposed PUBLIC_URL f, d1)) ∧
     (∃ d1, unexposeFolder f d = (folderUnexposed f, d1) ∧
            unexposeFolder f d1 = (folderUnexposed f, d1))) ∧
  ((∃ msg, (exposeFolder PUBLIC_URL f d).1 = failure 404 msg) ↔
   existsIn d Public f None = false ∧ existsIn d Private f None = false) ∧
  ((∃ msg, (unexposeFolder f d).1 = failure 404 msg) ↔
   existsIn d Public f None = false ∧ existsIn d Private f None = false).
Proof.
  intros Hf. split; [|split].
  - intros Hd. split.
    + rewrite exposeFolder_run by done.
      destruct (existsIn d Private f None) eqn:E.
      * destruct (toggle_twice d Private f Hd E) as (d1 & Hm & H1 & H2).
        change (opposite Private) with Public in Hm, H2. rewrite Hm.
        exists d1. split; [done|]. rewrite exposeFolder_run by done.
        by rewrite H1, H2.
      * destruct Hd as [[Hd|Hd] _]; [|congruence].
        exists d. rewrite Hd. split; [done|].
        rewrite exposeFolder_run by done. by rewrite E, Hd.
    + rewrite unexposeFolder_run by done.
      destruct (existsIn d Public f None) eqn:E.
      * destruct (toggle_twice d Public f Hd E) as (d1 & Hm & H1 & H2).
        change (opposite Public) with Private in Hm, H2. rewrite Hm.
        exists d1. split; [done|]. rewrite unexposeFolder_run by done.
        by rewrite H1, H2.
      * destruct Hd as [[Hd|Hd] _]; [congruence|].
        exists d. rewrite Hd. split; [done|].
        rewrite unexposeFolder_run by done. by rewrite E, Hd.
  - rewrite exposeFolder_run by done.
    destruct (existsIn d Private f None).
    + split; [|by intros [? ?]].
      destruct (move _ _ d) as [[|] ?]; by intros [? ?].
    + destruct (existsIn d Public f None); [split; [by intros [? ?]|by intros [? ?]]|].
      split; [done|]. intros _. by eexists.
  - rewrite unexposeFolder_run by done.
    destruct (existsIn d Public f None).
    + split; [|by intros [? ?]].
      destruct (move _ _ d) as [[|] ?]; by intros [? ?].
    + destruct (existsIn d Private f None); [split; [by intros [? ?]|by intros [? ?]]|].
      split; [done|]. intros _. by eexists.
Qed.

End Toggle.

Lemma expose_unexpose_idempotent_witness :
  ∃ d1, exposeFolder "https://files.example" "reports" hiddenReports
        = (folderExposed "https://files.example" "reports", d1) ∧
        exposeFolder "https://files.example" "reports" d1
        = (folderExposed "https://files.example" "reports", d1).
Proof.
  refine (proj1 (proj1 (expose_unexpose_idempotent "https://files.example"
                          "reports" hiddenReports eq_refl) _)).
  split; [right; reflexivity|].
  intros [] data; vm_compute; discriminate.
Defined.

(** ** Renaming *)

Section Rename.
Variable PUBLIC_URL : string.

(** The probe of the routes is the resolver. *)
Lemma probe_resolve d f fn :
  probe (itemPath Public f fn) (itemPath Private f fn) d =
  (inr (match resolve d f fn with
        | Some r => Some (itemPath r f fn, isExposedRoot r)
        | None => None
        end), d).
Proof.
  unfold probe, resolve. run. rewrite pathExists_existsIn.
  destruct (existsIn d Public f fn); [done|].
  rewrite pathExists_existsIn. by destruct (existsIn d Private f fn).
Qed.

Lemma valid_file_truthy f n :
  validatePath f (Some n) = inr (Validated f (Some n)) →
  falsy n = false ∧ safePattern f = true ∧ falsy f = false.
Proof.
  intros (Hf & _ & H)%validatePath_inr.
  destruct (falsy n); [done|].
  by destruct (safePattern_clean f Hf) as (? & _).
Qed.

(** Renaming a file: resolve the old name, move inside the resolved root. *)
Lemma renameItem_file_run f n new d :
  validatePath f (Some n) = inr (Validated f (Some n)) →
  validatePath f (Some new) = inr (Validated f (Some new)) →
  renameItem PUBLIC_URL (Some "file") (Some f) (Some n) (Some new) d =
  match resolve d f (Some n) with
  | None => (failure 404 "File not found", d)
  | Some r =>
      match move (itemPath r f (Some n)) (itemPath r f (Some new)) d with
      | (inl e, d') => (failure 400 e, d')
      | (inr _, d') => (fileRenamed PUBLIC_URL r f new, d')
      end
  end.
Proof.
  intros Hv Hv'. destruct (valid_file_truthy _ _ Hv) as (Hn & Hf & Hf0).
  destruct (valid_file_truthy _ _ Hv') as (Hnew & _).
  unfold renameItem, truthy. rewrite Hf0, Hn, Hnew.
  rewrite !(bool_decide_eq_true_2 ("file" = "file")) by done.
  cbn [falsy orb andb negb]. run. rewrite Hv, Hv'.
  cbn [PathUtils.folder PathUtils.filename].
  rewrite !pathJoin_file by done. rewrite probe_resolve.
  destruct (resolve d f (Some n)) as [r|]; [|done].
  assert (Hb : baseDirOf (isExposedRoot r) = r) by by destruct r.
  rewrite Hb, pathJoin_file by done.
  destruct (move _ _ d) as [[e|[]] d']; [done|].
  unfold fileRenamed, visibilityOfRoot, urlOfRoot. by destruct r.
Qed.

(** Renaming a folder: the same, one level up; a file name in the request
    is ignored. *)
Lemma renameItem_folder_run f fn g d :
  safePattern f = true → safePattern g = true →
  renameItem PUBLIC_URL (Some "folder") (Some f) fn (Some g) d =
  match resolve d f None with
  | None => (failure 404 "Folder not found", d)
  | Some r =>
      match move (itemPath r f None) (itemPath r g None) d with
      | (inl e, d') => (failure 400 e, d')
      | (inr _, d') => (folderRenamed PUBLIC_URL r g, d')
      end
  end.
Proof.
  intros Hf Hg.
  destruct (safePattern_clean f Hf) as (Hf0 & _).
  destruct (safePattern_clean g Hg) as (Hg0 & _).
  unfold renameItem. rewrite Hf0, Hg0.
  rewrite !(bool_decide_eq_false_2 ("folder" = "file")) by done.
  rewrite !(bool_decide_eq_true_2 ("folder" = "folder")) by done.
  cbn [falsy orb andb negb]. run.
  rewrite !validatePath_folder_ok by done.
  cbn [PathUtils.folder PathUtils.filename].
  rewrite !pathJoin_folder by done. rewrite probe_resolve.
  destruct (resolve d f None) as [r|]; [|done].
  assert (Hb : baseDirOf (isExposedRoot r) = r) by by destruct r.
  rewrite Hb, pathJoin_folder by done.
  destruct (move _ _ d) as [[e|[]] d']; [done|].
  unfold folderRenamed, visibilityOfRoot, urlOfRoot. by destruct r.
Qed.

Lemma base_itemPath r f fn : base (itemPath r f fn) = r.
Proof. by destruct fn. Qed.

Lemma existsIn_ext d d' r f fn :
  tree r d' = tree r d → existsIn d' r f fn = existsIn d r f fn.
Proof.
  intros H. unfold existsIn, statPath. rewrite !base_itemPath. by rewrite H.
Qed.

Lemma resolve_Some d f fn r :
  resolve d f fn = Some r →
  existsIn d r f fn = true ∧ (r = Private → existsIn d Public f fn = false).
Proof.
  unfold resolve. destruct (existsIn d Public f fn) eqn:E1.
  - intros [= <-]. by split.
  - destruct (existsIn d Private f fn) eqn:E2; [|done]. intros [= <-]. by split.
Qed.

(** A move of an item inside the root [r] that went through. *)
Lemma move_within d d' r f fn g gn u :
  move (itemPath r f fn) (itemPath r g gn) d = (inr u, d') →
  ∃ node, statPath d (itemPath r f fn) = inr node ∧
          statNode (Dir (tree r d')) (segs (itemPath r g gn)) = inr node ∧
          existsIn d' r f fn = false ∧
          tree (opposite r) d' = tree (opposite r) d.
Proof.
  intros H. apply move_same_root in H as (node & H1 & H2 & H3 & H4);
    [|by rewrite !base_itemPath].
  rewrite !base_itemPath in *. exists node. repeat split; try done.
  - unfold existsIn. destruct (statPath d' (itemPath r f fn)) as [|m] eqn:E; [done|].
    apply statPath_inr in E. rewrite base_itemPath in E. by destruct (H3 m).
  - apply H4, opposite_ne.
Qed.

(** After the move the old name resolves to the copy in the other root,
    if there was one, and to nothing otherwise. *)
Lemma resolve_after_move d d' r f fn :
  resolve d f fn = Some r →
  existsIn d' r f fn = false →
  tree (opposite r) d' = tree (opposite r) d →
  resolve d' f fn =
  if existsIn d (opposite r) f fn then Some (opposite r) else None.
Proof.
  intros [Hr Hp]%resolve_Some Hgone Hfr.
  pose proof (existsIn_ext d d' (opposite r) f fn Hfr) as Ho.
  unfold resolve. destruct r; simpl in *.
  - rewrite Hgone, Ho. done.
  - rewrite Ho, (Hp eq_refl), Hgone. done.
Qed.

Lemma setTree_setTree r t t' d : setTree r t (setTree r t' d) = setTree r t d.
Proof. by destruct r. Qed.

(** Renaming a top-level entry to a free name of the same root. *)
Lemma move_top_same d r f g n :
  tree r d !! f = Some n → tree r d !! g = None →
  move (Path r [f] false) (Path r [g] false) d =
  (inr (), setTree r (<[g := n]> (delete f (tree r d))) d).
Proof.
  intros Hn Hg. assert (Hfg : f ≠ g) by (intros ->; congruence).
  unfold move, mbind, M_bind, stat, mret, M_ret, throw.
  rewrite !statPath_top, Hn, Hg. rewrite decide_True by done.
  assert (Hsub : isSrcSubdir (Path r [f] false) (Path r [g] false) = false).
  { unfold isSrcSubdir. simpl. rewrite andb_false_iff. right.
    apply bool_decide_eq_false. intros H. by apply prefix_cons_inv_1 in H. }
  rewrite Hsub, andb_false_r.
  unfold ensureDir. simpl. rewrite setTree_tree.
  unfold remove. rewrite statPath_top, Hg, decide_True by done.
  unfold rename. rewrite statPath_top, Hn. simpl.
  by rewrite tree_setTree, setTree_setTree.
Qed.

(** Renaming a file to a free name of the same folder. *)
Lemma move_file_same d r f n new t0 node :
  tree r d !! f = Some (Dir t0) → t0 !! n = Some node → t0 !! new = None →
  move (Path r [f; n] false) (Path r [f; new] false) d =
  (inr (), setTree r (<[f := Dir (<[new := node]> (delete n t0))]> (tree r d)) d).
Proof.
  intros Hf Hn Hg. assert (Hne : n ≠ new) by (intros ->; congruence).
  assert (Hs : ∀ k, statPath d (Path r [f; k] false) =
                    match t0 !! k with Some c => inr c | None => inl ENOENT end).
  { intros k. unfold statPath. simpl. rewrite Hf.
    by destruct (t0 !! k) as [[|]|]. }
  unfold move, mbind, M_bind, stat, mret, M_ret, throw.
  rewrite !Hs, Hn, Hg. rewrite decide_True by done.
  assert (Hsub : isSrcSubdir (Path r [f; n] false) (Path r [f; new] false) = false).
  { unfold isSrcSubdir. simpl. rewrite andb_false_iff. right.
    apply bool_decide_eq_false. intros H.
    apply prefix_cons_inv_2 in H. by apply prefix_cons_inv_1 in H. }
  rewrite Hsub, andb_false_r.
  unfold ensureDir. simpl. rewrite Hf, insert_id by done. rewrite setTree_tree.
  unfold remove. rewrite Hs, Hg, decide_True by done.
  unfold rename. rewrite Hs, Hn. simpl.
  rewrite tree_setTree, Hf, lookup_insert_eq, setTree_setTree.
  by rewrite insert_insert_eq.
Qed.

(** Moving a top-level entry onto another entry of the same root and of the
    same kind: the other entry is replaced. *)
Lemma move_top_over d r f g n m :
  f ≠ g → tree r d !! f = Some n → tree r d !! g = Some m → isDir m = isDir n →
  move (Path r [f] false) (Path r [g] false) d =
  (inr (), setTree r (<[g := n]> (delete f (tree r d))) d).
Proof.
  intros Hfg Hn Hm Hk.
  unfold move, mbind, M_bind, stat, mret, M_ret, throw.
  rewrite !statPath_top, Hn, Hm.
  assert (Hid : areIdentical (Path r [f] false) (Path r [g] false) = false).
  { unfold areIdentical. simpl. rewrite andb_false_iff. right.
    apply bool_decide_eq_false. by intros [= ?]. }
  assert (Hsub : isSrcSubdir (Path r [f] false) (Path r [g] false) = false).
  { unfold isSrcSubdir. simpl. rewrite andb_false_iff. right.
    apply bool_decide_eq_false. intros H. by apply prefix_cons_inv_1 in H. }
  rewrite Hid, Hsub, andb_false_r.
  assert (Hkind : (if isDir n && isFile m then true else isFile n && isDir m) = false).
  { unfold isFile. rewrite Hk. by destruct (isDir n). }
  destruct (isDir n && isFile m) eqn:E1; [done|].
  destruct (isFile n && isDir m) eqn:E2; [done|].
  unfold ensureDir. simpl. rewrite setTree_tree.
  rewrite remove_top by (by rewrite Hm).
  unfold rename. rewrite statPath_top, tree_setTree, lookup_delete_ne, Hn by done.
  simpl. rewrite !tree_setTree, !setTree_setTree.
  do 2 f_equal. by rewrite delete_delete, insert_delete_eq.
Qed.

(** Renaming a file onto another entry of its folder, of the same kind:
    the other entry is replaced. *)
Lemma move_file_over d r f n new t0 node node' :
  n ≠ new → tree r d !! f = Some (Dir t0) →
  t0 !! n = Some node → t0 !! new = Some node' → isDir node' = isDir node →
  move (Path r [f; n] false) (Path r [f; new] false) d =
  (inr (), setTree r (<[f := Dir (<[new := node]> (delete n t0))]> (tree r d)) d).
Proof.
  intros Hne Hf Hn Hg Hk.
  assert (Hs : ∀ d0 t k, tree r d0 !! f = Some (Dir t) →
                 statPath d0 (Path r [f; k] false) =
                 match t !! k with Some c => inr c | None => inl ENOENT end).
  { intros d0 t k H0. unfold statPath. simpl. rewrite H0.
    by destruct (t !! k) as [[|]|]. }
  unfold move, mbind, M_bind, stat, mret, M_ret, throw.
  rewrite !(Hs d t0) by done. rewrite Hn, Hg.
  assert (Hid : areIdentical (Path r [f; n] false) (Path r [f; new] false) = false).
  { unfold areIdentical. simpl. rewrite andb_false_iff. right.
    apply bool_decide_eq_false. by intros [= ?]. }
  assert (Hsub : isSrcSubdir (Path r [f; n] false) (Path r [f; new] false) = false).
  { unfold isSrcSubdir. simpl. rewrite andb_false_iff. right.
    apply bool_decide_eq_false. intros H.
    apply prefix_cons_inv_2 in H. by apply prefix_cons_inv_1 in H. }
  rewrite Hid, Hsub, andb_false_r.
  assert (Hkind : (if isDir node && isFile node' then true
                   else isFile node && isDir node') = false).
  { unfold isFile. rewrite Hk. by destruct (isDir node). }
  destruct (isDir node && isFile node') eqn:E1; [done|].
  destruct (isFile node && isDir node') eqn:E2; [done|].
  unfold ensureDir. simpl. rewrite Hf, insert_id by done. rewrite setTree_tree.
  unfold remove. rewrite (Hs d t0) by done. rewrite Hg. cbn [base segs].
  rewrite removeAt_cons, Hf. cbn [removeAt].
  set (d1 := setTree r (<[f := Dir (delete new t0)]> (tree r d)) d).
  assert (Hf1 : tree r d1 !! f = Some (Dir (delete new t0))).
  { unfold d1. by rewrite tree_setTree, lookup_insert_eq. }
  unfold rename. rewrite (Hs d1 (delete new t0)) by done.
  rewrite lookup_delete_ne, Hn by done. cbn [dirOnly andb base segs].
  rewrite removeAt_cons, Hf1. cbn [removeAt].
  rewrite tree_setTree, putAt_cons, lookup_insert_eq. cbn [putAt].
  unfold d1. rewrite !tree_setTree, !setTree_setTree, !insert_insert_eq.
  do 3 f_equal. by rewrite delete_delete, insert_delete_eq.
Qed.

(** A rename to another name goes through when the resolved root holds
    nothing under the new name, or an item of the kind of the renamed one:
    for a file whose old and new names have no separator, and for a
    folder. *)
Lemma renameItem_file_goes f n new d r :
  validatePath f (Some n) = inr (Validated f (Some n)) →
  validatePath f (Some new) = inr (Validated f (Some new)) →
  hasChar "/" n = false → hasChar "/" new = false → n ≠ new →
  resolve d f (Some n) = Some r →
  (∀ node node', statPath d (itemPath r f (Some n)) = inr node →
                 statPath d (itemPath r f (Some new)) = inr node' →
                 isDir node' = isDir node) →
  (renameItem PUBLIC_URL (Some "file") (Some f) (Some n) (Some new) d).1
  = fileRenamed PUBLIC_URL r f new.
Proof.
  intros Hv Hv' Hn Hnew Hne Hr Hkind.
  rewrite renameItem_file_run, Hr by done.
  apply resolve_Some in Hr as [Hr _].
  unfold existsIn in Hr.
  rewrite !itemPath_flat in * by by eapply valid_file_legal.
  unfold statPath in Hr, Hkind. simpl in Hr, Hkind.
  destruct (tree r d !! f) as [[data|t0]|] eqn:Ef; [done| |done].
  destruct (t0 !! n) as [node|] eqn:En; [|done].
  destruct (t0 !! new) as [node'|] eqn:Enew.
  - rewrite (move_file_over d r f n new t0 node node'); try done.
    apply Hkind; [by destruct node|by destruct node'].
  - by rewrite (move_file_same d r f n new t0 node).
Qed.

Lemma renameItem_folder_goes f fn g d r :
  safePattern f = true → safePattern g = true → f ≠ g →
  resolve d f None = Some r →
  (∀ node node', tree r d !! f = Some node → tree r d !! g = Some node' →
                 isDir node' = isDir node) →
  (renameItem PUBLIC_URL (Some "folder") (Some f) fn (Some g) d).1
  = folderRenamed PUBLIC_URL r g.
Proof.
  intros Hf Hg Hne Hr Hkind.
  rewrite renameItem_folder_run, Hr by done.
  apply resolve_Some in Hr as [Hr _].
  apply existsIn_folder_true in Hr as [node Hnode].
  unfold itemPath. destruct (tree r d !! g) as [node'|] eqn:Eg.
  - rewrite (move_top_over d r f g node node'); try done. by apply Hkind.
  - by rewrite (move_top_same d r f g node).
Qed.

(** C4, as the code has it.  When a rename answers 200, the old name
    resolved to a root [r] (the exposed one when both hold the item), the
    node that stood at the old name now stands at the new name in that same
    root, the other root is untouched, and the answer carries the
    visibility of [r].  The old name then resolves to the copy in the other
    root if there was one, and is not found otherwise; [r] itself no longer
    holds it.  A rename to another name that the host takes answers 200
    when [r] holds nothing under the new name, or an item of the kind of
    the renamed one, which is replaced (for a file, when neither name has a
    separator). *)
Theorem rename_preserves_visibility :
  (∀ f n new d b d',
     validatePath f (Some n) = inr (Validated f (Some n)) →
     validatePath f (Some new) = inr (Validated f (Some new)) →
     renameItem PUBLIC_URL (Some "file") (Some f) (Some n) (Some new) d = (json b, d') →
     ∃ r node,
       resolve d f (Some n) = Some r ∧
       visibility b = Some (visibilityOfRoot r) ∧
       statPath d (itemPath r f (Some n)) = inr node ∧
       statNode (Dir (tree r d')) (segs (itemPath r f (Some new))) = inr node ∧
       tree (opposite r) d' = tree (opposite r) d ∧
       existsIn d' r f (Some n) = false ∧
       resolve d' f (Some n) =
         if existsIn d (opposite r) f (Some n) then Some (opposite r) else None) ∧
  (∀ f fn g d b d',
     safePattern f = true → safePattern g = true →
     renameItem PUBLIC_URL (Some "folder") (Some f) fn (Some g) d = (json b, d') →
     ∃ r node,
       resolve d f None = Some r ∧
       visibility b = Some (visibilityOfRoot r) ∧
       tree r d !! f = Some node ∧
       tree r d' !! g = Some node ∧
       tree (opposite r) d' = tree (opposite r) d ∧
       existsIn d' r f None = false ∧
       resolve d' f None =
         if existsIn d (opposite r) f None then Some (opposite r) else None) ∧
  (∀ f n new d r,
     validatePath f (Some n) = inr (Validated f (Some n)) →
     validatePath f (Some new) = inr (Validated f (Some new)) →
     hostName new = true →
     hasChar "/" n = false → hasChar "/" new = false → n ≠ new →
     resolve d f (Some n) = Some r →
     (∀ node node', statPath d (itemPath r f (Some n)) = inr node →
                    statPath d (itemPath r f (Some new)) = inr node' →
                    isDir node' = isDir node) →
     (renameItem PUBLIC_URL (Some "file") (Some f) (Some n) (Some new) d).1
     = fileRenamed PUBLIC_URL r f new) ∧
  (∀ f fn g d r,
     safePattern f = true → safePattern g = true →
     hostName g = true → f ≠ g →
     resolve d f None = Some r →
     (∀ node node', tree r d !! f = Some node → tree r d !! g = Some node' →
                    isDir node' = isDir node) →
     (renameItem PUBLIC_URL (Some "folder") (Some f) fn (Some g) d).1
     = folderRenamed PUBLIC_URL r g).
Proof.
  split; [|split; [|split]]; cycle 2.
  { intros f n new d r Hv Hv' _. by apply renameItem_file_goes. }
  { intros f fn g d r Hf Hg _. by apply renameItem_folder_goes. }
  - intros f n new d b d' Hv Hv'. rewrite renameItem_file_run by done.
    destruct (resolve d f (Some n)) as [r|] eqn:Er; [|done].
    destruct (move _ _ d) as [[e|[]] d1] eqn:Em; [done|].
    intros [= <- <-].
    apply move_within in Em as (node & H1 & H2 & H3 & H4).
    exists r, node. repeat split; try done.
    by apply resolve_after_move.
  - intros f fn g d b d' Hf Hg. rewrite renameItem_folder_run by done.
    destruct (resolve d f None) as [r|] eqn:Er; [|done].
    destruct (move _ _ d) as [[e|[]] d1] eqn:Em; [done|].
    intros [= <- <-].
    apply move_within in Em as (node & H1 & H2 & H3 & H4).
    exists r, node. repeat split; try done.
    + unfold itemPath in H1. rewrite statPath_top in H1.
      by destruct (tree r d !! f); [injection H1 as ->|].
    + simpl in H2. by destruct (tree r d1 !! g); [injection H2 as ->|].
    + by apply resolve_after_move.
Qed.

End Rename.

Lemma rename_preserves_visibility_witness :
  ∃ r node,
    resolve hiddenReports "reports" (Some "a.txt") = Some r ∧
    statNode (Dir (tree r (renameItem "https://files.example" (Some "file")
                 (Some "reports") (Some "a.txt") (Some "b.txt") hiddenReports).2))
             (segs (itemPath r "reports" (Some "b.txt"))) = inr node ∧
    resolve (renameItem "https://files.example" (Some "file")
               (Some "reports") (Some "a.txt") (Some "b.txt") hiddenReports).2
            "reports" (Some "a.txt") = None.
Proof.
  destruct (proj1 (rename_preserves_visibility "https://files.example")
              "reports" "a.txt" "b.txt" hiddenReports
              (Body "renamed" (Some hidden) None (Some "reports") (Some "b.txt")
                    "File renamed successfully" None None)
              (renameItem "https://files.example" (Some "file")
                 (Some "reports") (Some "a.txt") (Some "b.txt") hiddenReports).2
              eq_refl eq_refl eq_refl)
    as (r & node & H1 & _ & _ & H2 & _ & _ & H3).
  exists r, node. split; [exact H1|]. split; [exact H2|].
  rewrite H3. injection H1 as <-. reflexivity.
Defined.

(** C4 as stated fails: with [reports/a.txt] in both roots, renaming it
    moves the public copy, and the old name still resolves, to the private
    copy. *)
Lemma rename_preserves_visibility_counterexample :
  resolve dualDisk "reports" (Some "a.txt") = Some Public ∧
  (renameItem "https://files.example" (Some "file") (Some "reports")
     (Some "a.txt") (Some "b.txt") dualDisk).1
  = fileRenamed "https://files.example" Public "reports" "b.txt" ∧
  resolve (renameItem "https://files.example" (Some "file") (Some "reports")
             (Some "a.txt") (Some "b.txt") dualDisk).2
          "reports" (Some "a.txt") = Some Private ∧
  (probe (itemPath Public "reports" (Some "a.txt"))
         (itemPath Private "reports" (Some "a.txt"))
         (renameItem "https://files.example" (Some "file") (Some "reports")
            (Some "a.txt") (Some "b.txt") dualDisk).2).1
  = inr (Some (itemPath Private "reports" (Some "a.txt"), false)).
Proof. repeat split; vm_compute; reflexivity. Qed.

(** ** Listing a folder, and which copy wins *)

Section Listing.

(** [stat] on each entry of a directory, by name. *)
Lemma mapM_entries {B} (p : fpath) (t : gmap string node)
    (g : string → node → B) d (l : list (string * node)) :
  statNode (Dir (tree (base p) d)) (segs p) = inr (Dir t) →
  (∀ k n, (k, n) ∈ l → t !! k = Some n ∧ legalName k = true) →
  mapM (λ item, itemPath ← lift (pathJoin p [Some item]);
                stats ← stat itemPath;
                mret (g item stats)) (map fst l) d
  = (inr (map (λ kn, g kn.1 kn.2) l), d).
Proof.
  intros Hp. unfold mbind, M_bind, lift, stat, mret, M_ret.
  induction l as [|[k n] l IH]; intros Hl; [done|].
  destruct (Hl k n) as [Hk Hlegal]; [by left|].
  cbn [map fst mapM]. unfold mbind, M_bind, mret, M_ret.
  rewrite pathJoin_one by done.
  assert (Hs : statPath d (Path (base p) (segs p ++ [k]) false) = inr n).
  { unfold statPath. cbn [base segs dirOnly].
    rewrite (statNode_app _ _ _ _ Hp). simpl. rewrite Hk. by destruct n. }
  rewrite Hs, IH; [done|]. intros k' n' H'. apply Hl. by right.
Qed.

Lemma readdir_Dir p t d :
  statNode (Dir (tree (base p) d)) (segs p) = inr (Dir t) →
  readdir p d = (inr (map fst (map_to_list t)), d).
Proof. intros H. unfold readdir. by rewrite (statPath_Dir _ _ _ H). Qed.

Lemma legalNames_list t :
  legalNames t → ∀ k n, (k, n) ∈ map_to_list t → t !! k = Some n ∧ legalName k = true.
Proof.
  intros Ht k n Hkn%elem_of_map_to_list. split; [done|]. apply Ht. by exists n.
Qed.

End Listing.

Section MoveFrame.

Lemma touchesOnly_pure {A} r (m : M A) : (∀ d, (m d).2 = d) → touchesOnly r m.
Proof. intros H d. by rewrite H. Qed.

Lemma touchesOnly_remove p : touchesOnly (base p) (remove p).
Proof.
  intros d. unfold remove. destruct (statPath d p) as [e|n].
  - by destruct (decide (e = ENOENT)).
  - simpl. apply tree_setTree_ne, not_eq_sym, opposite_ne.
Qed.

Lemma touchesOnly_rename src dest :
  base src = base dest → touchesOnly (base src) (rename src dest).
Proof.
  intros Hb d. unfold rename. destruct (statPath d src) as [e|n]; [done|].
  destruct (dirOnly dest && isFile n); [done|].
  destruct (putAt _ _ _) as [e|t']; [done|]. simpl.
  rewrite <- Hb. rewrite !tree_setTree_ne by apply not_eq_sym, opposite_ne. done.
Qed.

Lemma touchesOnly_move src dest :
  base src = base dest → touchesOnly (base src) (move src dest).
Proof.
  intros Hb. unfold move.
  apply touchesOnly_bind; [by apply touchesOnly_pure|intros srcStat].
  apply touchesOnly_bind.
  { apply touchesOnly_pure. intros d. destruct (statPath d dest) as [e|n]; [|done].
    by destruct (decide (e = ENOENT)). }
  intros destStat.
  apply touchesOnly_bind.
  { apply touchesOnly_pure. intros d. destruct destStat as [n|]; [|done].
    destruct (areIdentical src dest); [done|].
    destruct (isDir srcStat && isFile n); [done|].
    by destruct (isFile srcStat && isDir n). }
  intros _. apply touchesOnly_bind.
  { apply touchesOnly_pure. intros d.
    by destruct (isDir srcStat && isSrcSubdir src dest). }
  intros _. apply touchesOnly_bind.
  { rewrite Hb. apply (touchesOnly_ensureDir (dirname dest)). }
  intros _. apply touchesOnly_bind.
  { rewrite Hb. apply touchesOnly_remove. }
  intros _. by apply touchesOnly_rename.
Qed.

End MoveFrame.

Section Precedence.
Variable PUBLIC_URL : string.

(** Listing a folder: the resolved copy is the one that is read. *)
Lemma listFolder_run f d r t :
  safePattern f = true → resolve d f None = Some r →
  tree r d !! f = Some (Dir t) → legalNames t →
  listFolder PUBLIC_URL f d = (folderListed PUBLIC_URL r f t, d).
Proof.
  intros Hf Hr Ht Hlegal. unfold listFolder. run.
  rewrite validatePath_folder_ok by done. cbn [PathUtils.folder].
  rewrite !pathJoin_folder by done.
  pose proof (probe_resolve d f None) as Hp. unfold probe in Hp.
  unfold probe. run. unfold mbind, M_bind, mret, M_ret in Hp. rewrite Hp, Hr.
  assert (Hs : statNode (Dir (tree (base (itemPath r f None)) d))
                 (segs (itemPath r f None)) = inr (Dir t)).
  { simpl. by rewrite Ht. }
  rewrite (readdir_Dir _ _ _ Hs).
  pose proof (mapM_entries (itemPath r f None) t
                (λ file stats, match stats with
                               | File data => Some (FileEntry file (length data))
                               | Dir _ => None
                               end) d (map_to_list t) Hs (legalNames_list t Hlegal)) as Hm.
  unfold mbind, M_bind, mret, M_ret, lift in Hm. rewrite Hm.
  unfold folderListed, fileEntries, visibilityOfRoot, urlOfRoot. by destruct r.
Qed.

Lemma deleteItem_file_exposed f n d :
  validatePath f (Some n) = inr (Validated f (Some n)) →
  existsIn d Public f (Some n) = true →
  (deleteItem f (Some n) d).1 = fileDeleted f n ∧
  existsIn (deleteItem f (Some n) d).2 Public f (Some n) = false ∧
  private (deleteItem f (Some n) d).2 = private d.
Proof.
  intros Hv He. rewrite deleteItem_file, He by done. repeat split.
  unfold existsIn. cbn [snd].
  destruct (statPath _ _) as [|m] eqn:E; [done|].
  apply statPath_inr in E. cbn [itemPath base segs] in E. rewrite tree_setTree in E.
  by apply statNode_removeAt_below in E.
Qed.

Lemma resolve_exposed d f fn :
  existsIn d Public f fn = true → resolve d f fn = Some Public.
Proof. unfold resolve. by intros ->. Qed.

Lemma renameItem_file_exposed f n new d :
  validatePath f (Some n) = inr (Validated f (Some n)) →
  validatePath f (Some new) = inr (Validated f (Some new)) →
  existsIn d Public f (Some n) = true →
  private (renameItem PUBLIC_URL (Some "file") (Some f) (Some n) (Some new) d).2
  = private d ∧
  ∀ b, (renameItem PUBLIC_URL (Some "file") (Some f) (Some n) (Some new) d).1 = json b →
       visibility b = Some exposed.
Proof.
  intros Hv Hv' He. rewrite renameItem_file_run by done.
  rewrite (resolve_exposed _ _ _ He).
  pose proof (touchesOnly_move (itemPath Public f (Some n))
                (itemPath Public f (Some new)) eq_refl d) as Hfr.
  cbn [itemPath base opposite tree] in Hfr.
  destruct (move _ _ d) as [[e|[]] d']; cbn [fst snd] in *; split; try done.
  by intros b [= <-].
Qed.

Lemma renameItem_folder_exposed f fn g d :
  safePattern f = true → safePattern g = true →
  existsIn d Public f None = true →
  private (renameItem PUBLIC_URL (Some "folder") (Some f) fn (Some g) d).2
  = private d ∧
  ∀ b, (renameItem PUBLIC_URL (Some "folder") (Some f) fn (Some g) d).1 = json b →
       visibility b = Some exposed.
Proof.
  intros Hf Hg He. rewrite renameItem_folder_run by done.
  rewrite (resolve_exposed _ _ _ He).
  pose proof (touchesOnly_move (itemPath Public f None)
                (itemPath Public g None) eq_refl d) as Hfr.
  cbn [itemPath base opposite tree] in Hfr.
  destruct (move _ _ d) as [[e|[]] d']; cbn [fst snd] in *; split; try done.
  by intros b [= <-].
Qed.

Lemma toggle_both f d a b :
  safePattern f = true →
  public d !! f = Some (Dir a) → private d !! f = Some (Dir b) →
  unexposeFolder f d
  = (folderUnexposed f, Disk (delete f (public d)) (<[f := Dir a]> (private d))) ∧
  exposeFolder PUBLIC_URL f d
  = (folderExposed PUBLIC_URL f, Disk (<[f := Dir b]> (public d)) (delete f (private d))) ∧
  deleteItem f None d
  = (folderDeleted f, Disk (delete f (public d)) (delete f (private d))).
Proof.
  intros Hf Ha Hb.
  assert (E1 : existsIn d Public f None = true)
    by (apply existsIn_folder_true; by exists (Dir a)).
  assert (E2 : existsIn d Private f None = true)
    by (apply existsIn_folder_true; by exists (Dir b)).
  split; [|split].
  - rewrite unexposeFolder_run, E1 by done.
    pose proof (move_folder_cross d Public f a Ha) as Hm.
    cbn [opposite] in Hm. rewrite Hm; [by destruct d|].
    intros data. simpl. by rewrite Hb.
  - rewrite exposeFolder_run, E2 by done.
    pose proof (move_folder_cross d Private f b Hb) as Hm.
    cbn [opposite] in Hm. rewrite Hm; [by destruct d|].
    intros data. simpl. by rewrite Ha.
  - rewrite deleteItem_folder by done. by rewrite E1.
Qed.

(** C3, as the code has it.  When the exposed root holds the item: delete
    of a file removes the exposed copy and leaves the hidden root alone;
    rename, of a file or of a folder, works in the exposed root, leaves the
    hidden root alone and answers [exposed]; list reads the exposed copy
    and answers [exposed].  With a folder in both roots, [unexpose] moves
    the exposed copy over the hidden one, [expose] probes the hidden root
    first and moves the hidden copy over the exposed one, and delete of
    the folder removes both. *)
Theorem exposed_root_precedence f d :
  safePattern f = true →
  (∀ n, validatePath f (Some n) = inr (Validated f (Some n)) →
        existsIn d Public f (Some n) = true →
        (deleteItem f (Some n) d).1 = fileDeleted f n ∧
        existsIn (deleteItem f (Some n) d).2 Public f (Some n) = false ∧
        private (deleteItem f (Some n) d).2 = private d) ∧
  (∀ n new, validatePath f (Some n) = inr (Validated f (Some n)) →
        validatePath f (Some new) = inr (Validated f (Some new)) →
        existsIn d Public f (Some n) = true →
        private (renameItem PUBLIC_URL (Some "file") (Some f) (Some n) (Some new) d).2
        = private d ∧
        ∀ b, (renameItem PUBLIC_URL (Some "file") (Some f) (Some n) (Some new) d).1
             = json b → visibility b = Some exposed) ∧
  (∀ fn g, safePattern g = true → existsIn d Public f None = true →
        private (renameItem PUBLIC_URL (Some "folder") (Some f) fn (Some g) d).2
        = private d ∧
        ∀ b, (renameItem PUBLIC_URL (Some "folder") (Some f) fn (Some g) d).1
             = json b → visibility b = Some exposed) ∧
  (∀ t, public d !! f = Some (Dir t) → legalNames t →
        listFolder PUBLIC_URL f d = (folderListed PUBLIC_URL Public f t, d)) ∧
  (∀ a b, public d !! f = Some (Dir a) → private d !! f = Some (Dir b) →
        unexposeFolder f d
        = (folderUnexposed f, Disk (delete f (public d)) (<[f := Dir a]> (private d))) ∧
        exposeFolder PUBLIC_URL f d
        = (folderExposed PUBLIC_URL f,
           Disk (<[f := Dir b]> (public d)) (delete f (private d))) ∧
        deleteItem f None d
        = (folderDeleted f, Disk (delete f (public d)) (delete f (private d)))).
Proof.
  intros Hf. split; [|split; [|split; [|split]]].
  - intros n. apply deleteItem_file_exposed.
  - intros n new. apply renameItem_file_exposed.
  - intros fn g. by apply renameItem_folder_exposed.
  - intros t Ht Hlegal. apply listFolder_run; try done.
    apply resolve_exposed, existsIn_folder_true. simpl. by rewrite Ht.
  - intros a b. by apply toggle_both.
Qed.

End Precedence.

Lemma exposed_root_precedence_witness :
  (deleteItem "reports" (Some "a.txt") dualDisk).1 = fileDeleted "reports" "a.txt" ∧
  private (deleteItem "reports" (Some "a.txt") dualDisk).2 = private dualDisk ∧
  listFolder "https://files.example" "reports" dualDisk
  = (folderListed "https://files.example" Public "reports" {[ "a.txt" := File hi ]},
     dualDisk).
Proof.
  pose proof (exposed_root_precedence "https://files.example" "reports" dualDisk eq_refl)
    as (H1 & _ & _ & H4 & _).
  destruct (H1 "a.txt" eq_refl eq_refl) as (Ha & _ & Hb).
  split; [exact Ha|]. split; [exact Hb|].
  apply H4; [reflexivity|].
  intros k [n Hn]. destruct (decide (k = "a.txt")) as [->|Hne]; [reflexivity|].
  by rewrite lookup_singleton_ne in Hn.
Defined.

(** C3 as stated fails for [expose]: with [reports] in both roots it is the
    hidden copy that is chosen; it takes the place of the exposed copy,
    whose content is lost. *)
Lemma exposed_root_precedence_counterexample :
  existsIn dualDisk Public "reports" None = true ∧
  existsIn dualDisk Private "reports" None = true ∧
  exposeFolder "https://files.example" "reports" dualDisk
  = (folderExposed "https://files.example" "reports", Disk (reportsWith staleCopy) ∅) ∧
  reportsWith staleCopy ≠ public dualDisk.
Proof. repeat split; try (vm_compute; reflexivity). vm_compute. discriminate. Qed.

(** ** Listing the roots *)

Section Dedupe.

Implicit Types (m acc : list (string * folderEntry)) (e : folderEntry)
               (l exp hid : list folderEntry).

Lemma dedupe_fold l : dedupe l = fold_left dedupeStep l [].
Proof. reflexivity. Qed.

Lemma mapSet_fresh {V} (m : list (string * V)) k v :
  k ∉ m.*1 → mapSet m k v = (m ++ [(k, v)])%list.
Proof.
  induction m as [|[k' v'] m IH]; simpl; [done|].
  intros [Hne Hk]%not_elem_of_cons.
  rewrite decide_False by done. by rewrite IH.
Qed.

Lemma filter_local {A} (P Q : A → Prop) `{!∀ x, Decision (P x)} `{!∀ x, Decision (Q x)}
    (l : list A) :
  (∀ x, x ∈ l → P x ↔ Q x) → filter P l = filter Q l.
Proof.
  induction l as [|a l IH]; intros Hpq; [done|].
  rewrite !filter_cons.
  rewrite IH by (intros x Hx; apply Hpq; by right).
  destruct (decide (P a)) as [HP|HP], (decide (Q a)) as [HQ|HQ]; try done.
  - destruct HQ. by apply (Hpq a); [left|].
  - destruct HP. by apply (Hpq a); [left|].
Qed.

(** Exposed entries with fresh, distinct names are appended in order. *)
Lemma fold_exposed exp acc :
  Forall (λ e, folderVisibility e = exposed) exp →
  NoDup (map folderName exp) →
  (∀ e, e ∈ exp → folderName e ∉ acc.*1) →
  fold_left dedupeStep exp acc = (acc ++ map keyed exp)%list.
Proof.
  revert acc. induction exp as [|e exp IH]; intros acc Hvis Hnd Hfresh; simpl.
  { by rewrite app_nil_r. }
  apply Forall_cons in Hvis as [He Hvis]. apply NoDup_cons in Hnd as [Hne Hnd].
  unfold dedupeStep at 2. rewrite He, bool_decide_eq_true_2, orb_true_r by done.
  rewrite mapSet_fresh by (apply Hfresh; by left).
  rewrite IH; [by rewrite <- app_assoc|done|done|].
  intros e' He'. rewrite fmap_app, elem_of_app. intros [H|H].
  - by apply (Hfresh e'); [right|].
  - simpl in H. apply list_elem_of_singleton in H. apply Hne.
    rewrite <- H. apply list_elem_of_In, in_map, list_elem_of_In, He'.
Qed.

(** A hidden entry is appended unless its name is taken. *)
Lemma fold_hidden hid acc :
  Forall (λ e, folderVisibility e = hidden) hid →
  NoDup (map folderName hid) →
  fold_left dedupeStep hid acc
  = (acc ++ map keyed (filter (λ e, folderName e ∉ acc.*1) hid))%list.
Proof.
  revert acc. induction hid as [|e hid IH]; intros acc Hvis Hnd; simpl.
  { by rewrite app_nil_r. }
  apply Forall_cons in Hvis as [He Hvis]. apply NoDup_cons in Hnd as [Hne Hnd].
  unfold dedupeStep at 2. rewrite He, bool_decide_eq_false_2, orb_false_r by done.
  unfold mapHas. rewrite filter_cons.
  destruct (decide (folderName e ∉ acc.*1)) as [Hk|Hk].
  - rewrite bool_decide_eq_false_2 by done. cbn [negb].
    rewrite mapSet_fresh by done. rewrite IH by done.
    rewrite <- app_assoc. simpl. do 3 f_equal.
    apply filter_local. intros e' He'.
    rewrite fmap_app, elem_of_app. simpl. rewrite list_elem_of_singleton.
    split; [tauto|]. intros H Hor. destruct Hor as [H'|H']; [done|].
    apply Hne. rewrite <- H'. apply list_elem_of_In, in_map, list_elem_of_In, He'.
  - rewrite bool_decide_eq_true_2 by (by apply dec_stable).
    cbn [negb]. by rewrite IH.
Qed.

(** What [dedupe] keeps: the exposed entries, then the hidden entries whose
    name no exposed entry bears. *)
Lemma dedupe_spec exp hid :
  Forall (λ e, folderVisibility e = exposed) exp →
  Forall (λ e, folderVisibility e = hidden) hid →
  NoDup (map folderName exp) → NoDup (map folderName hid) →
  mapValues (dedupe (exp ++ hid))
  = (exp ++ filter (λ e, folderName e ∉ map folderName exp) hid)%list.
Proof.
  intros He Hh Hne Hnh. rewrite dedupe_fold, fold_left_app.
  rewrite (fold_exposed exp [] He Hne) by (intros e _; apply not_elem_of_nil).
  rewrite fold_hidden by done. simpl.
  assert (Hk : ∀ l, (map keyed l).*1 = map folderName l).
  { induction l as [|a l IH]; [done|]. simpl. f_equal. exact IH. }
  assert (Hv : ∀ l, (map keyed l).*2 = l).
  { induction l as [|a l IH]; [done|]. simpl. f_equal. exact IH. }
  unfold mapValues. rewrite fmap_app, !Hv. f_equal.
  apply filter_local. intros e _. by rewrite Hk.
Qed.

End Dedupe.

Section ListRoot.
Variable PUBLIC_URL : string.

Lemma folderName_entryOf r k : folderName (entryOf PUBLIC_URL r k) = k.
Proof. by destruct r. Qed.

Lemma elem_of_foldersAmong r l e :
  e ∈ foldersAmong PUBLIC_URL r l ↔ ∃ k t, (k, Dir t) ∈ l ∧ e = entryOf PUBLIC_URL r k.
Proof.
  unfold foldersAmong. induction l as [|[k n] l IH]; simpl.
  - split; [by intros ?%elem_of_nil|]. by intros (k & t & ?%elem_of_nil & _).
  - unfold folderEntryOf at 1. destruct n as [data|t]; simpl.
    + rewrite IH. split.
      * intros (k' & t' & H & ->). exists k', t'. split; [by right|done].
      * intros (k' & t' & H & ->). apply elem_of_cons in H as [H|H]; [done|].
        by exists k', t'.
    + rewrite elem_of_cons, IH. split.
      * intros [->|(k' & t' & H & ->)].
        -- exists k, t. split; [by left|done].
        -- exists k', t'. split; [by right|done].
      * intros (k' & t' & H & ->). apply elem_of_cons in H as [[= -> ->]|H]; [by left|].
        right. by exists k', t'.
Qed.

Lemma NoDup_foldersAmong r l :
  NoDup l.*1 → NoDup (map folderName (foldersAmong PUBLIC_URL r l)).
Proof.
  unfold foldersAmong. induction l as [|[k n] l IH]; simpl; [constructor|].
  intros [Hk Hnd]%NoDup_cons. unfold folderEntryOf at 1.
  destruct n as [data|t]; simpl; [by apply IH|].
  apply NoDup_cons. split; [|by apply IH].
  rewrite folderName_entryOf. intros H. apply Hk.
  apply list_elem_of_In, in_map_iff in H as (e & He & Hin).
  apply list_elem_of_In, (elem_of_foldersAmong r l) in Hin as (k' & t' & Hin & ->).
  rewrite folderName_entryOf in He. subst k'.
  apply list_elem_of_fmap. by exists (k, Dir t').
Qed.

Lemma Forall_foldersAmong r l :
  Forall (λ e, folderVisibility e = visibilityOfRoot r) (foldersAmong PUBLIC_URL r l).
Proof.
  apply Forall_forall. intros e (k & t & _ & ->)%elem_of_foldersAmong. by destruct r.
Qed.

Lemma rootFolders_run r d :
  legalNames (tree r d) →
  rootFolders PUBLIC_URL r (map fst (map_to_list (tree r d))) d
  = (inr (map (folderEntryOf PUBLIC_URL r) (map_to_list (tree r d))), d).
Proof.
  intros Hlegal. unfold rootFolders.
  pose proof (mapM_entries (rootPath r) (tree r d)
                (λ item stats, if isDir stats then Some (entryOf PUBLIC_URL r item) else None)
                d (map_to_list (tree r d)) eq_refl (legalNames_list _ Hlegal)) as H.
  by destruct r.
Qed.

(** [GET /list]: the directories of the public root, then those of the
    private root whose name no public directory bears. *)
Lemma listRoot_run d :
  legalNames (public d) → legalNames (private d) →
  listRoot PUBLIC_URL d =
  (rootListed (foldersAmong PUBLIC_URL Public (map_to_list (public d)) ++
               filter (λ e, folderName e ∉
                            map folderName (foldersAmong PUBLIC_URL Public (map_to_list (public d))))
                      (foldersAmong PUBLIC_URL Private (map_to_list (private d))))%list, d).
Proof.
  intros Hpub Hpriv. unfold listRoot. run. rewrite !ensureDir_rootPath.
  rewrite (readdir_Dir (rootPath Public) (tree Public d)) by done.
  rewrite (readdir_Dir (rootPath Private) (tree Private d)) by done.
  rewrite (rootFolders_run Public d) by done.
  rewrite (rootFolders_run Private d) by done.
  change (tree Public d) with (public d). change (tree Private d) with (private d).
  assert (Ho : ∀ a b : list (option folderEntry),
            omap id (a ++ b)%list = (omap id a ++ omap id b)%list).
  { induction a as [|[x|] a IH]; intros b; simpl; [done| |]; by rewrite ?IH. }
  rewrite Ho.
  fold (foldersAmong PUBLIC_URL Public (map_to_list (public d))).
  fold (foldersAmong PUBLIC_URL Private (map_to_list (private d))).
  rewrite dedupe_spec; [done| | | |].
  - apply (Forall_foldersAmong Public).
  - apply (Forall_foldersAmong Private).
  - apply NoDup_foldersAmong, NoDup_fst_map_to_list.
  - apply NoDup_foldersAmong, NoDup_fst_map_to_list.
Qed.

Lemma NoDup_map_filter {A B} (f : A → B) (P : A → Prop) `{!∀ x, Decision (P x)}
    (l : list A) :
  NoDup (map f l) → NoDup (map f (filter P l)).
Proof.
  induction l as [|a l IH]; simpl; [done|].
  intros [Ha Hnd]%NoDup_cons. rewrite filter_cons.
  destruct (decide (P a)); [|by apply IH]. simpl.
  apply NoDup_cons. split; [|by apply IH].
  intros Hin. apply Ha.
  apply list_elem_of_In, in_map_iff in Hin as (x & Hx & Hin).
  apply list_elem_of_In, list_elem_of_filter in Hin as [_ Hin].
  rewrite <- Hx. by apply list_elem_of_In, in_map, list_elem_of_In.
Qed.

Lemma elem_of_map_name (l : list folderEntry) e :
  e ∈ l → folderName e ∈ map folderName l.
Proof. intros H. by apply list_elem_of_In, in_map, list_elem_of_In. Qed.

Lemma filter_none {A} (P : A → Prop) `{!∀ x, Decision (P x)} (l : list A) :
  (∀ x, x ∈ l → ¬ P x) → filter P l = [].
Proof.
  induction l as [|a l IH]; intros Hl; [done|].
  rewrite filter_cons, decide_False by (apply Hl; by left).
  apply IH. intros x Hx. apply Hl. by right.
Qed.

(** In a list without two entries of one name, the entries named like [e]
    are [e] alone. *)
Lemma filter_by_name (l : list folderEntry) e :
  NoDup (map folderName l) → e ∈ l →
  filter (λ e', folderName e' = folderName e) l = [e].
Proof.
  induction l as [|a l IH]; simpl; [by intros _ ?%elem_of_nil|].
  intros [Ha Hnd]%NoDup_cons [->|He]%elem_of_cons; rewrite filter_cons.
  - rewrite decide_True by done. f_equal. apply filter_none.
    intros x Hx Hname. apply Ha. rewrite <- Hname. by apply elem_of_map_name.
  - rewrite decide_False; [by apply IH|].
    intros Hname. apply Ha. rewrite Hname. by apply elem_of_map_name.
Qed.

Lemma elem_of_foldersAmong_map r (t : gmap string node) e :
  e ∈ foldersAmong PUBLIC_URL r (map_to_list t) ↔
  (∃ t', t !! folderName e = Some (Dir t')) ∧ e = entryOf PUBLIC_URL r (folderName e).
Proof.
  rewrite elem_of_foldersAmong. split.
  - intros (k & t' & Hin%elem_of_map_to_list & ->).
    rewrite folderName_entryOf. split; [by exists t'|done].
  - intros [[t' Ht'] He]. exists (folderName e), t'.
    split; [by apply elem_of_map_to_list|done].
Qed.

Lemma elem_of_names_foldersAmong r (t : gmap string node) x :
  x ∈ map folderName (foldersAmong PUBLIC_URL r (map_to_list t)) ↔ ∃ t', t !! x = Some (Dir t').
Proof.
  rewrite list_elem_of_In, in_map_iff. split.
  - intros (e & <- & He). by apply list_elem_of_In, elem_of_foldersAmong_map in He as [? _].
  - intros [t' Ht']. exists (entryOf PUBLIC_URL r x). rewrite folderName_entryOf. split; [done|].
    apply list_elem_of_In, elem_of_foldersAmong_map.
    rewrite folderName_entryOf. split; [by exists t'|done].
Qed.

(** C6.  [GET /list] answers with the top-level directories of both roots,
    no name twice: a directory of the public root is reported [exposed]
    with its public URL, a directory that only the private root has is
    reported [hidden] without URL; so a name that is a directory in both
    roots is reported once, [exposed], with its public URL.  The disk is
    not changed. *)
Theorem listRoot_dedup d :
  legalNames (public d) → legalNames (private d) →
  ∃ folderList,
    listRoot PUBLIC_URL d = (rootListed folderList, d) ∧
    NoDup (map folderName folderList) ∧
    (∀ e, e ∈ folderList ↔
       (∃ t, public d !! folderName e = Some (Dir t)) ∧
       e = FolderEntry (folderName e) exposed
             (Some (buildPublicUrl PUBLIC_URL (folderName e) None))
       ∨
       (∀ t, public d !! folderName e ≠ Some (Dir t)) ∧
       (∃ t, private d !! folderName e = Some (Dir t)) ∧
       e = FolderEntry (folderName e) hidden None) ∧
    (∀ x a b, public d !! x = Some (Dir a) → private d !! x = Some (Dir b) →
       filter (λ e, folderName e = x) folderList
       = [FolderEntry x exposed (Some (buildPublicUrl PUBLIC_URL x None))]).
Proof.
  intros Hpub Hpriv. eexists. split; [by apply listRoot_run|].
  set (exp := foldersAmong PUBLIC_URL Public (map_to_list (public d))).
  set (hid := foldersAmong PUBLIC_URL Private (map_to_list (private d))).
  assert (Hmem : ∀ e, e ∈ (exp ++ filter (λ e, folderName e ∉ map folderName exp) hid)%list ↔
       (∃ t, public d !! folderName e = Some (Dir t)) ∧
       e = entryOf PUBLIC_URL Public (folderName e)
       ∨
       (∀ t, public d !! folderName e ≠ Some (Dir t)) ∧
       (∃ t, private d !! folderName e = Some (Dir t)) ∧
       e = entryOf PUBLIC_URL Private (folderName e)).
  { intros e. rewrite elem_of_app, list_elem_of_filter.
    unfold exp, hid. rewrite !elem_of_foldersAmong_map, elem_of_names_foldersAmong.
    split.
    - intros [H|[H1 [H2 H3]]]; [by left|]. right. split; [|done].
      intros t Ht. apply H1. by exists t.
    - intros [H|[H1 [H2 H3]]]; [by left|]. right. split; [|done].
      intros [t Ht]. by apply (H1 t). }
  assert (Hnd : NoDup (map folderName
            (exp ++ filter (λ e, folderName e ∉ map folderName exp) hid)%list)).
  { rewrite map_app. apply NoDup_app. split; [|split].
    - apply NoDup_foldersAmong, NoDup_fst_map_to_list.
    - intros x Hx Hin. apply list_elem_of_In, in_map_iff in Hin as (e & <- & Hin).
      by apply list_elem_of_In, list_elem_of_filter in Hin as [Hno _].
    - apply NoDup_map_filter, NoDup_foldersAmong, NoDup_fst_map_to_list. }
  split; [done|]. split; [exact Hmem|].
  intros x a b Ha Hb.
  change (FolderEntry x exposed (Some (buildPublicUrl PUBLIC_URL x None)))
    with (entryOf PUBLIC_URL Public x).
  rewrite <- (filter_by_name _ (entryOf PUBLIC_URL Public x) Hnd).
  - apply filter_local. intros e _. by rewrite folderName_entryOf.
  - apply Hmem. left. rewrite folderName_entryOf. split; [by exists a|done].
Qed.

End ListRoot.

Lemma legalNames_mixedDisk : legalNames (public mixedDisk) ∧ legalNames (private mixedDisk).
Proof.
  split; intros k [n Hn].
  - destruct (decide (k = "reports")) as [->|Hne]; [reflexivity|].
    unfold mixedDisk, reportsWith in Hn. simpl in Hn.
    by rewrite lookup_singleton_ne in Hn.
  - destruct (decide (k = "drafts")) as [->|Hne]; [reflexivity|].
    destruct (decide (k = "reports")) as [->|Hne']; [reflexivity|].
    unfold mixedDisk, reportsWith in Hn. simpl in Hn.
    rewrite lookup_insert_ne in Hn by done.
    by rewrite lookup_singleton_ne in Hn.
Qed.

Lemma listRoot_dedup_witness :
  ∃ folderList,
    listRoot "https://files.example" mixedDisk = (rootListed folderList, mixedDisk) ∧
    filter (λ e, folderName e = "reports") folderList
    = [FolderEntry "reports" exposed (Some "https://files.example/public/reports/")].
Proof.
  destruct (listRoot_dedup "https://files.example" mixedDisk
              (proj1 legalNames_mixedDisk) (proj2 legalNames_mixedDisk))
    as (folderList & H1 & _ & _ & H2).
  exists folderList. split; [exact H1|].
  exact (H2 "reports" _ _ eq_refl eq_refl).
Defined.

(** * Further properties of the code

    What the embedded code shows when its routes are composed, when they
    fail, and when they meet names and requests at the edge. *)

(** ** More on strings *)

Section MoreStrings.

Lemma append_nil_l s : EmptyString ++ s = s.
Proof. reflexivity. Qed.

Lemma append_cons a s t : String a s ++ t = String a (s ++ t).
Proof. reflexivity. Qed.

Lemma startsWith_app p s : startsWith p (p ++ s) = true.
Proof. induction p as [|a p IH]; simpl; [done|]. by rewrite decide_True. Qed.

Lemma startsWith_inv p s : startsWith p s = true → ∃ t, s = p ++ t.
Proof.
  revert s. induction p as [|a p IH]; intros s; simpl; [by exists s|].
  destruct s as [|b s]; [done|]. destruct (decide (a = b)) as [->|]; [|done].
  intros [t ->]%IH. by exists t.
Qed.

Lemma includes_cons p a s :
  includes p (String a s) = startsWith p (String a s) || includes p s.
Proof. reflexivity. Qed.

Lemma includes_startsWith p s : startsWith p s = true → includes p s = true.
Proof. intros H. destruct s; simpl; by rewrite H. Qed.

Lemma includes_app pre p post : includes p (pre ++ p ++ post) = true.
Proof.
  induction pre as [|a pre IH].
  - apply includes_startsWith, (startsWith_app p post).
  - change (String a pre ++ p ++ post) with (String a (pre ++ p ++ post)).
    by rewrite includes_cons, IH, orb_true_r.
Qed.

End MoreStrings.

Section SplitFacts.

Lemma splitHead_prefix c s : ∃ post, s = splitHead c s ++ post.
Proof.
  induction s as [|a s [post IH]]; [by exists EmptyString|].
  rewrite splitHead_cons. destruct (decide (a = c)); [by exists (String a s)|].
  exists post. change (String a s = String a (splitHead c s ++ post)). by f_equal.
Qed.

Lemma split_head c s : ∃ ws, split c s = splitHead c s :: ws.
Proof.
  unfold splitHead. pose proof (split_nonempty c s).
  destruct (split c s) as [|w ws]; [done|]. by exists ws.
Qed.

(** Every piece of a split is a part of the string. *)
Lemma split_elem_substring c s w :
  w ∈ split c s → ∃ pre post, s = pre ++ w ++ post.
Proof.
  induction s as [|a s IH]; simpl.
  - intros ->%list_elem_of_singleton. by exists EmptyString, EmptyString.
  - destruct (decide (a = c)).
    + intros [->|H]%elem_of_cons; [by exists EmptyString, (String a s)|].
      destruct (IH H) as (pre & post & ->). by exists (String a pre), post.
    + destruct (splitHead_prefix c s) as [post0 Hp].
      destruct (split_head c s) as [ws Hs]. rewrite Hs in IH |- *.
      intros [->|H]%elem_of_cons.
      * exists EmptyString, post0.
        change (String a s = String a (splitHead c s ++ post0)). by f_equal.
      * destruct IH as (pre & post & ->); [by right|].
        by exists (String a pre), post.
Qed.

Lemma splitHead_nosep c t : hasChar c t = false → splitHead c t = t.
Proof. intros H. unfold splitHead. by rewrite split_no_sep. Qed.

Lemma splitHead_app c t rest :
  hasChar c t = false → splitHead c (t ++ String c rest) = t.
Proof.
  induction t as [|a t IH]; cbn [hasChar].
  - intros _. by rewrite append_nil_l, splitHead_cons, decide_True.
  - destruct (decide (a = c)); cbn [orb]; [done|]. intros H.
    by rewrite append_cons, splitHead_cons, decide_False, IH.
Qed.

Lemma splitHead_decomp c s :
  hasChar c (splitHead c s) = false ∧
  (s = splitHead c s ∨ ∃ rest, s = splitHead c s ++ String c rest).
Proof.
  induction s as [|a s [IH1 IH2]]; [by split; [|left]|].
  rewrite splitHead_cons. destruct (decide (a = c)) as [->|Hne].
  - split; [done|]. right. by exists s.
  - split.
    + simpl. by rewrite decide_False.
    + destruct IH2 as [IH2|[rest IH2]].
      * left. by f_equal.
      * right. exists rest.
        change (String a s = String a (splitHead c s ++ String c rest)). by f_equal.
Qed.

Lemma split_length_one c s : hasChar c s = false ↔ length (split c s) = 1%nat.
Proof.
  split; [intros H; by rewrite split_no_sep|].
  induction s as [|a s IH]; simpl; [done|].
  destruct (decide (a = c)); simpl.
  - pose proof (split_nonempty c s). by destruct (split c s).
  - pose proof (split_nonempty c s). destruct (split c s) as [|w ws]; [done|].
    simpl in *. done.
Qed.

Lemma append_inv_head p s t : p ++ s = p ++ t → s = t.
Proof. induction p as [|a p IH]; simpl; [done|]. intros [= H]. by apply IH. Qed.

Lemma append_sep_inj c f g x y :
  hasChar c f = false → hasChar c g = false →
  f ++ String c x = g ++ String c y → f = g ∧ x = y.
Proof.
  revert g. induction f as [|a f IH]; intros [|b g]; simpl.
  - by intros _ _ [= ->].
  - intros _ H [= <- _]. by rewrite decide_True in H.
  - intros H _ [= -> _]. by rewrite decide_True in H.
  - destruct (decide (a = c)); [done|]. destruct (decide (b = c)); [done|].
    simpl. intros Hf Hg [= -> H]. by destruct (IH g Hf Hg H) as [-> ->].
Qed.

End SplitFacts.

(** ** Accepted names stay below the root *)

Lemma segments_no_climb s : includes ".." s = false → ".." ∉ segments s.
Proof.
  intros H Hin. unfold segments in Hin.
  apply list_elem_of_filter in Hin as [_ Hin].
  apply split_elem_substring in Hin as (pre & post & ->).
  by rewrite includes_app in H.
Qed.

Lemma segments_head n :
  safePattern (splitHead "." n) = true → segments n ≠ [].
Proof.
  destruct n as [|a n]; [done|].
  rewrite splitHead_cons. destruct (decide (a = "."%char)) as [->|Hd]; [done|].
  intros [_ Hall]%safePattern_inv. simpl in Hall.
  apply andb_prop in Hall as [Ha _].
  unfold segments. simpl.
  destruct (decide (a = "/"%char)) as [->|Hs]; [done|].
  destruct (split_head "/" n) as [ws ->].
  rewrite filter_cons, decide_True; [done|].
  split; [done|]. intros [= -> _]. done.
Qed.

(** X1.  Names that [validatePath] accepted cannot leave the root.  The
    folder is not [..] and, joined below a root, names one entry of that
    root; the path joined from the folder and the file name runs below that
    entry, through at least one more name and through no [..]. *)
Theorem validatePath_no_traversal f fn v r :
  validatePath f fn = inr v →
  PathUtils.folder v ≠ ".." ∧
  pathJoin (rootPath r) [Some (PathUtils.folder v)]
    = inr (Path r [PathUtils.folder v] false) ∧
  ∀ n, PathUtils.filename v = Some n →
       ∃ names, pathJoin (rootPath r) [Some (PathUtils.folder v); Some n]
                  = inr (Path r (PathUtils.folder v :: names) (endsWithChar "/" n)) ∧
                names ≠ [] ∧ ".." ∉ names.
Proof.
  intros (Hf & -> & H)%validatePath_inr.
  pose proof (safePattern_legal f Hf) as Hl.
  split; [by intros ->|]. split; [by apply pathJoin_folder|].
  intros n Hn. destruct fn as [n'|]; [|congruence].
  destruct (falsy n') eqn:En; [congruence|].
  destruct H as (Hv & Hdd & Hb). rewrite Hv in Hn. injection Hn as ->.
  exists (segments n). split; [|split].
  - rewrite pathJoin_file by done. done.
  - by apply segments_head.
  - by apply segments_no_climb.
Qed.

Lemma validatePath_no_traversal_witness :
  ∃ names, pathJoin (rootPath Public) [Some "reports"; Some "a.b/c.txt"]
             = inr (Path Public ("reports" :: names) false) ∧
           names ≠ [] ∧ ".." ∉ names.
Proof.
  exact (proj2 (proj2 (validatePath_no_traversal "reports" (Some "a.b/c.txt")
                         (Validated "reports" (Some "a.b/c.txt")) Public eq_refl))
           "a.b/c.txt" eq_refl).
Defined.

(** ** URLs *)

Lemma buildPublicUrl_file base f n :
  falsy n = false →
  buildPublicUrl base f (Some n) = base ++ "/public/" ++ f ++ String "/" n.
Proof. intros H. unfold buildPublicUrl. by rewrite H. Qed.

Lemma buildPublicUrl_folder base f :
  buildPublicUrl base f None = base ++ "/public/" ++ f ++ String "/" EmptyString.
Proof. reflexivity. Qed.

(** X2.  Two accepted pairs of names with one public URL are the same
    pair: the URL of a folder or file is the URL of no other. *)
Theorem buildPublicUrl_injective base f fn v g gn w :
  validatePath f fn = inr v → validatePath g gn = inr w →
  buildPublicUrl base (PathUtils.folder v) (PathUtils.filename v)
  = buildPublicUrl base (PathUtils.folder w) (PathUtils.filename w) →
  v = w.
Proof.
  intros (Hf & Hvf & Hv)%validatePath_inr (Hg & Hwg & Hw)%validatePath_inr.
  destruct v as [vf vn], w as [wf wn]. simpl in *. subst vf wf.
  destruct (safePattern_clean f Hf) as (_ & _ & _ & _ & Hfs & _).
  destruct (safePattern_clean g Hg) as (_ & _ & _ & _ & Hgs & _).
  assert (Hvn : ∀ n, vn = Some n → falsy n = false).
  { intros n ->. destruct fn as [n'|]; [|done].
    destruct (falsy n') eqn:E; [done|]. by destruct Hv as ([= <-] & _). }
  assert (Hwn : ∀ n, wn = Some n → falsy n = false).
  { intros n ->. destruct gn as [n'|]; [|done].
    destruct (falsy n') eqn:E; [done|]. by destruct Hw as ([= <-] & _). }
  intros Hu.
  assert (Hcut : ∀ x y, base ++ "/public/" ++ f ++ String "/" x
                        = base ++ "/public/" ++ g ++ String "/" y → f = g ∧ x = y).
  { intros x y H. apply append_inv_head in H.
    apply (append_inv_head "/public/") in H. by apply (append_sep_inj "/"). }
  destruct vn as [n|], wn as [m|].
  - rewrite !buildPublicUrl_file in Hu by eauto.
    by destruct (Hcut _ _ Hu) as [-> ->].
  - rewrite buildPublicUrl_file, buildPublicUrl_folder in Hu by eauto.
    destruct (Hcut _ _ Hu) as [_ ->]. by specialize (Hvn _ eq_refl).
  - rewrite buildPublicUrl_file, buildPublicUrl_folder in Hu by eauto.
    destruct (Hcut _ _ Hu) as [_ <-]. by specialize (Hwn _ eq_refl).
  - rewrite !buildPublicUrl_folder in Hu. by destruct (Hcut _ _ Hu) as [-> _].
Qed.

Lemma buildPublicUrl_injective_witness :
  buildPublicUrl "https://files.example" "reports" (Some "a.txt")
  = buildPublicUrl "https://files.example" "reports" (Some "a.txt") ∧
  Validated "reports" (Some "a.txt") = Validated "reports" (Some "a.txt").
Proof.
  split; [reflexivity|].
  exact (buildPublicUrl_injective "https://files.example"
           "reports" (Some "a.txt") _ "reports" (Some "a.txt") _ eq_refl eq_refl eq_refl).
Defined.

(** ** Authentication *)

Lemma split_Bearer s : split " " ("Bearer " ++ s) = "Bearer" :: split " " s.
Proof.
  destruct (split_head " " s) as [ws Hs].
  change ("Bearer " ++ s) with
    (String "B" (String "e" (String "a" (String "r" (String "e" (String "r"
       (String " " s))))))).
  cbn [split]. rewrite Hs.
  repeat (rewrite decide_False by done). by rewrite decide_True.
Qed.

Lemma authMiddleware_cases API_TOKEN authorization :
  authMiddleware API_TOKEN authorization = None ∨
  authMiddleware API_TOKEN authorization = Some (failure 401 "Unauthorized") ∨
  authMiddleware API_TOKEN authorization = Some (failure 401 "Invalid token").
Proof.
  unfold authMiddleware. destruct authorization as [h|]; [|by right; left].
  destruct (falsy h || negb (startsWith "Bearer " h)); [by right; left|].
  destruct (bool_decide _); [by right; right|by left].
Qed.

Lemma authMiddleware_token API_TOKEN s :
  authMiddleware API_TOKEN (Some ("Bearer " ++ s)) =
  if bool_decide (Some (splitHead " " s) ≠ API_TOKEN)
  then Some (failure 401 "Invalid token") else None.
Proof.
  unfold authMiddleware. rewrite startsWith_app, split_Bearer.
  destruct (split_head " " s) as [ws ->]. done.
Qed.

Lemma authMiddleware_None_inv API_TOKEN authorization :
  authMiddleware API_TOKEN authorization = None →
  ∃ s, authorization = Some ("Bearer " ++ s) ∧ API_TOKEN = Some (splitHead " " s).
Proof.
  destruct authorization as [h|]; [|done].
  destruct (startsWith "Bearer " h) eqn:E.
  - apply startsWith_inv in E as [s ->]. rewrite authMiddleware_token.
    destruct (bool_decide _) eqn:Eb; [done|]. intros _.
    apply bool_decide_eq_false in Eb. exists s. split; [done|].
    by destruct (decide (Some (splitHead " " s) = API_TOKEN)).
  - unfold authMiddleware. by rewrite E, orb_true_r.
Qed.

(** X3.  The middleware calls [next()] exactly when a token is configured
    and the [Authorization] header is [Bearer], one space and that token,
    alone or followed by a space and anything at all; such a token holds no
    space. *)
Theorem authMiddleware_passes API_TOKEN authorization :
  authMiddleware API_TOKEN authorization = None ↔
  ∃ token, API_TOKEN = Some token ∧ hasChar " " token = false ∧
    (authorization = Some ("Bearer " ++ token) ∨
     ∃ rest, authorization = Some ("Bearer " ++ token ++ String " " rest)).
Proof.
  split.
  - intros (s & -> & ->)%authMiddleware_None_inv.
    exists (splitHead " " s).
    destruct (splitHead_decomp " " s) as [H1 [H2|[rest H2]]].
    + repeat split; try done. left. by rewrite <- H2.
    + repeat split; try done. right. exists rest. by rewrite <- H2.
  - intros (token & -> & Hs & [->|[rest ->]]); rewrite authMiddleware_token.
    + rewrite splitHead_nosep by done. by rewrite bool_decide_eq_false_2 by (by intros []).
    + rewrite splitHead_app by done. by rewrite bool_decide_eq_false_2 by (by intros []).
Qed.

Lemma authMiddleware_passes_witness :
  authMiddleware (Some "s3cret") (Some "Bearer s3cret") = None.
Proof.
  apply (proj2 (authMiddleware_passes (Some "s3cret") (Some "Bearer s3cret"))).
  exists "s3cret". split; [reflexivity|]. split; [reflexivity|]. left. reflexivity.
Defined.

(** X4.  When no token is configured, or the configured one holds a
    space, no header gets through: every request is answered 401. *)
Theorem authMiddleware_closed API_TOKEN authorization :
  API_TOKEN = None ∨ (∃ t, API_TOKEN = Some t ∧ hasChar " " t = true) →
  ∃ msg, authMiddleware API_TOKEN authorization = Some (failure 401 msg).
Proof.
  intros Htok.
  destruct (authMiddleware_cases API_TOKEN authorization) as [H|[H|H]];
    [|by eexists|by eexists].
  apply authMiddleware_None_inv in H as (s & _ & Hs).
  destruct (splitHead_decomp " " s) as [Hno _].
  destruct Htok as [->|(t & -> & Ht)]; [done|]. injection Hs as ->. congruence.
Qed.

Lemma authMiddleware_closed_witness :
  ∃ msg, authMiddleware None (Some "Bearer undefined") = Some (failure 401 msg).
Proof.
  apply (authMiddleware_closed None (Some "Bearer undefined")). left. reflexivity.
Defined.

(** ** The guard in front of the static server *)

(** X5.  Below [/public], the guard answers 404 to a path that is a single
    name (or nothing) and hands on every path with a further separator. *)
Theorem publicGuard_depth name :
  publicGuard ("/" ++ name) =
  if hasChar "/" name then None else Some (failure 404 "Not found").
Proof.
  unfold publicGuard.
  change ("/" ++ name) with (String "/" name). cbn [split].
  rewrite decide_True by done. cbn [length Nat.leb].
  destruct (hasChar "/" name) eqn:E.
  - destruct (length (split "/" name)) as [|[|k]] eqn:El; [| |done].
    + pose proof (split_nonempty "/" name). by destruct (split "/" name).
    + apply split_length_one in El. congruence.
  - apply split_length_one in E. by rewrite E.
Qed.

(** ** Serving public files *)

Section Serve.
Variable PUBLIC_URL : string.

Lemma servePublic_run f n d :
  validatePath f (Some n) = inr (Validated f (Some n)) →
  servePublic f n d =
  (if existsIn d Public f (Some n)
   then sendFile (pathResolve (itemPath Public f (Some n)))
   else answered (failure 404 "File not found"), d).
Proof.
  intros Hv. destruct (valid_file_truthy _ _ Hv) as (Hn & Hf & _).
  unfold servePublic. run. rewrite Hv.
  cbn [PathUtils.folder PathUtils.filename].
  rewrite pathJoin_file by done. rewrite pathExists_existsIn.
  by destruct (existsIn d Public f (Some n)).
Qed.

Lemma pathExists_ext p d d' :
  tree (base p) d = tree (base p) d' → (pathExists p d).1 = (pathExists p d').1.
Proof. intros H. unfold pathExists, statPath. by rewrite H. Qed.

(** X6.  Serving a public file changes nothing on the disk, and its answer
    depends on the public root alone: whatever the private root holds, the
    answer is the same. *)
Theorem servePublic_public_only f n d :
  (servePublic f n d).2 = d ∧
  ∀ d', public d' = public d → (servePublic f n d').1 = (servePublic f n d).1.
Proof.
  unfold servePublic. run.
  destruct (validatePath f (Some n)) as [e|v]; [done|].
  destruct (pathJoin _ _) as [e|p] eqn:Ep; [done|].
  apply pathJoin_base in Ep. simpl in Ep.
  split.
  - unfold pathExists. by destruct (statPath d p).
  - intros d' Hd. unfold pathExists, statPath. rewrite Ep.
    change (tree Public d') with (public d'). change (tree Public d) with (public d).
    rewrite Hd. by destruct (statNode _ _) as [|[|]]; destruct (dirOnly p).
Qed.

Lemma servePublic_public_only_witness :
  (servePublic "reports" "a.txt" hiddenReports).1
  = (servePublic "reports" "a.txt" (Disk ∅ ∅)).1.
Proof.
  exact (proj2 (servePublic_public_only "reports" "a.txt" (Disk ∅ ∅))
           hiddenReports eq_refl).
Defined.

(** X7.  After an upload that answered 200: if it was exposed, the file
    route sends a path whose read yields the uploaded bytes; if it was
    hidden and the public root did not hold that file before, the file
    route answers 404. *)
Theorem servePublic_after_upload f n expose data d b d' :
  storeFile PUBLIC_URL f n expose data d = (json b, d') →
  if expose
  then ∃ p, servePublic f n d' = (sendFile p, d') ∧ readFile p d' = (inr data, d')
  else existsIn d Public f (Some n) = false →
       servePublic f n d' = (answered (failure 404 "File not found"), d').
Proof.
  intros H. pose proof (storeFile_frame PUBLIC_URL f n expose data d) as Hfr.
  rewrite H in Hfr. cbn [snd] in Hfr.
  apply storeFile_json_inv in H as (_ & _ & Hv & d1 & _ & Hw & _).
  rewrite servePublic_run by done. destruct expose; cbn [baseDirOf opposite] in *.
  - pose proof (writeFile_stat _ _ _ _ _ Hw) as Hs.
    apply writeFile_inv in Hw as [Hflag _].
    assert (Hp : pathResolve (itemPath Public f (Some n)) = itemPath Public f (Some n)).
    { unfold pathResolve. destruct (itemPath Public f (Some n)) as [b0 s0 o0].
      simpl in *. by rewrite Hflag. }
    unfold existsIn. rewrite Hs, Hp. eexists. split; [done|].
    unfold readFile. by rewrite Hs.
  - intros Hno. by rewrite (existsIn_ext d d' Public), Hno.
Qed.

End Serve.

Lemma servePublic_after_upload_witness :
  ∃ p, servePublic "reports" "a.txt"
         (storeFile "https://files.example" "reports" "a.txt" true hi (Disk ∅ ∅)).2
       = (sendFile p, (storeFile "https://files.example" "reports" "a.txt" true hi (Disk ∅ ∅)).2) ∧
       readFile p (storeFile "https://files.example" "reports" "a.txt" true hi (Disk ∅ ∅)).2
       = (inr hi, (storeFile "https://files.example" "reports" "a.txt" true hi (Disk ∅ ∅)).2).
Proof.
  exact (servePublic_after_upload "https://files.example" "reports" "a.txt" true hi (Disk ∅ ∅)
           (Body "file_uploaded" (Some exposed)
                 (Some "https://files.example/public/reports/a.txt")
                 (Some "reports") (Some "a.txt") "File uploaded" None None)
           _ eq_refl).
Defined.

(** ** Rejected names *)

Lemma validatePath_folder_first f fn e :
  validatePath f None = inl e → validatePath f fn = inl e.
Proof.
  unfold validatePath. destruct (falsy f); [done|].
  destruct (isAbsolute f || includes ".." f || startsWith "." f); [done|].
  by destruct (negb (safePattern f)).
Qed.

Lemma validatePath_falsy_file f fn :
  truthy fn = false → validatePath f fn = validatePath f None.
Proof.
  unfold validatePath, truthy. destruct fn as [n|]; [|done].
  intros H%negb_false_iff. rewrite H. cbn [negb].
  destruct (falsy f); [done|].
  destruct (isAbsolute f || includes ".." f || startsWith "." f); [done|].
  by destruct (negb (safePattern f)).
Qed.

(** ** Creating a folder twice *)

Section Mkdir.
Variable PUBLIC_URL : string.

Lemma mkdir_rejected f expose e d :
  validatePath f None = inl e → mkdir PUBLIC_URL (Some f) expose d = (failure 400 e, d).
Proof.
  intros He. unfold mkdir. destruct (falsy f) eqn:Ef.
  - apply falsy_empty in Ef as ->. by injection He as <-.
  - run. by rewrite He.
Qed.

Lemma mkdir_run f expose d :
  safePattern f = true →
  mkdir PUBLIC_URL (Some f) expose d =
  match tree (baseDirOf expose) d !! f with
  | Some (File _) => (failure 400 EEXIST, d)
  | Some (Dir _) => (folderCreated PUBLIC_URL expose f, d)
  | None => (folderCreated PUBLIC_URL expose f,
             setTree (baseDirOf expose) (<[f := Dir ∅]> (tree (baseDirOf expose) d)) d)
  end.
Proof.
  intros Hf. destruct (safePattern_clean f Hf) as (Hf0 & _).
  unfold mkdir. rewrite Hf0. run. rewrite validatePath_folder_ok by done.
  cbn [PathUtils.folder]. rewrite pathJoin_folder by done.
  unfold itemPath. rewrite ensureDir_top.
  destruct (tree (baseDirOf expose) d !! f) as [[data|t]|] eqn:E; [done| |done].
  rewrite insert_id by done. by rewrite setTree_tree.
Qed.

(** X8.  Creating a folder a second time gives the same answer and changes
    nothing more; and creating a folder that the selected root already
    holds as a directory answers 200 and leaves the disk, the content of
    that directory included, as it was. *)
Theorem mkdir_idempotent folder expose d :
  mkdir PUBLIC_URL folder expose (mkdir PUBLIC_URL folder expose d).2
  = mkdir PUBLIC_URL folder expose d ∧
  ∀ f t, folder = Some f → safePattern f = true →
         tree (baseDirOf expose) d !! f = Some (Dir t) →
         mkdir PUBLIC_URL folder expose d = (folderCreated PUBLIC_URL expose f, d).
Proof.
  split.
  - destruct folder as [f|]; [|done].
    destruct (validatePath f None) as [e|v] eqn:Ev.
    + by rewrite !(mkdir_rejected _ _ _ _ Ev).
    + apply validatePath_folder_inr in Ev as [_ Hf].
      rewrite (mkdir_run f expose d) by done.
      destruct (tree (baseDirOf expose) d !! f) as [[data|t]|] eqn:E; cbn [snd].
      * by rewrite mkdir_run, E.
      * by rewrite mkdir_run, E.
      * by rewrite mkdir_run, tree_setTree, lookup_insert_eq.
  - intros f t -> Hf Ht. by rewrite mkdir_run, Ht.
Qed.

End Mkdir.

Lemma mkdir_idempotent_witness :
  mkdir "https://files.example" (Some "reports") false hiddenReports
  = (folderCreated "https://files.example" false "reports", hiddenReports).
Proof.
  exact (proj2 (mkdir_idempotent "https://files.example" (Some "reports") false
                  hiddenReports) "reports" _ eq_refl eq_refl eq_refl).
Defined.

(** ** Exposing and hiding, there and back *)

Section RoundTrips.
Variable PUBLIC_URL : string.

(** X9.  For a directory that one root alone holds: [expose] of a hidden
    one answers 200 and puts its content in the public root, and [unexpose]
    after it restores the disk exactly; likewise [unexpose] of an exposed
    one followed by [expose]. *)
Theorem expose_unexpose_round_trip f d t :
  safePattern f = true →
  (private d !! f = Some (Dir t) → public d !! f = None →
     (exposeFolder PUBLIC_URL f d).1 = folderExposed PUBLIC_URL f ∧
     public (exposeFolder PUBLIC_URL f d).2 !! f = Some (Dir t) ∧
     unexposeFolder f (exposeFolder PUBLIC_URL f d).2 = (folderUnexposed f, d)) ∧
  (public d !! f = Some (Dir t) → private d !! f = None →
     (unexposeFolder f d).1 = folderUnexposed f ∧
     private (unexposeFolder f d).2 !! f = Some (Dir t) ∧
     exposeFolder PUBLIC_URL f (unexposeFolder f d).2 = (folderExposed PUBLIC_URL f, d)).
Proof.
  intros Hf. split.
  - intros Ht Hno.
    assert (E : existsIn d Private f None = true)
      by (apply existsIn_folder_true; by exists (Dir t)).
    assert (Hm := move_folder_cross d Private f t Ht).
    cbn [opposite] in Hm. rewrite exposeFolder_run, E by done.
    rewrite Hm by (intros data; simpl; by rewrite Hno).
    cbn [fst snd]. split; [done|].
    set (d1 := setTree Public _ _).
    assert (H1 : tree Public d1 !! f = Some (Dir t)).
    { unfold d1. simpl. by rewrite lookup_insert_eq. }
    assert (H2 : tree Private d1 !! f = None).
    { unfold d1. simpl. by rewrite lookup_delete_eq. }
    split; [done|].
    assert (E1 : existsIn d1 Public f None = true)
      by (apply existsIn_folder_true; by exists (Dir t)).
    assert (Hm1 := move_folder_cross d1 Public f t H1).
    cbn [opposite] in Hm1. rewrite unexposeFolder_run, E1 by done.
    rewrite Hm1 by (intros data; by rewrite H2).
    f_equal. unfold d1. destruct d as [pub priv]. simpl in *.
    by rewrite insert_delete_id, delete_insert_id.
  - intros Ht Hno.
    assert (E : existsIn d Public f None = true)
      by (apply existsIn_folder_true; by exists (Dir t)).
    assert (Hm := move_folder_cross d Public f t Ht).
    cbn [opposite] in Hm. rewrite unexposeFolder_run, E by done.
    rewrite Hm by (intros data; simpl; by rewrite Hno).
    cbn [fst snd]. split; [done|].
    set (d1 := setTree Private _ _).
    assert (H1 : tree Private d1 !! f = Some (Dir t)).
    { unfold d1. simpl. by rewrite lookup_insert_eq. }
    assert (H2 : tree Public d1 !! f = None).
    { unfold d1. simpl. by rewrite lookup_delete_eq. }
    split; [done|].
    assert (E1 : existsIn d1 Private f None = true)
      by (apply existsIn_folder_true; by exists (Dir t)).
    assert (Hm1 := move_folder_cross d1 Private f t H1).
    cbn [opposite] in Hm1. rewrite exposeFolder_run, E1 by done.
    rewrite Hm1 by (intros data; by rewrite H2).
    f_equal. unfold d1. destruct d as [pub priv]. simpl in *.
    by rewrite insert_delete_id, delete_insert_id.
Qed.

End RoundTrips.

Lemma expose_unexpose_round_trip_witness :
  unexposeFolder "reports" (exposeFolder "https://files.example" "reports" hiddenReports).2
  = (folderUnexposed "reports", hiddenReports).
Proof.
  exact (proj2 (proj2 (proj1 (expose_unexpose_round_trip "https://files.example"
                  "reports" hiddenReports _ eq_refl) eq_refl eq_refl))).
Defined.

(** ** What a listing holds *)

Section Files.

Lemma elem_of_fileEntries t e :
  e ∈ fileEntries t ↔ ∃ data, t !! name e = Some (File data) ∧ size e = length data.
Proof.
  unfold fileEntries. rewrite list_elem_of_omap. split.
  - intros (o & Ho & Hid). simpl in Hid. subst o.
    apply list_elem_of_fmap in Ho as ([k n] & He & Hin%elem_of_map_to_list).
    unfold fileEntryOf in He. simpl in He. destruct n as [data|]; [|done].
    injection He as ->. by exists data.
  - intros (data & Ht & Hs). exists (Some e). split; [|done].
    apply list_elem_of_fmap. exists (name e, File data).
    split; [|by apply elem_of_map_to_list].
    unfold fileEntryOf. simpl. rewrite <- Hs. by destruct e.
Qed.

Lemma NoDup_fileEntries t : NoDup (map name (fileEntries t)).
Proof.
  unfold fileEntries. pose proof (NoDup_fst_map_to_list t) as Hnd.
  induction (map_to_list t) as [|[k n] l IH]; simpl; [constructor|].
  simpl in Hnd. apply NoDup_cons in Hnd as [Hk Hnd].
  unfold fileEntryOf at 1. simpl. destruct n as [data|t0]; simpl; [|by apply IH].
  apply NoDup_cons. split; [|by apply IH].
  intros Hin. apply Hk.
  apply list_elem_of_In, in_map_iff in Hin as (e & He & Hin).
  apply list_elem_of_In, list_elem_of_omap in Hin as (o & Ho & Hid).
  simpl in Hid. subst o.
  apply list_elem_of_fmap in Ho as ([k' n'] & He' & Hin).
  unfold fileEntryOf in He'. simpl in He'. destruct n' as [data'|]; [|done].
  injection He' as ->. simpl in He. subst k'.
  apply list_elem_of_fmap. by exists (k, File data').
Qed.

End Files.

Section ListFolder.
Variable PUBLIC_URL : string.

(** X10.  Listing a folder answers with the visibility of the root it
    resolved in and with the regular files that stand directly in it, each
    once, with its byte length; directories inside it are left out. *)
Theorem listFolder_files f d r t :
  safePattern f = true → resolve d f None = Some r →
  tree r d !! f = Some (Dir t) → legalNames t →
  ∃ b l, listFolder PUBLIC_URL f d = (json b, d) ∧
         visibility b = Some (visibilityOfRoot r) ∧
         files b = Some l ∧ NoDup (map name l) ∧
         ∀ k s, FileEntry k s ∈ l ↔ ∃ data, t !! k = Some (File data) ∧ s = length data.
Proof.
  intros Hf Hr Ht Hl. eexists _, (fileEntries t).
  split; [by apply listFolder_run|]. split; [done|]. split; [done|].
  split; [apply NoDup_fileEntries|]. intros k s. by rewrite elem_of_fileEntries.
Qed.

(** X11.  Exposing or hiding a folder does not change what its listing
    holds: after [expose] the listing is that of the content the hidden
    folder had, now reported exposed; after [unexpose] that of the content
    the exposed folder had, now reported hidden. *)
Theorem toggle_keeps_files f d t :
  safePattern f = true → legalNames t →
  (private d !! f = Some (Dir t) → (∀ data, public d !! f ≠ Some (File data)) →
     listFolder PUBLIC_URL f (exposeFolder PUBLIC_URL f d).2
     = (folderListed PUBLIC_URL Public f t, (exposeFolder PUBLIC_URL f d).2)) ∧
  (public d !! f = Some (Dir t) → (∀ data, private d !! f ≠ Some (File data)) →
     listFolder PUBLIC_URL f (unexposeFolder f d).2
     = (folderListed PUBLIC_URL Private f t, (unexposeFolder f d).2)).
Proof.
  intros Hf Hl. split.
  - intros Ht Hno.
    assert (E : existsIn d Private f None = true)
      by (apply existsIn_folder_true; by exists (Dir t)).
    pose proof (move_folder_cross d Private f t Ht) as Hm.
    cbn [opposite] in Hm. rewrite exposeFolder_run, E by done.
    rewrite Hm by done. cbn [snd].
    apply listFolder_run; try done.
    + apply resolve_exposed, existsIn_folder_true. simpl.
      rewrite lookup_insert_eq. by eexists.
    + simpl. by rewrite lookup_insert_eq.
  - intros Ht Hno.
    assert (E : existsIn d Public f None = true)
      by (apply existsIn_folder_true; by exists (Dir t)).
    pose proof (move_folder_cross d Public f t Ht) as Hm.
    cbn [opposite] in Hm. rewrite unexposeFolder_run, E by done.
    rewrite Hm by done. cbn [snd].
    apply listFolder_run; try done.
    + unfold resolve.
      assert (E1 : existsIn (setTree Private (<[f:=Dir t]> (tree Private d))
                      (setTree Public (delete f (tree Public d)) d)) Public f None = false).
      { apply existsIn_folder_false. simpl. by rewrite lookup_delete_eq. }
      assert (E2 : existsIn (setTree Private (<[f:=Dir t]> (tree Private d))
                      (setTree Public (delete f (tree Public d)) d)) Private f None = true).
      { apply existsIn_folder_true. simpl. rewrite lookup_insert_eq. by eexists. }
      by rewrite E1, E2.
    + simpl. by rewrite lookup_insert_eq.
Qed.

End ListFolder.

Lemma singleton_legal k (n : node) : legalName k = true → legalNames {[ k := n ]}.
Proof.
  intros Hk k' [n' Hn']. destruct (decide (k' = k)) as [->|Hne]; [done|].
  by rewrite lookup_singleton_ne in Hn'.
Qed.

Lemma listFolder_files_witness :
  ∃ b l, listFolder "https://files.example" "reports" hiddenReports = (json b, hiddenReports) ∧
         files b = Some l ∧ FileEntry "a.txt" 2 ∈ l.
Proof.
  destruct (listFolder_files "https://files.example" "reports" hiddenReports Private
              {[ "a.txt" := File hi ]} eq_refl eq_refl eq_refl
              (singleton_legal "a.txt" (File hi) eq_refl))
    as (b & l & H1 & _ & H2 & _ & H3).
  exists b, l. split; [exact H1|]. split; [exact H2|].
  apply H3. exists hi. split; reflexivity.
Defined.

Lemma toggle_keeps_files_witness :
  listFolder "https://files.example" "reports"
    (exposeFolder "https://files.example" "reports" hiddenReports).2
  = (folderListed "https://files.example" Public "reports" {[ "a.txt" := File hi ]},
     (exposeFolder "https://files.example" "reports" hiddenReports).2).
Proof.
  apply (proj1 (toggle_keeps_files "https://files.example" "reports" hiddenReports
                  {[ "a.txt" := File hi ]} eq_refl
                  (singleton_legal "a.txt" (File hi) eq_refl))).
  - reflexivity.
  - intros data. vm_compute. discriminate.
Defined.

(** ** Uploading, then listing *)

Section UploadList.
Variable PUBLIC_URL : string.

(** The disk that an upload under a name without separator leaves. *)
Lemma storeFile_flat_inv f n expose data d b d' :
  storeFile PUBLIC_URL f n expose data d = (json b, d') → hasChar "/" n = false →
  ∃ t0, (tree (baseDirOf expose) d !! f = Some (Dir t0) ∨
         tree (baseDirOf expose) d !! f = None ∧ t0 = ∅) ∧
        d' = setTree (baseDirOf expose)
               (<[f := Dir (<[n := File data]> t0)]> (tree (baseDirOf expose) d)) d.
Proof.
  intros (_ & _ & Hv & d1 & He & Hw & _)%storeFile_json_inv Hflat.
  rewrite itemPath_flat in Hw by (by eapply valid_file_legal).
  unfold itemPath in He. rewrite ensureDir_top in He.
  apply writeFile_inv in Hw as (_ & t' & Hput & ->). cbn [base segs] in Hput.
  set (r := baseDirOf expose) in *.
  destruct (tree r d !! f) as [[data0|t0]|] eqn:E; [done| |].
  - injection He as <-. exists t0. split; [by left|].
    rewrite tree_setTree, putAt_cons, lookup_insert_eq in Hput.
    injection Hput as <-. by rewrite setTree_setTree, insert_insert_eq.
  - injection He as <-. exists ∅. split; [by right|].
    rewrite tree_setTree, putAt_cons, lookup_insert_eq in Hput.
    injection Hput as <-. by rewrite setTree_setTree, insert_insert_eq.
Qed.

Lemma insert_legal k (n : node) t :
  legalName k = true → legalNames t → legalNames (<[k := n]> t).
Proof.
  intros Hk Ht k' [n' Hn']. destruct (decide (k' = k)) as [->|Hne]; [done|].
  rewrite lookup_insert_ne in Hn' by done. apply Ht. by exists n'.
Qed.

Lemma empty_legal : legalNames ∅.
Proof. intros k [n Hn]. by rewrite lookup_empty in Hn. Qed.

(** X12.  A file uploaded under a name without separator is listed in its
    folder with that name and the length of the uploaded bytes, provided
    the listing resolves to the root uploaded to: the upload was exposed, or
    the public root holds no entry of the folder's name. *)
Theorem upload_listed f n expose data d b d' :
  storeFile PUBLIC_URL f n expose data d = (json b, d') → hasChar "/" n = false →
  (∀ t, tree (baseDirOf expose) d !! f = Some (Dir t) → legalNames t) →
  expose = true ∨ public d !! f = None →
  ∃ b' l, listFolder PUBLIC_URL f d' = (json b', d') ∧
          visibility b' = Some (visibilityOf expose) ∧
          files b' = Some l ∧ FileEntry n (length data) ∈ l.
Proof.
  intros H Hflat Hlegal Hres.
  pose proof (storeFile_json_inv _ _ _ _ _ _ _ _ H) as (Hf & _ & Hv & _).
  pose proof (valid_file_legal _ _ Hv Hflat) as Hn.
  destruct (storeFile_flat_inv _ _ _ _ _ _ _ H Hflat) as (t0 & Ht0 & ->).
  set (r := baseDirOf expose) in *.
  set (d' := setTree r _ d).
  assert (Hl : legalNames (<[n := File data]> t0)).
  { apply insert_legal; [done|].
    destruct Ht0 as [Ht0|[_ ->]]; [by apply Hlegal|apply empty_legal]. }
  assert (Hd' : tree r d' !! f = Some (Dir (<[n := File data]> t0))).
  { unfold d'. by rewrite tree_setTree, lookup_insert_eq. }
  assert (Hr : resolve d' f None = Some r).
  { assert (E : existsIn d' r f None = true)
      by (apply existsIn_folder_true; by eexists).
    unfold resolve. subst r. destruct expose; cbn [baseDirOf] in *; [by rewrite E|].
    destruct Hres as [|Hres]; [done|].
    assert (E0 : existsIn d' Public f None = false).
    { apply existsIn_folder_false. unfold d'. simpl. done. }
    by rewrite E0, E. }
  exists (Body "folder_listed" (Some (visibilityOfRoot r)) (urlOfRoot PUBLIC_URL r f None)
               (Some f) None "Folder listed"
               (Some (fileEntries (<[n := File data]> t0))) None),
         (fileEntries (<[n := File data]> t0)).
  split; [by apply listFolder_run|]. split; [by destruct expose|].
  split; [done|]. apply elem_of_fileEntries. exists data.
  by rewrite lookup_insert_eq.
Qed.

End UploadList.

Lemma upload_listed_witness :
  ∃ b' l, listFolder "https://files.example" "reports"
            (storeFile "https://files.example" "reports" "a.txt" false hi (Disk ∅ ∅)).2
          = (json b', (storeFile "https://files.example" "reports" "a.txt" false hi (Disk ∅ ∅)).2) ∧
          visibility b' = Some hidden ∧ files b' = Some l ∧ FileEntry "a.txt" 2 ∈ l.
Proof.
  apply (upload_listed "https://files.example" "reports" "a.txt" false hi (Disk ∅ ∅)
           (Body "file_uploaded" (Some hidden) None (Some "reports") (Some "a.txt")
                 "File uploaded" None None)).
  - reflexivity.
  - reflexivity.
  - intros t Ht. discriminate Ht.
  - right. reflexivity.
Defined.

(** ** Routes that only read *)

Lemma readOnly_ret {A} (a : A) : readOnly (mret a).
Proof. by intros d. Qed.

Lemma readOnly_lift {A} (x : string + A) : readOnly (lift x).
Proof. by intros d. Qed.

Lemma readOnly_bind {A B} (m : M A) (k : A → M B) :
  readOnly m → (∀ a, readOnly (k a)) → readOnly (m ≫= k).
Proof.
  intros Hm Hk d. unfold mbind, M_bind. specialize (Hm d).
  destruct (m d) as [[e|a] d1]; simpl in *; [done|]. by rewrite Hk.
Qed.

Lemma readOnly_mapM {A B} (g : A → M B) l :
  (∀ a, readOnly (g a)) → readOnly (mapM g l).
Proof.
  intros Hg. induction l as [|a l IH]; [by intros d|].
  cbn [mapM]. apply readOnly_bind; [done|]. intros b0.
  apply readOnly_bind; [done|]. intros bs. by intros d.
Qed.

Lemma readOnly_pathExists p : readOnly (pathExists p).
Proof. by intros d. Qed.

Lemma readOnly_stat p : readOnly (stat p).
Proof. by intros d. Qed.

Lemma readOnly_readdir p : readOnly (readdir p).
Proof. intros d. unfold readdir. by destruct (statPath d p) as [|[|]]. Qed.

Lemma readOnly_probe p q : readOnly (probe p q).
Proof.
  unfold probe. apply readOnly_bind; [apply readOnly_pathExists|].
  intros [|]; [apply readOnly_ret|].
  apply readOnly_bind; [apply readOnly_pathExists|]. intros b. apply readOnly_ret.
Qed.

Lemma readOnly_catch400 m d : readOnly m → (catch400 m d).2 = d.
Proof. intros H. unfold catch400. specialize (H d). by destruct (m d) as [[|] ?]. Qed.

Lemma readOnly_catch500 m d : readOnly m → (catch500 m d).2 = d.
Proof. intros H. unfold catch500. specialize (H d). by destruct (m d) as [[|] ?]. Qed.

Section Lists.
Variable PUBLIC_URL : string.

(** X13.  The two listing routes leave the content of both roots as it
    was, whatever they answer. *)
Theorem lists_read_only :
  (∀ f d, (listFolder PUBLIC_URL f d).2 = d) ∧ (∀ d, (listRoot PUBLIC_URL d).2 = d).
Proof.
  split.
  - intros f d. apply readOnly_catch400.
    apply readOnly_bind; [apply readOnly_lift|]. intros v. cbv zeta.
    apply readOnly_bind; [apply readOnly_lift|]. intros publicPath.
    apply readOnly_bind; [apply readOnly_lift|]. intros privatePath.
    apply readOnly_bind; [apply readOnly_probe|]. intros [[folderPath isExposed]|];
      [|apply readOnly_ret].
    apply readOnly_bind; [apply readOnly_readdir|]. intros files.
    apply readOnly_bind; [|intros ?; apply readOnly_ret].
    apply readOnly_mapM. intros file.
    apply readOnly_bind; [apply readOnly_lift|]. intros filePath.
    apply readOnly_bind; [apply readOnly_stat|]. intros stats. apply readOnly_ret.
  - assert (Hroot : ∀ r items, readOnly (rootFolders PUBLIC_URL r items)).
    { intros r items. apply readOnly_mapM. intros item.
      apply readOnly_bind; [apply readOnly_lift|]. intros itemPath.
      apply readOnly_bind; [apply readOnly_stat|]. intros stats. apply readOnly_ret. }
    assert (Hens : ∀ r, readOnly (ensureDir (rootPath r))).
    { intros r d. by rewrite ensureDir_rootPath. }
    intros d. apply readOnly_catch500. cbv zeta.
    apply readOnly_bind; [apply Hens|]. intros _.
    apply readOnly_bind; [apply Hens|]. intros _.
    apply readOnly_bind; [apply readOnly_readdir|]. intros publicItems.
    apply readOnly_bind; [apply readOnly_readdir|]. intros privateItems.
    apply readOnly_bind; [apply Hroot|]. intros publicFolders.
    apply readOnly_bind; [apply Hroot|]. intros privateFolders.
    apply readOnly_ret.
Qed.

End Lists.

(** ** Renaming, there and back *)

Section RenameBack.
Variable PUBLIC_URL : string.

Lemma resolve_in d f fn r :
  existsIn d r f fn = true → (r = Private → existsIn d Public f fn = false) →
  resolve d f fn = Some r.
Proof.
  intros Hr Hp. unfold resolve. destruct r; [by rewrite Hr|].
  by rewrite (Hp eq_refl), Hr.
Qed.

Lemma existsIn_file_flat d r f n :
  legalName n = true →
  existsIn d r f (Some n) =
  match tree r d !! f with
  | Some (Dir t0) => bool_decide (is_Some (t0 !! n))
  | _ => false
  end.
Proof.
  intros Hn. unfold existsIn. rewrite itemPath_flat by done.
  unfold statPath. simpl.
  destruct (tree r d !! f) as [[data|t0]|]; [done| |done].
  destruct (t0 !! n) as [[|]|] eqn:E.
  - by rewrite bool_decide_eq_true_2.
  - by rewrite bool_decide_eq_true_2.
  - rewrite bool_decide_eq_false_2; [done|]. by intros [? ?].
Qed.

(** X14.  Renaming to a name that the host takes and that is free in both
    roots, and then renaming back, restores the disk exactly, and the
    second answer carries the visibility the item had: for a folder, and
    for a file whose old and new names have no separator. *)
Theorem rename_round_trip :
  (∀ f g fn fn' d r,
     safePattern f = true → safePattern g = true → hostName g = true →
     resolve d f None = Some r →
     existsIn d Public g None = false → existsIn d Private g None = false →
     renameItem PUBLIC_URL (Some "folder") (Some g) fn' (Some f)
       (renameItem PUBLIC_URL (Some "folder") (Some f) fn (Some g) d).2
     = (folderRenamed PUBLIC_URL r f, d)) ∧
  (∀ f n new d r,
     validatePath f (Some n) = inr (Validated f (Some n)) →
     validatePath f (Some new) = inr (Validated f (Some new)) →
     hostName new = true →
     hasChar "/" n = false → hasChar "/" new = false →
     resolve d f (Some n) = Some r →
     existsIn d Public f (Some new) = false → existsIn d Private f (Some new) = false →
     renameItem PUBLIC_URL (Some "file") (Some f) (Some new) (Some n)
       (renameItem PUBLIC_URL (Some "file") (Some f) (Some n) (Some new) d).2
     = (fileRenamed PUBLIC_URL r f n, d)).
Proof.
  split.
  - intros f g fn fn' d r Hf Hg _ Hr Hpub Hpriv.
    pose proof (resolve_Some _ _ _ _ Hr) as [Hin Hp].
    apply existsIn_folder_true in Hin as [node Hnode].
    assert (Hfree : tree r d !! g = None).
    { apply existsIn_folder_false. by destruct r. }
    assert (Hfg : f ≠ g) by (intros ->; congruence).
    rewrite (renameItem_folder_run PUBLIC_URL f fn g d), Hr by done.
    unfold itemPath at 1 2. rewrite (move_top_same d r f g node) by done.
    cbn [snd].
    set (d1 := setTree r (<[g := node]> (delete f (tree r d))) d).
    assert (H1 : tree r d1 !! g = Some node)
      by (unfold d1; by rewrite tree_setTree, lookup_insert_eq).
    assert (H2 : tree r d1 !! f = None).
    { unfold d1. rewrite tree_setTree, lookup_insert_ne by done.
      by rewrite lookup_delete_eq. }
    assert (Hr1 : resolve d1 g None = Some r).
    { apply resolve_in.
      - apply existsIn_folder_true. by exists node.
      - intros ->. rewrite <- Hpub. by apply existsIn_ext. }
    rewrite (renameItem_folder_run PUBLIC_URL g fn' f d1), Hr1 by done.
    unfold itemPath at 1 2. rewrite (move_top_same d1 r g f node) by done.
    f_equal. unfold d1. rewrite tree_setTree, setTree_setTree.
    rewrite delete_insert_id by (by rewrite lookup_delete_ne).
    by rewrite insert_delete_id, setTree_tree.
  - intros f n new d r Hv Hv' _ Hflat Hflat' Hr Hpub Hpriv.
    pose proof (valid_file_legal _ _ Hv Hflat) as Hn.
    pose proof (valid_file_legal _ _ Hv' Hflat') as Hnew.
    pose proof (resolve_Some _ _ _ _ Hr) as [Hin Hp].
    assert (Hfree : existsIn d r f (Some new) = false) by (by destruct r).
    rewrite existsIn_file_flat in Hin, Hfree by done.
    destruct (tree r d !! f) as [[data|t0]|] eqn:Ef; [done| |done].
    apply bool_decide_eq_true in Hin as [node Hnode].
    apply bool_decide_eq_false in Hfree. apply eq_None_not_Some in Hfree.
    assert (Hne : n ≠ new) by (intros ->; congruence).
    rewrite (renameItem_file_run PUBLIC_URL f n new d), Hr by done.
    rewrite !itemPath_flat by done.
    rewrite (move_file_same d r f n new t0 node) by done.
    cbn [snd].
    set (t1 := <[new := node]> (delete n t0)).
    set (d1 := setTree r (<[f := Dir t1]> (tree r d)) d).
    assert (H0 : tree r d1 !! f = Some (Dir t1))
      by (unfold d1; by rewrite tree_setTree, lookup_insert_eq).
    assert (H1 : t1 !! new = Some node) by (unfold t1; by rewrite lookup_insert_eq).
    assert (H2 : t1 !! n = None).
    { unfold t1. rewrite lookup_insert_ne by done. by rewrite lookup_delete_eq. }
    assert (Hr1 : resolve d1 f (Some new) = Some r).
    { apply resolve_in.
      - rewrite existsIn_file_flat, H0 by done.
        apply bool_decide_eq_true. by exists node.
      - intros ->. rewrite <- Hpub. by apply existsIn_ext. }
    rewrite (renameItem_file_run PUBLIC_URL f new n d1), Hr1 by done.
    rewrite !itemPath_flat by done.
    rewrite (move_file_same d1 r f new n t1 node) by done.
    f_equal. unfold d1, t1. rewrite tree_setTree, setTree_setTree.
    rewrite delete_insert_id by (by rewrite lookup_delete_ne).
    rewrite insert_delete_id by done.
    by rewrite insert_insert_eq, insert_id, setTree_tree.
Qed.

End RenameBack.

Lemma rename_round_trip_witness :
  renameItem "https://files.example" (Some "file") (Some "reports") (Some "b.txt") (Some "a.txt")
    (renameItem "https://files.example" (Some "file") (Some "reports") (Some "a.txt")
       (Some "b.txt") hiddenReports).2
  = (fileRenamed "https://files.example" Private "reports" "a.txt", hiddenReports).
Proof.
  exact (proj2 (rename_round_trip "https://files.example") "reports" "a.txt" "b.txt"
           hiddenReports Private eq_refl eq_refl eq_refl eq_refl eq_refl eq_refl eq_refl
           eq_refl).
Defined.

(** ** Deleting, again *)

Section DeleteAgain.

(** X15.  After a delete of a folder of an accepted name, whatever it
    answered, the name resolves in neither root and a second delete answers 404 and changes
    nothing; the other top-level entries of both roots are untouched. *)
Theorem deleteItem_folder_gone f d :
  safePattern f = true →
  resolve (deleteItem f None d).2 f None = None ∧
  deleteItem f None (deleteItem f None d).2
  = (failure 404 "Folder not found", (deleteItem f None d).2) ∧
  ∀ g r, g ≠ f → tree r (deleteItem f None d).2 !! g = tree r d !! g.
Proof.
  intros Hf.
  assert (Hgone : ∀ r, existsIn (deleteItem f None d).2 r f None = false).
  { intros r. apply existsIn_folder_false. rewrite deleteItem_folder by done.
    destruct (existsIn d Public f None || existsIn d Private f None) eqn:E.
    - destruct r; simpl; by rewrite lookup_delete_eq.
    - apply orb_false_elim in E as [E1 E2]. cbn [snd].
      apply existsIn_folder_false. by destruct r. }
  split; [|split].
  - unfold resolve. by rewrite !Hgone.
  - rewrite (deleteItem_folder f (deleteItem f None d).2) by done.
    by rewrite !Hgone.
  - intros g r Hne. rewrite deleteItem_folder by done.
    destruct (existsIn d Public f None || existsIn d Private f None); [|done].
    destruct r; simpl; by rewrite lookup_delete_ne.
Qed.

Lemma existsIn_removed d r f n :
  existsIn (setTree r (removeAt (tree r d) (f :: segments n)) d) r f (Some n) = false.
Proof.
  unfold existsIn. destruct (statPath _ _) as [|m] eqn:E; [done|].
  apply statPath_inr in E. cbn [itemPath base segs] in E. rewrite tree_setTree in E.
  by apply statNode_removeAt_below in E.
Qed.

(** X16.  Two deletes of a file in a row leave it in neither root, also
    when both roots held a copy. *)
Theorem deleteItem_file_twice f n d :
  validatePath f (Some n) = inr (Validated f (Some n)) →
  existsIn (deleteItem f (Some n) (deleteItem f (Some n) d).2).2 Public f (Some n) = false ∧
  existsIn (deleteItem f (Some n) (deleteItem f (Some n) d).2).2 Private f (Some n) = false.
Proof.
  intros Hv.
  assert (Hopp : ∀ r d0 t, existsIn (setTree r t d0) (opposite r) f (Some n)
                          = existsIn d0 (opposite r) f (Some n)).
  { intros r d0 t. apply existsIn_ext. apply tree_setTree_ne, not_eq_sym, opposite_ne. }
  rewrite (deleteItem_file f n d) by done.
  destruct (existsIn d Public f (Some n)) eqn:E1; cbn [snd].
  - rewrite deleteItem_file by done.
    change (public d) with (tree Public d).
    rewrite existsIn_removed, (Hopp Public). cbn [opposite].
    destruct (existsIn d Private f (Some n)) eqn:E2; cbn [snd].
    + split; [|apply (existsIn_removed _ Private)].
      rewrite (Hopp Private). apply existsIn_removed.
    + split; [apply existsIn_removed|]. by rewrite (Hopp Public).
  - destruct (existsIn d Private f (Some n)) eqn:E2; cbn [snd].
    + rewrite deleteItem_file by done.
      change (private d) with (tree Private d).
      rewrite (Hopp Private), existsIn_removed. cbn [opposite]. rewrite E1. cbn [snd].
      split; [by rewrite (Hopp Private)|apply existsIn_removed].
    + rewrite deleteItem_file, E1, E2 by done. by split.
Qed.

End DeleteAgain.

Lemma deleteItem_folder_gone_witness :
  deleteItem "reports" None (deleteItem "reports" None dualDisk).2
  = (failure 404 "Folder not found", (deleteItem "reports" None dualDisk).2).
Proof.
  exact (proj1 (proj2 (deleteItem_folder_gone "reports" dualDisk eq_refl))).
Defined.

Lemma deleteItem_file_twice_witness :
  existsIn (deleteItem "reports" (Some "a.txt")
              (deleteItem "reports" (Some "a.txt") dualDisk).2).2
           Private "reports" (Some "a.txt") = false.
Proof.
  exact (proj2 (deleteItem_file_twice "reports" "a.txt" dualDisk eq_refl)).
Defined.

(** ** Requests that fail *)

Lemma ensureDir_folder r f d :
  ensureDir (itemPath r f None) d =
  match tree r d !! f with
  | None => (inr (), setTree r (<[f := Dir ∅]> (tree r d)) d)
  | Some (Dir t) => (inr (), setTree r (<[f := Dir t]> (tree r d)) d)
  | Some (File _) => (inl EEXIST, d)
  end.
Proof. exact (ensureDir_top r f d). Qed.

Lemma deleteItem_falsy f fn d :
  truthy fn = false → deleteItem f fn d = deleteItem f None d.
Proof. intros H. unfold deleteItem. by rewrite H. Qed.

(** A [move] between two top-level entries fails before it changes
    anything. *)
Lemma move_top_fail d r r' f g e d' :
  move (Path r [f] false) (Path r' [g] false) d = (inl e, d') → d' = d.
Proof.
  unfold move, mbind, M_bind, stat, mret, M_ret, throw. rewrite !statPath_top.
  destruct (tree r d !! f) as [n|] eqn:Ef; [|by intros [= _ <-]].
  assert (Hend : ∀ d2, tree r d2 !! f = Some n →
            ∃ d3, rename (Path r [f] false) (Path r' [g] false) d2 = (inr (), d3)).
  { intros d2 H2. unfold rename. rewrite statPath_top, H2. simpl. by eexists. }
  destruct (tree r' d !! g) as [m|] eqn:Eg.
  - destruct (areIdentical _ _) eqn:Eid; [by intros [= _ <-]|].
    destruct (isDir n && isFile m); [by intros [= _ <-]|].
    destruct (isFile n && isDir m); [by intros [= _ <-]|].
    destruct (isDir n && isSrcSubdir _ _); [by intros [= _ <-]|].
    unfold ensureDir. simpl. rewrite setTree_tree.
    rewrite remove_top by (by rewrite Eg).
    destruct (Hend (setTree r' (delete g (tree r' d)) d)) as [d3 ->]; [|done].
    destruct (decide (r = r')) as [<-|Hr].
    + rewrite tree_setTree, lookup_delete_ne; [done|]. intros <-.
      unfold areIdentical in Eid. simpl in Eid.
      by rewrite !bool_decide_eq_true_2 in Eid.
    + by rewrite tree_setTree_ne by (by apply not_eq_sym).
  - rewrite decide_True by done.
    destruct (isDir n && isSrcSubdir _ _); [by intros [= _ <-]|].
    unfold ensureDir. simpl. rewrite setTree_tree.
    unfold remove. rewrite statPath_top, Eg, decide_True by done.
    by destruct (Hend d Ef) as [d3 ->].
Qed.

Lemma writeFile_fail p data d e d' : writeFile p data d = (inl e, d') → d' = d.
Proof.
  unfold writeFile. destruct (dirOnly p); [by intros [= _ <-]|].
  assert (H : (match putAt (tree (base p) d) (segs p) (File data) with
               | inl e => (inl e, d)
               | inr t => (inr (), setTree (base p) t d)
               end : (string + ()) * disk) = (inl e, d') → d' = d).
  { destruct (putAt _ _ _); [by intros [= _ <-]|done]. }
  destruct (statNode _ _) as [|[|]]; [done|done|by intros [= _ <-]].
Qed.

Section Failures.
Variable PUBLIC_URL : string.

Lemma storeFile_rejected f n expose data e d :
  validatePath f (Some n) = inl e →
  storeFile PUBLIC_URL f n expose data d = (failure 400 e, d).
Proof. intros He. unfold storeFile. run. by rewrite He. Qed.

Lemma deleteItem_rejected f fn e d :
  validatePath f fn = inl e → deleteItem f fn d = (failure 400 e, d).
Proof.
  intros He. destruct (truthy fn) eqn:Et.
  - unfold deleteItem. rewrite Et. run. by rewrite He.
  - rewrite validatePath_falsy_file in He by done.
    rewrite deleteItem_falsy by done. unfold deleteItem. simpl. run. by rewrite He.
Qed.

Lemma exposeFolder_rejected f e d :
  validatePath f None = inl e → exposeFolder PUBLIC_URL f d = (failure 400 e, d).
Proof. intros He. unfold exposeFolder. run. by rewrite He. Qed.

Lemma unexposeFolder_rejected f e d :
  validatePath f None = inl e → unexposeFolder f d = (failure 400 e, d).
Proof. intros He. unfold unexposeFolder. run. by rewrite He. Qed.

Lemma listFolder_rejected f e d :
  validatePath f None = inl e → listFolder PUBLIC_URL f d = (failure 400 e, d).
Proof. intros He. unfold listFolder. run. by rewrite He. Qed.

Lemma servePublic_rejected f n e d :
  validatePath f (Some n) = inl e → servePublic f n d = (answered (failure 400 e), d).
Proof. intros He. unfold servePublic. run. by rewrite He. Qed.

Lemma renameItem_file_rejected f n new e d :
  falsy f = false → falsy n = false → falsy new = false →
  validatePath f (Some n) = inl e ∨
  (validatePath f (Some n) = inr (Validated f (Some n)) ∧ validatePath f (Some new) = inl e) →
  renameItem PUBLIC_URL (Some "file") (Some f) (Some n) (Some new) d = (failure 400 e, d).
Proof.
  intros Hf Hn Hnew He. unfold renameItem, truthy. rewrite Hf, Hn, Hnew.
  rewrite !(bool_decide_eq_true_2 ("file" = "file")) by done.
  cbn [falsy orb andb negb]. run.
  destruct He as [He|[Hv He]]; [by rewrite He|]. by rewrite Hv, He.
Qed.

Lemma renameItem_folder_rejected f fn g e d :
  falsy f = false → falsy g = false →
  validatePath f None = inl e ∨
  (validatePath f None = inr (Validated f None) ∧ validatePath g None = inl e) →
  renameItem PUBLIC_URL (Some "folder") (Some f) fn (Some g) d = (failure 400 e, d).
Proof.
  intros Hf Hg He. unfold renameItem. rewrite Hf, Hg.
  rewrite !(bool_decide_eq_false_2 ("folder" = "file")) by done.
  rewrite !(bool_decide_eq_true_2 ("folder" = "folder")) by done.
  cbn [falsy orb andb negb]. run.
  destruct He as [He|[Hv He]]; [by rewrite He|]. by rewrite Hv, He.
Qed.

(** X17.  A name that [validatePath] rejects makes every route that hands
    it to [validatePath] answer 400 with the message of that rejection, and
    the disk is left as it was.  (The upload and the rename answer for a
    missing or empty field themselves, before they validate: there the
    fields are taken to be present.) *)
Theorem rejected_name_changes_nothing f fn e d :
  validatePath f fn = inl e →
  deleteItem f fn d = (failure 400 e, d) ∧
  (∀ n, fn = Some n →
     (∀ xExpose data, falsy f = false → falsy n = false →
        upload PUBLIC_URL (Some f) (Some n) xExpose data d = (failure 400 e, d)) ∧
     (∀ decode base64 reqExpose,
        falsy f = false → falsy n = false → falsy base64 = false →
        uploadJson PUBLIC_URL decode (Some f) (Some n) (Some base64) reqExpose d
        = (failure 400 e, d)) ∧
     servePublic f n d = (answered (failure 400 e), d) ∧
     (∀ new, falsy f = false → falsy n = false → falsy new = false →
        renameItem PUBLIC_URL (Some "file") (Some f) (Some n) (Some new) d
        = (failure 400 e, d))) ∧
  (fn = None →
     (∀ expose, mkdir PUBLIC_URL (Some f) expose d = (failure 400 e, d)) ∧
     exposeFolder PUBLIC_URL f d = (failure 400 e, d) ∧
     unexposeFolder f d = (failure 400 e, d) ∧
     listFolder PUBLIC_URL f d = (failure 400 e, d) ∧
     (∀ fn' g, falsy f = false → falsy g = false →
        renameItem PUBLIC_URL (Some "folder") (Some f) fn' (Some g) d
        = (failure 400 e, d))).
Proof.
  intros He. split; [by apply deleteItem_rejected|]. split.
  - intros n ->. split.
    { intros xExpose data Hf Hn. unfold upload. rewrite Hf, Hn.
      by apply storeFile_rejected. }
    split.
    { intros decode base64 reqExpose Hf Hn Hb. unfold uploadJson.
      rewrite Hf, Hn, Hb. by apply storeFile_rejected. }
    split; [by apply servePublic_rejected|].
    intros new Hf Hn Hnew. apply renameItem_file_rejected; try done. by left.
  - intros ->. split; [intros; by apply mkdir_rejected|].
    split; [by apply exposeFolder_rejected|].
    split; [by apply unexposeFolder_rejected|].
    split; [by apply listFolder_rejected|].
    intros fn' g Hf Hg. apply renameItem_folder_rejected; try done. by left.
Qed.

(** X18.  [mkdir], delete, [expose], [unexpose] and the rename of a folder
    are all-or-nothing: when the answer is not 200 the disk is as it
    was. *)
Theorem failure_changes_nothing :
  (∀ folder expose d s m,
     (mkdir PUBLIC_URL folder expose d).1 = failure s m →
     (mkdir PUBLIC_URL folder expose d).2 = d) ∧
  (∀ f fn d s m,
     (deleteItem f fn d).1 = failure s m → (deleteItem f fn d).2 = d) ∧
  (∀ f d s m,
     (exposeFolder PUBLIC_URL f d).1 = failure s m →
     (exposeFolder PUBLIC_URL f d).2 = d) ∧
  (∀ f d s m,
     (unexposeFolder f d).1 = failure s m → (unexposeFolder f d).2 = d) ∧
  (∀ f fn g d s m,
     (renameItem PUBLIC_URL (Some "folder") f fn g d).1 = failure s m →
     (renameItem PUBLIC_URL (Some "folder") f fn g d).2 = d).
Proof.
  split; [|split; [|split; [|split]]].
  - intros [f|] expose d s m; [|done].
    destruct (validatePath f None) as [e|v] eqn:Ev.
    + by rewrite (mkdir_rejected _ _ _ _ _ Ev).
    + apply validatePath_folder_inr in Ev as [_ Hf]. rewrite mkdir_run by done.
      by destruct (tree (baseDirOf expose) d !! f) as [[|]|].
  - intros f fn d s m.
    destruct (validatePath f fn) as [e|v] eqn:Ev.
    + by rewrite (deleteItem_rejected _ _ _ _ Ev).
    + destruct (truthy fn) eqn:Et.
      * destruct fn as [n|]; [|done]. simpl in Et. apply negb_true_iff in Et.
        destruct (validatePath_file_inr _ _ _ Ev Et) as [-> _].
        rewrite deleteItem_file by done.
        destruct (existsIn d Public f (Some n)); [done|].
        by destruct (existsIn d Private f (Some n)).
      * rewrite validatePath_falsy_file in Ev by done.
        apply validatePath_folder_inr in Ev as [_ Hf].
        rewrite deleteItem_falsy, deleteItem_folder by done.
        by destruct (existsIn d Public f None || existsIn d Private f None).
  - intros f d s m.
    destruct (validatePath f None) as [e|v] eqn:Ev.
    + by rewrite (exposeFolder_rejected _ _ _ Ev).
    + apply validatePath_folder_inr in Ev as [_ Hf]. rewrite exposeFolder_run by done.
      destruct (existsIn d Private f None).
      * destruct (move _ _ d) as [[e|[]] d'] eqn:Em; [|done].
        intros _. by apply move_top_fail in Em.
      * by destruct (existsIn d Public f None).
  - intros f d s m.
    destruct (validatePath f None) as [e|v] eqn:Ev.
    + by rewrite (unexposeFolder_rejected _ _ _ Ev).
    + apply validatePath_folder_inr in Ev as [_ Hf]. rewrite unexposeFolder_run by done.
      destruct (existsIn d Public f None).
      * destruct (move _ _ d) as [[e|[]] d'] eqn:Em; [|done].
        intros _. by apply move_top_fail in Em.
      * by destruct (existsIn d Private f None).
  - intros [f|] fn [g|] d s m; try done.
    destruct (falsy f) eqn:Ef; [by unfold renameItem; rewrite Ef|].
    destruct (falsy g) eqn:Eg; [by unfold renameItem; rewrite Ef, Eg|].
    destruct (validatePath f None) as [e|v] eqn:Ev.
    { rewrite (renameItem_folder_rejected f fn g e d); try done. by left. }
    apply validatePath_folder_inr in Ev as [-> Hf].
    destruct (validatePath g None) as [e|v] eqn:Ev'.
    { rewrite (renameItem_folder_rejected f fn g e d); try done.
      right. split; [|done]. by apply validatePath_folder_ok. }
    apply validatePath_folder_inr in Ev' as [-> Hg].
    rewrite renameItem_folder_run by done.
    destruct (resolve d f None) as [r|]; [|done].
    destruct (move _ _ d) as [[e|[]] d'] eqn:Em; [|done].
    intros _. by apply move_top_fail in Em.
Qed.

(** The steps of an upload whose names were accepted. *)
Lemma storeFile_steps f n expose data d v :
  validatePath f (Some n) = inr v →
  storeFile PUBLIC_URL f n expose data d =
  match ensureDir (itemPath (baseDirOf expose) f None) d with
  | (inl e, d1) => (failure 400 e, d1)
  | (inr _, d1) =>
      match pathJoin (itemPath (baseDirOf expose) f None) [PathUtils.filename v] with
      | inl e => (failure 400 e, d1)
      | inr p =>
          match writeFile p data d1 with
          | (inl e, d2) => (failure 400 e, d2)
          | (inr _, d2) => (fileUploaded PUBLIC_URL expose f (PathUtils.filename v), d2)
          end
      end
  end.
Proof.
  intros Ev. pose proof (validatePath_inr _ _ _ Ev) as (Hf & Hvf & _).
  unfold storeFile. run. rewrite Ev, Hvf, pathJoin_folder by done.
  destruct (ensureDir _ d) as [[e|[]] d1]; [done|].
  destruct (pathJoin _ _) as [e|p]; [done|].
  by destruct (writeFile p data d1) as [[e|[]] d2].
Qed.

(** X19.  An upload that fails leaves the disk as it was, or with the one
    change that the folder, absent before, now exists and is empty. *)
Theorem storeFile_failure_trace f n expose data d s m :
  (storeFile PUBLIC_URL f n expose data d).1 = failure s m →
  (storeFile PUBLIC_URL f n expose data d).2 = d ∨
  tree (baseDirOf expose) d !! f = None ∧
  (storeFile PUBLIC_URL f n expose data d).2
  = setTree (baseDirOf expose) (<[f := Dir ∅]> (tree (baseDirOf expose) d)) d.
Proof.
  destruct (validatePath f (Some n)) as [e|v] eqn:Ev.
  { rewrite (storeFile_rejected _ _ _ _ _ _ Ev). by left. }
  rewrite (storeFile_steps _ _ _ _ _ _ Ev).
  rewrite !ensureDir_folder.
  assert (Hrest : ∀ d1 x,
    x = match pathJoin (itemPath (baseDirOf expose) f None) [PathUtils.filename v] with
        | inl e => (failure 400 e, d1)
        | inr p =>
            match writeFile p data d1 with
            | (inl e, d2) => (failure 400 e, d2)
            | (inr _, d2) => (fileUploaded PUBLIC_URL expose f (PathUtils.filename v), d2)
            end
        end →
    x.1 = failure s m → x.2 = d1).
  { intros d1 x ->. destruct (pathJoin _ _) as [e|p]; [done|].
    destruct (writeFile p data d1) as [[e|[]] d2] eqn:Ew; [|done].
    intros _. by apply writeFile_fail in Ew. }
  destruct (tree (baseDirOf expose) d !! f) as [[data0|t]|] eqn:E.
  - by left.
  - rewrite insert_id, setTree_tree by done. intros H. left.
    by apply (Hrest d _ eq_refl).
  - intros H. right. split; [done|]. by apply (Hrest _ _ eq_refl).
Qed.

End Failures.

Lemma rejected_name_changes_nothing_witness :
  deleteItem "reports" (Some "../etc/passwd") dualDisk
  = (failure 400 "Invalid file path", dualDisk) ∧
  servePublic "reports" "../etc/passwd" dualDisk
  = (answered (failure 400 "Invalid file path"), dualDisk).
Proof.
  destruct (rejected_name_changes_nothing "https://files.example" "reports"
              (Some "../etc/passwd") "Invalid file path" dualDisk eq_refl)
    as (H1 & H2 & _).
  split; [exact H1|]. exact (proj1 (proj2 (proj2 (H2 _ eq_refl)))).
Defined.

Lemma failure_changes_nothing_witness :
  (deleteItem "drafts" None dualDisk).2 = dualDisk.
Proof.
  exact (proj1 (proj2 (failure_changes_nothing "https://files.example"))
           "drafts" None dualDisk 404 "Folder not found" eq_refl).
Defined.

Lemma storeFile_failure_trace_witness :
  (storeFile "https://files.example" "reports" "a.b/c" true hi (Disk ∅ ∅)).2 = Disk ∅ ∅ ∨
  tree Public (Disk ∅ ∅) !! "reports" = None ∧
  (storeFile "https://files.example" "reports" "a.b/c" true hi (Disk ∅ ∅)).2
  = setTree Public (<["reports" := Dir ∅]> (tree Public (Disk ∅ ∅))) (Disk ∅ ∅).
Proof.
  apply (storeFile_failure_trace "https://files.example" "reports" "a.b/c" true hi
           (Disk ∅ ∅) 400 ENOENT).
  vm_compute. reflexivity.
Defined.

(** ** Deduplication, whatever the order *)

Section DedupeAny.

Implicit Types (m acc : list (string * folderEntry)) (e : folderEntry)
               (l seen : list folderEntry).

Lemma mapSet_keys_present {V} (m : list (string * V)) k v :
  k ∈ m.*1 → (mapSet m k v).*1 = m.*1.
Proof.
  induction m as [|[k' v'] m IH]; [by intros ?%elem_of_nil|].
  cbn [mapSet]. rewrite !fmap_cons. cbn [fst].
  destruct (decide (k' = k)) as [->|Hne]; [done|].
  intros [?|H]%elem_of_cons; [congruence|]. rewrite fmap_cons. cbn [fst].
  by rewrite IH.
Qed.

Lemma elem_of_mapSet {V} (m : list (string * V)) k v k' v' :
  NoDup m.*1 →
  (k', v') ∈ mapSet m k v ↔ (k' = k ∧ v' = v) ∨ (k' ≠ k ∧ (k', v') ∈ m).
Proof.
  induction m as [|[k0 v0] m IH]; cbn [mapSet]; rewrite ?fmap_cons; cbn [fst].
  - intros _. rewrite list_elem_of_singleton. split.
    + intros [= -> ->]. by left.
    + intros [[-> ->]|[_ ?%elem_of_nil]]; done.
  - intros [Hk0 Hnd]%NoDup_cons.
    destruct (decide (k0 = k)) as [->|Hne].
    + rewrite !elem_of_cons. split.
      * intros [[= -> ->]|H]; [by left|]. right. split; [|by right].
        intros ->. apply Hk0. apply list_elem_of_fmap. by exists (k, v').
      * intros [[-> ->]|[Hne [[= -> _]|H]]]; [by left|done|by right].
    + rewrite elem_of_cons, (IH Hnd), elem_of_cons. split.
      * intros [[= -> ->]|[H|[H1 H2]]]; [right; split; [done|by left]|by left|].
        right. split; [done|by right].
      * intros [H|[H1 [[= -> ->]|H2]]]; [right; by left|by left|].
        right. right. by split.
Qed.

Lemma deduped_step acc seen e :
  deduped acc seen → deduped (dedupeStep acc e) (seen ++ [e]).
Proof.
  intros (Hnd & Hkeys & Hval & Hexp). unfold dedupeStep, mapHas.
  assert (Hnames : ∀ k, k ∈ map folderName (seen ++ [e])
                        ↔ k ∈ map folderName seen ∨ k = folderName e).
  { intros k. rewrite map_app, elem_of_app. simpl. by rewrite list_elem_of_singleton. }
  destruct (decide (folderName e ∈ acc.*1)) as [Hin|Hin].
  - rewrite bool_decide_eq_true_2 by done. cbn [negb orb].
    destruct (decide (folderVisibility e = exposed)) as [Hv|Hv].
    + rewrite bool_decide_eq_true_2 by done.
      split; [by rewrite mapSet_keys_present|]. split; [|split].
      * intros k. rewrite mapSet_keys_present, Hnames, Hkeys by done.
        split; [by left|]. intros [H| ->]; [done|]. by apply Hkeys.
      * intros k e0 H. apply elem_of_mapSet in H as [[-> ->]|[Hne H]]; [| |done].
        -- split; [|done]. apply elem_of_app. right. by left.
        -- destruct (Hval _ _ H) as [H1 H2]. split; [|done].
           apply elem_of_app. by left.
      * intros e0 e' He0 Hv0 H.
        apply elem_of_mapSet in H as [[_ ->]|[Hne H]]; [done| |done].
        apply elem_of_app in He0 as [He0| ->%list_elem_of_singleton]; [|done].
        by apply (Hexp e0).
    + rewrite bool_decide_eq_false_2 by done.
      split; [done|]. split; [|split].
      * intros k. rewrite Hnames, Hkeys. split; [by left|].
        intros [H| ->]; [done|]. by apply Hkeys.
      * intros k e0 H. destruct (Hval _ _ H) as [H1 H2]. split; [|done].
        apply elem_of_app. by left.
      * intros e0 e' He0 Hv0 H.
        apply elem_of_app in He0 as [He0| ->%list_elem_of_singleton]; [|done].
        by apply (Hexp e0).
  - rewrite bool_decide_eq_false_2 by done. cbn [negb orb].
    rewrite mapSet_fresh by done.
    split; [|split; [|split]].
    + rewrite fmap_app. apply NoDup_app. split; [done|]. split.
      * intros k Hk ->%list_elem_of_singleton. done.
      * apply NoDup_singleton.
    + intros k. rewrite fmap_app, elem_of_app, Hnames, Hkeys. simpl.
      by rewrite list_elem_of_singleton.
    + intros k e0 [H|[= -> ->]%list_elem_of_singleton]%elem_of_app.
      * destruct (Hval _ _ H) as [H1 H2]. split; [|done]. apply elem_of_app. by left.
      * split; [|done]. apply elem_of_app. right. by left.
    + intros e0 e' He0 Hv0 [H|[= Hn ->]%list_elem_of_singleton]%elem_of_app.
      * apply elem_of_app in He0 as [He0| ->%list_elem_of_singleton].
        -- by apply (Hexp e0).
        -- destruct Hin. apply list_elem_of_fmap. by exists (folderName e, e').
      * apply elem_of_app in He0 as [He0| ->%list_elem_of_singleton]; [|done].
        destruct Hin. apply Hkeys. rewrite <- Hn. by apply elem_of_map_name.
Qed.

Lemma deduped_fold l acc seen :
  deduped acc seen → deduped (fold_left dedupeStep l acc) (seen ++ l).
Proof.
  revert acc seen. induction l as [|e l IH]; intros acc seen H; simpl.
  - by rewrite app_nil_r.
  - rewrite (cons_middle e seen l), app_assoc. by apply IH, deduped_step.
Qed.

Lemma deduped_dedupe l : deduped (dedupe l) l.
Proof.
  rewrite dedupe_fold. apply (deduped_fold l [] []).
  split; [constructor|]. split; [done|].
  split; [by intros k e ?%elem_of_nil|by intros e e' ?%elem_of_nil].
Qed.

(** X20.  Whatever the order of the entries: the deduplicated list holds
    every name of the input once, each entry of the output is an entry of
    the input, and a name that some exposed entry bears is kept with an
    exposed entry. *)
Theorem dedupe_any_order l :
  NoDup (map folderName (mapValues (dedupe l))) ∧
  (∀ e, e ∈ mapValues (dedupe l) → e ∈ l) ∧
  (∀ e, e ∈ l →
     ∃ e', e' ∈ mapValues (dedupe l) ∧ folderName e' = folderName e ∧
           (folderVisibility e = exposed → folderVisibility e' = exposed)).
Proof.
  destruct (deduped_dedupe l) as (Hnd & Hkeys & Hval & Hexp).
  assert (Hnames : map folderName (mapValues (dedupe l)) = (dedupe l).*1).
  { unfold mapValues. revert Hval. generalize (dedupe l). intros m Hm.
    induction m as [|[k e] m IH]; [done|]. simpl. f_equal.
    - by apply (Hm k e); left.
    - apply IH. intros k' e' H. apply Hm. by right. }
  split; [by rewrite Hnames|]. split.
  - intros e [[k e0] [-> H]]%list_elem_of_fmap. simpl. by apply (Hval k e0).
  - intros e He.
    assert (Hk : folderName e ∈ (dedupe l).*1) by (by apply Hkeys, elem_of_map_name).
    apply list_elem_of_fmap in Hk as ([k e'] & Hk & Hin). simpl in Hk. subst k.
    exists e'. split; [|split].
    + apply list_elem_of_fmap. by exists (folderName e, e').
    + by apply (Hval _ _ Hin).
    + intros Hv. by apply (Hexp e e').
Qed.

End DedupeAny.

Lemma dedupe_any_order_witness :
  ∃ e', e' ∈ mapValues (dedupe [FolderEntry "reports" hidden None;
                                FolderEntry "reports" exposed (Some "u")]) ∧
        folderName e' = "reports" ∧ folderVisibility e' = exposed.
Proof.
  destruct (proj2 (proj2 (dedupe_any_order
              [FolderEntry "reports" hidden None;
               FolderEntry "reports" exposed (Some "u")]))
              (FolderEntry "reports" exposed (Some "u")))
    as (e' & H1 & H2 & H3).
  - right. left.
  - exists e'. split; [exact H1|]. split; [exact H2|]. exact (H3 eq_refl).
Defined.

(** ** What an upload and a delete leave alone *)

Lemma statPath_ext d d' p :
  statNode (Dir (tree (base p) d')) (segs p) = statNode (Dir (tree (base p) d)) (segs p) →
  statPath d' p = statPath d p.
Proof. intros H. unfold statPath. by rewrite H. Qed.

Lemma ensureDir_fail p d e d' : ensureDir p d = (inl e, d') → d' = d.
Proof. unfold ensureDir. destruct (mkdirp _ _); [by intros [= _ <-]|done]. Qed.

Lemma prefix_pair {A} (a b c e : A) : [a; b] `prefix_of` [c; e] → a = c ∧ b = e.
Proof.
  intros H. pose proof (prefix_cons_inv_1 _ _ _ _ H) as ->.
  apply prefix_cons_inv_2 in H. by pose proof (prefix_cons_inv_1 _ _ _ _ H) as ->.
Qed.

Section Others.
Variable PUBLIC_URL : string.

Lemma storeFile_hidden_json f n data d b d' :
  storeFile PUBLIC_URL f n false data d = (json b, d') →
  visibility b = Some hidden ∧ url b = None.
Proof.
  destruct (validatePath f (Some n)) as [e|v] eqn:Ev.
  { by rewrite (storeFile_rejected _ _ _ _ _ _ _ Ev). }
  rewrite (storeFile_steps _ _ _ _ _ _ _ Ev).
  destruct (ensureDir _ d) as [[e|[]] d1]; [done|].
  destruct (pathJoin _ _) as [e|p]; [done|].
  destruct (writeFile p data d1) as [[e|[]] d2]; [done|].
  by intros [= <- _].
Qed.

(** X21.  A binary upload with an absent or empty [X-Folder] or
    [X-Filename] answers 400 and changes nothing; and unless [X-Expose] is
    exactly [true] the public root is left as it was and a 200 answer
    reports [hidden] without URL. *)
Theorem upload_headers xFolder xFilename xExpose data d :
  (truthy xFolder = false ∨ truthy xFilename = false →
     upload PUBLIC_URL xFolder xFilename xExpose data d
     = (failure 400 "Missing required headers: X-Folder, X-Filename", d)) ∧
  (xExpose ≠ Some "true" →
     public (upload PUBLIC_URL xFolder xFilename xExpose data d).2 = public d ∧
     ∀ b, (upload PUBLIC_URL xFolder xFilename xExpose data d).1 = json b →
          visibility b = Some hidden ∧ url b = None).
Proof.
  unfold upload, truthy. split.
  - destruct xFolder as [f|], xFilename as [n|]; try done.
    destruct (falsy f), (falsy n); try done. by intros [|].
  - intros He. rewrite (bool_decide_eq_false_2 _ He).
    destruct xFolder as [f|], xFilename as [n|]; try done.
    destruct (falsy f || falsy n); [done|]. split.
    + apply (storeFile_frame PUBLIC_URL f n false data d).
    + intros b Hb. apply (storeFile_hidden_json f n data d b
                            (storeFile PUBLIC_URL f n false data d).2).
      rewrite <- Hb. by destruct (storeFile _ _ _ _ _ _).
Qed.

(** X22.  An upload under a name without separator leaves every other
    file as it was: whatever the upload answers, any path [g/k] of either
    root other than the uploaded one names after it what it named
    before. *)
Theorem storeFile_keeps_others f n expose data d r g k :
  hasChar "/" n = false → (r, g, k) ≠ (baseDirOf expose, f, n) →
  statPath (storeFile PUBLIC_URL f n expose data d).2 (Path r [g; k] false)
  = statPath d (Path r [g; k] false).
Proof.
  intros Hflat Hne. apply statPath_ext. cbn [base segs].
  destruct (decide (r = baseDirOf expose)) as [->|Hr].
  2: { assert (r = opposite (baseDirOf expose)) as -> by (by destruct r, expose).
       by rewrite storeFile_frame. }
  assert (Hgk : (g, k) ≠ (f, n)) by (intros [= -> ->]; done).
  set (r := baseDirOf expose) in *.
  destruct (validatePath f (Some n)) as [e|v] eqn:Ev.
  { by rewrite (storeFile_rejected _ _ _ _ _ _ _ Ev). }
  rewrite (storeFile_steps _ _ _ _ _ _ _ Ev).
  destruct (ensureDir _ d) as [[e|[]] d1] eqn:E1.
  { apply ensureDir_fail in E1 as ->. done. }
  apply ensureDir_inv in E1 as (t1 & Ht1 & ->). cbn [itemPath base segs] in Ht1.
  assert (H1 : statNode (Dir t1) [g; k] = statNode (Dir (tree r d)) [g; k]).
  { apply (statNode_mkdirp_other _ _ _ _ Ht1). intros H.
    apply prefix_length in H. simpl in H. lia. }
  cbn [itemPath base].
  destruct (pathJoin _ _) as [e|p] eqn:Ep.
  { cbn [snd]. by rewrite tree_setTree. }
  destruct (writeFile p data _) as [[e|[]] d2] eqn:Ew; cbn [snd].
  { apply writeFile_fail in Ew as ->. by rewrite tree_setTree. }
  destruct (falsy n) eqn:En.
  { apply falsy_empty in En as ->. apply validatePath_empty_file in Ev as ->.
    done. }
  destruct (validatePath_file_inr _ _ _ Ev En) as [-> _].
  pose proof (valid_file_legal _ _ Ev Hflat) as Hn.
  cbn [PathUtils.filename] in Ep.
  change (Path r [f] false) with (itemPath r f None) in Ep.
  assert (Hp : p = Path r [f; n] false).
  { destruct (segments_legal n Hn) as [Hs He]. simpl in Ep.
    rewrite Hs, He, En in Ep. by injection Ep as <-. }
  subst p. apply writeFile_inv in Ew as (_ & t' & Hput & ->).
  cbn [base segs] in Hput. rewrite !tree_setTree in *.
  rewrite (statNode_putAt_other _ _ _ _ [g; k] Hput); [done| |].
  - intros [-> ->]%prefix_pair. done.
  - intros [-> ->]%prefix_pair. done.
Qed.

(** X23.  Deleting a file (a name without separator) leaves every other
    file as it was: any path [g/k] of either root with other names than the
    deleted one names after it what it named before. *)
Theorem deleteItem_keeps_others f n d r g k :
  falsy n = false → hasChar "/" n = false → (g, k) ≠ (f, n) →
  statPath (deleteItem f (Some n) d).2 (Path r [g; k] false)
  = statPath d (Path r [g; k] false).
Proof.
  intros En Hflat Hgk.
  destruct (validatePath f (Some n)) as [e|v] eqn:Ev.
  { by rewrite (deleteItem_rejected _ _ _ _ Ev). }
  destruct (validatePath_file_inr _ _ _ Ev En) as [-> _].
  pose proof (valid_file_legal _ _ Ev Hflat) as Hn.
  destruct (segments_legal n Hn) as [Hs _].
  assert (Hrm : ∀ r0, statPath (setTree r0 (removeAt (tree r0 d) (f :: segments n)) d)
                        (Path r [g; k] false) = statPath d (Path r [g; k] false)).
  { intros r0. apply statPath_ext. cbn [base segs].
    destruct (decide (r0 = r)) as [->|Hr]; [|by rewrite tree_setTree_ne].
    rewrite tree_setTree, Hs. apply statNode_removeAt_other.
    - intros [-> ->]%prefix_pair. done.
    - intros [-> ->]%prefix_pair. done. }
  rewrite deleteItem_file by done.
  destruct (existsIn d Public f (Some n)); [apply (Hrm Public)|].
  destruct (existsIn d Private f (Some n)); [apply (Hrm Private)|done].
Qed.

End Others.

Lemma upload_headers_witness :
  public (upload "https://files.example" (Some "reports") (Some "a.txt") (Some "TRUE") hi
            (Disk ∅ ∅)).2 = ∅.
Proof.
  exact (proj1 (proj2 (upload_headers "https://files.example" (Some "reports")
                         (Some "a.txt") (Some "TRUE") hi (Disk ∅ ∅))
                  ltac:(discriminate))).
Defined.

Lemma storeFile_keeps_others_witness :
  statPath (storeFile "https://files.example" "reports" "b.txt" false hi hiddenReports).2
           (Path Private ["reports"; "a.txt"] false)
  = statPath hiddenReports (Path Private ["reports"; "a.txt"] false).
Proof.
  apply (storeFile_keeps_others "https://files.example" "reports" "b.txt" false hi
           hiddenReports Private "reports" "a.txt").
  - reflexivity.
  - discriminate.
Defined.

Lemma deleteItem_keeps_others_witness :
  statPath (deleteItem "reports" (Some "a.txt") dualDisk).2
           (Path Public ["reports"; "b.txt"] false)
  = statPath dualDisk (Path Public ["reports"; "b.txt"] false).
Proof.
  apply (deleteItem_keeps_others "reports" "a.txt" dualDisk Public "reports" "b.txt").
  - reflexivity.
  - reflexivity.
  - discriminate.
Defined.

(** ** The root listing after a toggle *)

Lemma delete_legal k t : legalNames t → legalNames (delete k t).
Proof.
  intros Ht k' [n' Hn']. destruct (decide (k' = k)) as [->|Hne].
  - by rewrite lookup_delete_eq in Hn'.
  - rewrite lookup_delete_ne in Hn' by done. apply Ht. by exists n'.
Qed.

Section ListAfter.
Variable PUBLIC_URL : string.

(** What [GET /list] reports, entry by entry. *)
Lemma listRoot_entries d :
  legalNames (public d) → legalNames (private d) →
  ∃ l, listRoot PUBLIC_URL d = (rootListed l, d) ∧
       NoDup (map folderName l) ∧
       ∀ e, e ∈ l ↔
         (∃ t, public d !! folderName e = Some (Dir t)) ∧
         e = entryOf PUBLIC_URL Public (folderName e)
         ∨
         (∀ t, public d !! folderName e ≠ Some (Dir t)) ∧
         (∃ t, private d !! folderName e = Some (Dir t)) ∧
         e = entryOf PUBLIC_URL Private (folderName e).
Proof.
  intros Hpub Hpriv. eexists. split; [by apply listRoot_run|].
  set (exp := foldersAmong PUBLIC_URL Public (map_to_list (public d))).
  set (hid := foldersAmong PUBLIC_URL Private (map_to_list (private d))).
  split.
  - rewrite map_app. apply NoDup_app. split; [|split].
    + apply NoDup_foldersAmong, NoDup_fst_map_to_list.
    + intros x Hx Hin. apply list_elem_of_In, in_map_iff in Hin as (e & <- & Hin).
      by apply list_elem_of_In, list_elem_of_filter in Hin as [Hno _].
    + apply NoDup_map_filter, NoDup_foldersAmong, NoDup_fst_map_to_list.
  - intros e. rewrite elem_of_app, list_elem_of_filter.
    unfold exp, hid. rewrite !elem_of_foldersAmong_map, elem_of_names_foldersAmong.
    split.
    + intros [H|[H1 [H2 H3]]]; [by left|]. right. split; [|done].
      intros t Ht. apply H1. by exists t.
    + intros [H|[H1 [H2 H3]]]; [by left|]. right. split; [|done].
      intros [t Ht]. by apply (H1 t).
Qed.

(** X24.  The root listing follows the toggles: after [expose] of a hidden
    directory, [GET /list] reports its name once, exposed, with its URL;
    after [unexpose] of an exposed directory, once, hidden, without URL. *)
Theorem listRoot_after_toggle f d t :
  safePattern f = true → legalNames (public d) → legalNames (private d) →
  (private d !! f = Some (Dir t) → (∀ data, public d !! f ≠ Some (File data)) →
     ∃ l, listRoot PUBLIC_URL (exposeFolder PUBLIC_URL f d).2
          = (rootListed l, (exposeFolder PUBLIC_URL f d).2) ∧
          filter (λ e, folderName e = f) l
          = [FolderEntry f exposed (Some (buildPublicUrl PUBLIC_URL f None))]) ∧
  (public d !! f = Some (Dir t) → (∀ data, private d !! f ≠ Some (File data)) →
     ∃ l, listRoot PUBLIC_URL (unexposeFolder f d).2
          = (rootListed l, (unexposeFolder f d).2) ∧
          filter (λ e, folderName e = f) l = [FolderEntry f hidden None]).
Proof.
  intros Hf Hpub Hpriv. pose proof (safePattern_legal f Hf) as Hlf. split.
  - intros Ht Hno.
    assert (E : existsIn d Private f None = true)
      by (apply existsIn_folder_true; by exists (Dir t)).
    pose proof (move_folder_cross d Private f t Ht) as Hm.
    cbn [opposite] in Hm. rewrite exposeFolder_run, E by done.
    rewrite Hm by done. cbn [snd].
    set (d1 := setTree Public _ _).
    destruct (listRoot_entries d1) as (l & Hl & Hnd & Hmem).
    { unfold d1. simpl. by apply insert_legal. }
    { unfold d1. simpl. by apply delete_legal. }
    exists l. split; [done|].
    change (FolderEntry f exposed (Some (buildPublicUrl PUBLIC_URL f None)))
      with (entryOf PUBLIC_URL Public f).
    rewrite <- (filter_by_name _ (entryOf PUBLIC_URL Public f) Hnd).
    + apply filter_local. intros e _. by rewrite folderName_entryOf.
    + apply Hmem. left. rewrite folderName_entryOf. split; [|done].
      exists t. unfold d1. simpl. by rewrite lookup_insert_eq.
  - intros Ht Hno.
    assert (E : existsIn d Public f None = true)
      by (apply existsIn_folder_true; by exists (Dir t)).
    pose proof (move_folder_cross d Public f t Ht) as Hm.
    cbn [opposite] in Hm. rewrite unexposeFolder_run, E by done.
    rewrite Hm by done. cbn [snd].
    set (d1 := setTree Private _ _).
    destruct (listRoot_entries d1) as (l & Hl & Hnd & Hmem).
    { unfold d1. simpl. by apply delete_legal. }
    { unfold d1. simpl. by apply insert_legal. }
    exists l. split; [done|].
    change (FolderEntry f hidden None) with (entryOf PUBLIC_URL Private f).
    rewrite <- (filter_by_name _ (entryOf PUBLIC_URL Private f) Hnd).
    + apply filter_local. intros e _. by rewrite folderName_entryOf.
    + apply Hmem. right. rewrite folderName_entryOf. split; [|split; [|done]].
      * intros t'. unfold d1. simpl. by rewrite lookup_delete_eq.
      * exists t. unfold d1. simpl. by rewrite lookup_insert_eq.
Qed.

End ListAfter.

Lemma legalNames_hiddenReports :
  legalNames (public hiddenReports) ∧ legalNames (private hiddenReports).
Proof.
  split; [apply empty_legal|]. by apply singleton_legal.
Qed.

Lemma listRoot_after_toggle_witness :
  ∃ l, listRoot "https://files.example"
         (exposeFolder "https://files.example" "reports" hiddenReports).2
       = (rootListed l, (exposeFolder "https://files.example" "reports" hiddenReports).2) ∧
       filter (λ e, folderName e = "reports") l
       = [FolderEntry "reports" exposed (Some "https://files.example/public/reports/")].
Proof.
  apply (proj1 (listRoot_after_toggle "https://files.example" "reports" hiddenReports
                  {[ "a.txt" := File hi ]} eq_refl
                  (proj1 legalNames_hiddenReports) (proj2 legalNames_hiddenReports))).
  - reflexivity.
  - intros data. vm_compute. discriminate.
Defined.

(** ** One root per folder *)

Section Exclusive.
Variable PUBLIC_URL : string.

Lemma exclusive_move d r f n :
  exclusive d → tree r d !! f = Some n →
  move (itemPath r f None) (itemPath (opposite r) f None) d
  = (inr (), setTree (opposite r) (<[f := n]> (tree (opposite r) d))
               (setTree r (delete f (tree r d)) d)) ∧
  exclusive (setTree (opposite r) (<[f := n]> (tree (opposite r) d))
               (setTree r (delete f (tree r d)) d)).
Proof.
  intros Hx Hn.
  assert (Ho : tree (opposite r) d !! f = None).
  { destruct (Hx f) as [H|H]; destruct r; simpl in *; congruence. }
  split.
  - apply move_top_cross; [apply not_eq_sym, opposite_ne|done|]. by rewrite Ho.
  - intros k. destruct (decide (k = f)) as [->|Hne].
    + destruct r; simpl; rewrite lookup_delete_eq; [by left|by right].
    + destruct r; simpl; rewrite lookup_insert_ne, lookup_delete_ne by done;
        destruct (Hx k); auto.
Qed.

Lemma exclusive_removeAt d r f names :
  names ≠ [] → exclusive d →
  exclusive (setTree r (removeAt (tree r d) (f :: names)) d).
Proof.
  intros Hne Hx k. destruct names as [|s names]; [done|].
  rewrite removeAt_cons.
  destruct (tree r d !! f) as [[data|t0]|] eqn:Ef; try (rewrite setTree_tree; apply Hx).
  destruct (decide (k = f)) as [->|Hk].
  - destruct (Hx f) as [H|H]; destruct r; simpl in *; try congruence; auto.
  - destruct r; simpl; rewrite lookup_insert_ne by done; apply Hx.
Qed.

(** X25.  On a disk where no name is an entry of both roots, [expose],
    [unexpose] and delete keep it so, whatever they answer. *)
Theorem toggle_delete_keep_exclusive f d :
  exclusive d →
  exclusive (exposeFolder PUBLIC_URL f d).2 ∧
  exclusive (unexposeFolder f d).2 ∧
  ∀ fn, exclusive (deleteItem f fn d).2.
Proof.
  intros Hx. split; [|split].
  - destruct (validatePath f None) as [e|v] eqn:Ev.
    { by rewrite (exposeFolder_rejected _ _ _ _ Ev). }
    apply validatePath_folder_inr in Ev as [_ Hf]. rewrite exposeFolder_run by done.
    destruct (existsIn d Private f None) eqn:E.
    + apply existsIn_folder_true in E as [n Hn].
      destruct (exclusive_move d Private f n Hx Hn) as [Hm Hx'].
      cbn [opposite] in Hm. by rewrite Hm.
    + by destruct (existsIn d Public f None).
  - destruct (validatePath f None) as [e|v] eqn:Ev.
    { by rewrite (unexposeFolder_rejected _ _ _ Ev). }
    apply validatePath_folder_inr in Ev as [_ Hf]. rewrite unexposeFolder_run by done.
    destruct (existsIn d Public f None) eqn:E.
    + apply existsIn_folder_true in E as [n Hn].
      destruct (exclusive_move d Public f n Hx Hn) as [Hm Hx'].
      cbn [opposite] in Hm. by rewrite Hm.
    + by destruct (existsIn d Private f None).
  - intros fn. destruct (validatePath f fn) as [e|v] eqn:Ev.
    { by rewrite (deleteItem_rejected _ _ _ _ Ev). }
    destruct (truthy fn) eqn:Et.
    + destruct fn as [n|]; [|done]. simpl in Et. apply negb_true_iff in Et.
      destruct (validatePath_file_inr _ _ _ Ev Et) as [-> _].
      pose proof (validatePath_inr _ _ _ Ev) as (_ & _ & Hn). rewrite Et in Hn.
      destruct Hn as (_ & _ & Hb). apply segments_head in Hb.
      rewrite deleteItem_file by done.
      destruct (existsIn d Public f (Some n)); [by apply (exclusive_removeAt d Public)|].
      destruct (existsIn d Private f (Some n)); [by apply (exclusive_removeAt d Private)|done].
    + rewrite validatePath_falsy_file in Ev by done.
      apply validatePath_folder_inr in Ev as [_ Hf].
      rewrite deleteItem_falsy, deleteItem_folder by done.
      destruct (existsIn d Public f None || existsIn d Private f None); [|done].
      intros k. simpl. destruct (decide (k = f)) as [->|Hk].
      * left. by rewrite lookup_delete_eq.
      * rewrite !lookup_delete_ne by done. apply Hx.
Qed.

End Exclusive.

Lemma toggle_delete_keep_exclusive_witness :
  public (exposeFolder "https://files.example" "reports" hiddenReports).2 !! "reports" = None ∨
  private (exposeFolder "https://files.example" "reports" hiddenReports).2 !! "reports" = None.
Proof.
  apply (proj1 (toggle_delete_keep_exclusive "https://files.example" "reports"
                  hiddenReports ltac:(intros k; left; reflexivity)) "reports").
Defined.

(** ** Renaming onto a name that is taken *)

Section RenameOver.
Variable PUBLIC_URL : string.

(** X26.  Renaming a folder onto the name of another directory of the root
    it resolved in answers 200 and replaces that directory: the new name
    holds the content of the renamed folder, and what it held before is
    gone. *)
Theorem rename_folder_overwrites f fn g d r a b :
  safePattern f = true → safePattern g = true → f ≠ g →
  resolve d f None = Some r →
  tree r d !! f = Some (Dir a) → tree r d !! g = Some (Dir b) →
  renameItem PUBLIC_URL (Some "folder") (Some f) fn (Some g) d
  = (folderRenamed PUBLIC_URL r g, setTree r (<[g := Dir a]> (delete f (tree r d))) d) ∧
  tree r (renameItem PUBLIC_URL (Some "folder") (Some f) fn (Some g) d).2 !! g
  = Some (Dir a).
Proof.
  intros Hf Hg Hfg Hr Ha Hb.
  rewrite renameItem_folder_run, Hr by done.
  unfold itemPath. rewrite (move_top_over d r f g (Dir a) (Dir b)) by done.
  split; [done|]. cbn [snd]. by rewrite tree_setTree, lookup_insert_eq.
Qed.

End RenameOver.

Lemma rename_folder_overwrites_witness :
  tree Private (renameItem "https://files.example" (Some "folder") (Some "drafts") None
                  (Some "reports") mixedDisk).2 !! "reports" = Some (Dir ∅).
Proof.
  exact (proj2 (rename_folder_overwrites "https://files.example" "drafts" None "reports"
                  mixedDisk Private ∅ {[ "a.txt" := File staleCopy ]}
                  eq_refl eq_refl ltac:(discriminate) eq_refl eq_refl eq_refl)).
Defined.

(** ** Uploading, then deleting *)

Section UploadDelete.
Variable PUBLIC_URL : string.

(** X27.  Uploading a file that its folder did not hold, under a name
    without separator, and deleting it again restores the disk exactly,
    provided the delete resolves to the root uploaded to: the upload was
    exposed, or the public root did not hold that file. *)
Theorem upload_delete_round_trip f n expose data d b d' t0 :
  storeFile PUBLIC_URL f n expose data d = (json b, d') → hasChar "/" n = false →
  tree (baseDirOf expose) d !! f = Some (Dir t0) → t0 !! n = None →
  expose = true ∨ existsIn d Public f (Some n) = false →
  deleteItem f (Some n) d' = (fileDeleted f n, d).
Proof.
  intros H Hflat Ht0 Hn0 Hres.
  pose proof (storeFile_json_inv _ _ _ _ _ _ _ _ H) as (Hf & _ & Hv & _).
  pose proof (valid_file_legal _ _ Hv Hflat) as Hn.
  destruct (segments_legal n Hn) as [Hs _].
  destruct (storeFile_flat_inv _ _ _ _ _ _ _ _ H Hflat) as (t1 & Ht1 & ->).
  destruct Ht1 as [Ht1|[Ht1 _]]; [|congruence].
  rewrite Ht0 in Ht1. injection Ht1 as <-.
  set (r := baseDirOf expose) in *.
  set (d' := setTree r _ d).
  assert (Hin : existsIn d' r f (Some n) = true).
  { rewrite existsIn_file_flat by done. unfold d'.
    rewrite tree_setTree, lookup_insert_eq. apply bool_decide_eq_true.
    rewrite lookup_insert_eq. by eexists. }
  assert (Hback : setTree r (removeAt (tree r d') (f :: segments n)) d' = d).
  { rewrite Hs, removeAt_cons. unfold d'.
    rewrite tree_setTree, lookup_insert_eq. cbn [removeAt].
    rewrite delete_insert_id by done.
    by rewrite insert_insert_eq, insert_id, setTree_setTree, setTree_tree. }
  rewrite deleteItem_file by done.
  subst r. destruct expose; cbn [baseDirOf] in *.
  - change (public d') with (tree Public d'). by rewrite Hin, Hback.
  - destruct Hres as [|Hres]; [done|].
    assert (E0 : existsIn d' Public f (Some n) = false).
    { rewrite <- Hres. by apply existsIn_ext. }
    change (private d') with (tree Private d'). by rewrite E0, Hin, Hback.
Qed.

End UploadDelete.

Lemma upload_delete_round_trip_witness :
  deleteItem "reports" (Some "b.txt")
    (storeFile "https://files.example" "reports" "b.txt" false hi hiddenReports).2
  = (fileDeleted "reports" "b.txt", hiddenReports).
Proof.
  apply (upload_delete_round_trip "https://files.example" "reports" "b.txt" false hi
           hiddenReports
           (Body "file_uploaded" (Some hidden) None (Some "reports") (Some "b.txt")
                 "File uploaded" None None)
           _ {[ "a.txt" := File hi ]}).
  - vm_compute. reflexivity.
  - reflexivity.
  - reflexivity.
  - reflexivity.
  - right. reflexivity.
Defined.

(** ** The scenarios of the specification, run *)

(** Create a folder, upload into it hidden, list it. *)
Example scenario_hidden_upload :
  let d1 := (mkdir "https://files.example" (Some "reports") false (Disk ∅ ∅)).2 in
  let d2 := (storeFile "https://files.example" "reports" "a.txt" false hi d1).2 in
  listFolder "https://files.example" "reports" d2
  = (json (Body "folder_listed" (Some hidden) None (Some "reports") None
                "Folder listed" (Some [FileEntry "a.txt" 2]) None), d2).
Proof. vm_compute. reflexivity. Qed.

(** Expose the folder, list it again. *)
Example scenario_expose :
  let d := (exposeFolder "https://files.example" "reports" hiddenReports).2 in
  listFolder "https://files.example" "reports" d
  = (json (Body "folder_listed" (Some exposed)
                (Some "https://files.example/public/reports/") (Some "reports") None
                "Folder listed" (Some [FileEntry "a.txt" 2]) None), d).
Proof. vm_compute. reflexivity. Qed.

(** Rename the file; the old name is not found any more. *)
Example scenario_rename :
  let d := (renameItem "https://files.example" (Some "file") (Some "reports")
              (Some "a.txt") (Some "b.txt") hiddenReports).2 in
  existsIn d Private "reports" (Some "b.txt") = true ∧
  (deleteItem "reports" (Some "a.txt") d).1 = failure 404 "File not found".
Proof. split; vm_compute; reflexivity. Qed.

(** Delete the folder, in both roots; delete it again. *)
Example scenario_delete_twice :
  let d := (deleteItem "reports" None dualDisk).2 in
  (deleteItem "reports" None dualDisk).1 = folderDeleted "reports" ∧
  (listRoot "https://files.example" d).1 = rootListed [] ∧
  (deleteItem "reports" None d).1 = failure 404 "Folder not found".
Proof. repeat split; vm_compute; reflexivity. Qed.

(** The two encodings of an upload run the same code. *)
Example scenario_upload_headers :
  upload "https://files.example" (Some "reports") (Some "a.txt") (Some "true") hi
         (Disk ∅ ∅)
  = storeFile "https://files.example" "reports" "a.txt" true hi (Disk ∅ ∅).
Proof. reflexivity. Qed.
